(** * Relative mRNA expression from qPCR data (Mathis_Figure_S7B_qPCR.ipynb)

    A shallow embedding of the notebook's data import cell, of its
    "Relative Expression Calculations" cell (the ΔΔCt method) and of the
    loop that collects the bars of its figure, followed by the properties
    the specification states about them and by further properties of the
    code.

    Numbers.  The notebook computes with binary64 floats.  Here a float is
    a real number or one of the IEEE special values +inf, -inf and NaN.  The
    range of binary64 is kept: where a result is too large in magnitude,
    numpy's arithmetic and Python's [+] give an infinity, and [math.pow]
    and [**] on a Python float raise OverflowError; [math.pow] and [float]
    give 0.0 where a result is too small.  Inside the range an operation
    gives the real result: rounding is left out, and with it the gradual
    underflow of sums and products.  The statements below are about these
    operations; where one gives the value of a result in real numbers, it
    holds of the notebook up to the rounding of the floats.

    Dictionaries are [gmap string _]; Python exceptions are the constructors
    of [exn], threaded through the error monad [result]. *)

From Stdlib Require Import Reals Lra String Ascii.
From stdpp Require Import gmap strings list fin_maps.

#[local] Set Warnings "-clear-no-such-hyp".

Local Open Scope string_scope.

(** ** Exceptions and the error monad *)

Inductive exn : Type :=
  | KeyError      (* d[k] with k not a key of d *)
  | IndexError    (* l[i] with i out of range *)
  | ValueError    (* float(s) on a non-number, math.sqrt below zero *)
  | IOError       (* open() of a missing file *)
  | OverflowError. (* math.pow or x**2 with a result out of range *)

Inductive result (A : Type) : Type :=
  | Ok (a : A)
  | Raise (e : exn).
Arguments Ok {A} a.
Arguments Raise {A} e.

#[global] Instance result_ret : MRet result := fun _ a => Ok a.
#[global] Instance result_bind : MBind result := fun _ _ f r =>
  match r with
  | Ok a => f a
  | Raise e => Raise e
  end.

Definition is_Ok {A} (r : result A) : Prop := ∃ a, r = Ok a.

(** [d[k]] on a dictionary. *)
Definition getitem {V} (d : gmap string V) (k : string) : result V :=
  match d !! k with
  | Some v => Ok v
  | None => Raise KeyError
  end.

(** [l[i]] on a list, for a non-negative literal index. *)
Definition index {A} (l : list A) (i : nat) : result A :=
  match l !! i with
  | Some a => Ok a
  | None => Raise IndexError
  end.

(** [for x in xs: body], the loop state threaded through; an exception in
    the body leaves the loop. *)
Fixpoint for_each {A S} (xs : list A) (body : A → S → result S) (s : S)
  : result S :=
  match xs with
  | [] => Ok s
  | x :: xs' => s' ← body x s; for_each xs' body s'
  end.

(** [d.keys()] *)
Definition keys {V} (d : gmap string V) : list string := (map_to_list d).*1.

(** ** Floats *)

Inductive pyfloat : Type :=
  | Fin (r : R)
  | PInf
  | NInf
  | NaN.

Definition is_fin (x : pyfloat) : bool :=
  match x with Fin _ => true | _ => false end.

(** Sign of a real: [Lt] negative, [Eq] zero, [Gt] positive. *)
Definition Rsign (r : R) : comparison :=
  if Req_EM_T r 0 then Eq else if Rlt_dec r 0 then Lt else Gt.

Definition fsign (x : pyfloat) : option comparison :=
  match x with
  | Fin r => Some (Rsign r)
  | PInf => Some Gt
  | NInf => Some Lt
  | NaN => None
  end.

Definition fneg (x : pyfloat) : pyfloat :=
  match x with
  | Fin r => Fin (- r)
  | PInf => NInf
  | NInf => PInf
  | NaN => NaN
  end.

(** An infinity carrying the sign [c]; NaN for the sign of zero. *)
Definition inf_of (c : comparison) : pyfloat :=
  match c with Gt => PInf | Lt => NInf | Eq => NaN end.

(** The range of binary64.  A real of magnitude 2^1024 - 2^970 or more
    rounds to an infinity (the largest float is 2^1024 - 2^971); a real of
    magnitude 2^-1075 or less rounds to zero (the smallest float above zero
    is 2^-1074). *)
Definition overflow_threshold : R := 2 ^ 1024 - 2 ^ 970.

Definition underflow_threshold : R := / 2 ^ 1075.

(** The float an arithmetic result becomes: an infinity when it is out of
    range, the result itself otherwise. *)
Definition finish (x : R) : pyfloat :=
  if Rle_dec overflow_threshold (Rabs x) then inf_of (Rsign x) else Fin x.

Definition fadd (x y : pyfloat) : pyfloat :=
  match x, y with
  | NaN, _ | _, NaN => NaN
  | Fin a, Fin b => finish (a + b)
  | PInf, NInf | NInf, PInf => NaN
  | PInf, _ | _, PInf => PInf
  | NInf, _ | _, NInf => NInf
  end.

Definition fsub (x y : pyfloat) : pyfloat :=
  match x, y with
  | NaN, _ | _, NaN => NaN
  | Fin a, Fin b => finish (a - b)
  | PInf, PInf | NInf, NInf => NaN
  | PInf, _ | _, NInf => PInf
  | NInf, _ | _, PInf => NInf
  end.

Definition sign_mul (a b : comparison) : comparison :=
  match a, b with
  | Eq, _ | _, Eq => Eq
  | Gt, c | c, Gt => c
  | Lt, Lt => Gt
  end.

Definition fmul (x y : pyfloat) : pyfloat :=
  match x, y with
  | Fin a, Fin b => finish (a * b)
  | _, _ =>
      match fsign x, fsign y with
      | Some a, Some b => inf_of (sign_mul a b)
      | _, _ => NaN
      end
  end.

(** numpy's float64 division: a zero divisor gives an infinity or NaN, it
    does not raise.  Divisors in this program are counts, never negative
    zero. *)
Definition fdiv (x y : pyfloat) : pyfloat :=
  match x, y with
  | NaN, _ | _, NaN => NaN
  | Fin a, Fin b =>
      if Req_EM_T b 0 then inf_of (Rsign a) else finish (a / b)
  | Fin _, _ => Fin 0
  | _, Fin b =>
      match fsign x with
      | Some a => inf_of (sign_mul a (if Req_EM_T b 0 then Gt else Rsign b))
      | None => NaN
      end
  | _, _ => NaN
  end.

(** [x**2] on a numpy float64: an infinity when the square is out of
    range. *)
Definition fsquare (x : pyfloat) : pyfloat := fmul x x.

(** [x**2] on a Python float: OverflowError when the square is out of
    range. *)
Definition py_square (x : pyfloat) : result pyfloat :=
  match x with
  | Fin r =>
      if Rle_dec overflow_threshold (r * r) then Raise OverflowError
      else Ok (Fin (r * r))
  | PInf | NInf => Ok PInf
  | NaN => Ok NaN
  end.

(** [np.sqrt]: NaN on a negative argument. *)
Definition np_sqrt (x : pyfloat) : pyfloat :=
  match x with
  | Fin r => if Rlt_dec r 0 then NaN else Fin (sqrt r)
  | PInf => PInf
  | NInf | NaN => NaN
  end.

(** [math.sqrt]: ValueError on a negative argument, NaN passes through. *)
Definition math_sqrt (x : pyfloat) : result pyfloat :=
  match x with
  | Fin r => if Rlt_dec r 0 then Raise ValueError else Ok (Fin (sqrt r))
  | PInf => Ok PInf
  | NInf => Raise ValueError
  | NaN => Ok NaN
  end.

(** [math.pow(2, y)]: OverflowError from 2^1024 on, 0.0 from 2^-1075
    down. *)
Definition math_pow2 (y : pyfloat) : result pyfloat :=
  match y with
  | Fin r =>
      if Rle_dec 1024 r then Raise OverflowError
      else if Rle_dec r (-1075) then Ok (Fin 0)
      else Ok (Fin (Rpower 2 r))
  | PInf => Ok PInf
  | NInf => Ok (Fin 0)
  | NaN => Ok NaN
  end.

(** [np.log(2)] *)
Definition np_log2 : pyfloat := Fin (ln 2).

(** [np.mean(l)]: the sum divided by the count; 0/0 = NaN on the empty
    list.  The sum is taken from left to right; numpy adds long arrays in
    blocks, which gives the same sum wherever no partial sum is out of
    range. *)
Definition fsum (l : list pyfloat) : pyfloat := foldl fadd (Fin 0) l.

Definition count (l : list pyfloat) : pyfloat := Fin (INR (length l)).

Definition np_mean (l : list pyfloat) : pyfloat := fdiv (fsum l) (count l).

(** [np.std(l, ddof=1)]: the divisor is max(n - 1, 0). *)
Definition np_std1 (l : list pyfloat) : pyfloat :=
  let m := np_mean l in
  np_sqrt (fdiv (fsum (map (λ x, fsquare (fsub x m)) l))
                (Fin (INR (length l - 1)))).

(** [scipy.stats.sem(l)] with its defaults: std(ddof=1) / sqrt(n). *)
Definition stats_sem (l : list pyfloat) : pyfloat :=
  fdiv (np_std1 l) (np_sqrt (count l)).

(** ** Strings *)

(** [s.split(',')] *)
Fixpoint split_on (sep : ascii) (s : string) : list string :=
  match s with
  | EmptyString => [EmptyString]
  | String c s' =>
      if Ascii.eqb c sep then EmptyString :: split_on sep s'
      else match split_on sep s' with
           | field :: fields => String c field :: fields
           | [] => [String c EmptyString]
           end
  end.

(** [float(s)] on a string, after Python 2.7's grammar: surrounding
    whitespace is dropped, then an optional sign and either a decimal
    numeral with optional fraction and exponent, or one of inf, infinity,
    nan in any case.  [None] stands for ValueError.  A numeral denotes its
    decimal value when that is within the range of a float, an infinity
    when it is too large and zero when it is too small. *)
Definition is_space (c : ascii) : bool :=
  let n := N_of_ascii c in
  ((9 <=? n) && (n <=? 13) || (n =? 32))%N.

Fixpoint lstrip (cs : list ascii) : list ascii :=
  match cs with
  | c :: cs' => if is_space c then lstrip cs' else cs
  | [] => []
  end.

Definition strip (cs : list ascii) : list ascii :=
  rev (lstrip (rev (lstrip cs))).

Definition lower (c : ascii) : ascii :=
  let n := N_of_ascii c in
  if ((65 <=? n) && (n <=? 90))%N then ascii_of_N (n + 32) else c.

Definition digit_of (c : ascii) : option Z :=
  let n := N_of_ascii c in
  if ((48 <=? n) && (n <=? 57))%N then Some (Z.of_N (n - 48)) else None.

(** Reads a run of digits: the value accumulated onto [acc], the number of
    digits read, and the rest of the input. *)
Fixpoint take_digits (acc : Z) (n : Z) (cs : list ascii)
  : Z * Z * list ascii :=
  match cs with
  | c :: cs' =>
      match digit_of c with
      | Some d => take_digits (10 * acc + d) (n + 1) cs'
      | None => (acc, n, cs)
      end
  | [] => (acc, n, [])
  end.

Definition take_sign (cs : list ascii) : Z * list ascii :=
  match cs with
  | "+"%char :: cs' => (1%Z, cs')
  | "-"%char :: cs' => ((-1)%Z, cs')
  | _ => (1%Z, cs)
  end.

Definition special_value (cs : list ascii) : option pyfloat :=
  let w := string_of_list_ascii (map lower cs) in
  if String.eqb w "inf" || String.eqb w "infinity" then Some PInf
  else if String.eqb w "nan" then Some NaN
  else None.

Definition decimal (sign mantissa exponent : Z) : pyfloat :=
  let v := (IZR (sign * mantissa) * powerRZ 10 exponent)%R in
  if Rle_dec overflow_threshold (Rabs v) then inf_of (Rsign v)
  else if Rle_dec (Rabs v) underflow_threshold then Fin 0
  else Fin v.

Definition py_float (s : string) : option pyfloat :=
  let '(sg, cs) := take_sign (strip (list_ascii_of_string s)) in
  match special_value cs with
  | Some v => Some (if (sg <? 0)%Z then fneg v else v)
  | None =>
      let '(ip, ni, cs) := take_digits 0 0 cs in
      let '(m, nf, cs) :=
        match cs with
        | "."%char :: cs' => take_digits ip 0 cs'
        | _ => (ip, 0%Z, cs)
        end in
      if (ni + nf =? 0)%Z then None
      else match cs with
           | [] => Some (decimal sg m (- nf))
           | c :: cs' =>
               if Ascii.eqb (lower c) "e" then
                 let '(esg, cs') := take_sign cs' in
                 let '(e, ne, cs') := take_digits 0 0 cs' in
                 if (ne =? 0)%Z then None
                 else match cs' with
                      | [] => Some (decimal sg m (esg * e - nf))
                      | _ :: _ => None
                      end
               else None
           end
  end.

(** [float(s)] as the notebook calls it. *)
Definition float_of (s : string) : result pyfloat :=
  match py_float s with
  | Some v => Ok v
  | None => Raise ValueError
  end.

(** ** The notebook's constants (cell 2) *)

Definition input_path : string := "inputs/".

Definition file_list : list string :=
  ["20200806_luna_rtqpcr_quant.csv"; "20200813_luna_rtqpcr_quant.csv"].

Definition gene_list : gmap string (list string) :=
  <["20200813" := ["hcaT"; "ispA"; "mukF"; "tadA"]]>
    (<["20200806" := ["hcaT"; "topA"; "ribB"]]> ∅).

(** ** Import data (cell 3) *)

(** The loop header shared by every pass of the notebook:
[[
    for file_name in file_list:
        file_date = file_name[0:8]
        for gene in gene_list[file_date]:
]]
*)
Definition for_genes {S} (fl : list string) (gl : gmap string (list string))
    (body : string → string → S → result S) (s : S) : result S :=
  for_each fl (λ file_name s,
    let file_date := substring 0 8 file_name in
    genes ← getitem gl file_date;
    for_each genes (body file_date) s) s.

(** [d[k1][k2] = v] *)
Definition setitem2 {V} (d : gmap string (gmap string V)) (k1 k2 : string)
    (v : V) : result (gmap string (gmap string V)) :=
  t ← getitem d k1;
  Ok (<[k1 := <[k2 := v]> t]> d).

Definition init_genes (fl : list string) (gl : gmap string (list string))
  : result (gmap string (gmap string (list pyfloat))) :=
  for_genes fl gl (λ _ gene cq_dict, Ok (<[gene := ∅]> cq_dict)) ∅.

Definition init_guides (fl : list string) (gl : gmap string (list string))
    (cq_dict : gmap string (gmap string (list pyfloat)))
  : result (gmap string (gmap string (list pyfloat))) :=
  for_genes fl gl (λ file_date gene cq_dict,
    if decide (gene ≠ "hcaT") then
      cq_dict ← setitem2 cq_dict gene (gene +:+ "1_C") [];
      cq_dict ← setitem2 cq_dict gene (gene +:+ "3_C") [];
      cq_dict ← setitem2 cq_dict gene ("Rand42_" +:+ file_date) [];
      cq_dict ← setitem2 cq_dict "hcaT" (gene +:+ "1_C") [];
      cq_dict ← setitem2 cq_dict "hcaT" (gene +:+ "3_C") [];
      setitem2 cq_dict "hcaT" ("Rand42_" +:+ file_date) []
    else Ok cq_dict) cq_dict.

(** The key-initialisation pass: the first two loops of the cell. *)
Definition init_keys (fl : list string) (gl : gmap string (list string))
  : result (gmap string (gmap string (list pyfloat))) :=
  cq_dict ← init_genes fl gl;
  init_guides fl gl cq_dict.

(** One pass of the body of [for line in f]. *)
Definition process_line (gl : gmap string (list string)) (file_date : string)
    (line : string) (cq_dict : gmap string (gmap string (list pyfloat)))
  : result (gmap string (gmap string (list pyfloat))) :=
  let sp := split_on "," line in
  sp2 ← index sp 2;
  if decide (sp2 = "") then Ok cq_dict else
  sp5 ← index sp 5;
  if decide (sp5 = "") then Ok cq_dict else
  genes ← getitem gl file_date;
  if decide (sp2 ∈ genes) then
    sp4 ← index sp 4;
    guides ← getitem cq_dict sp2;
    match guides !! sp4 with
    | Some replicates =>
        cq ← float_of sp5;
        Ok (<[sp2 := <[sp4 := (replicates ++ [cq])%list]> guides]> cq_dict)
    | None => Ok cq_dict
    end
  else Ok cq_dict.

(** A file is the list of its lines; [f.readline()] takes the first one
    away before the loop over the rest. *)
Definition read_lines (gl : gmap string (list string)) (file_date : string)
    (lines : list string) (cq_dict : gmap string (gmap string (list pyfloat)))
  : result (gmap string (gmap string (list pyfloat))) :=
  for_each (tail lines) (process_line gl file_date) cq_dict.

(** [open(path, 'r')] on a file system mapping paths to files. *)
Definition open (fs : gmap string (list string)) (path : string)
  : result (list string) :=
  match fs !! path with
  | Some lines => Ok lines
  | None => Raise IOError
  end.

Definition read_files (fl : list string) (gl : gmap string (list string))
    (fs : gmap string (list string))
    (cq_dict : gmap string (gmap string (list pyfloat)))
  : result (gmap string (gmap string (list pyfloat))) :=
  for_each fl (λ file_name cq_dict,
    let file_date := substring 0 8 file_name in
    lines ← open fs (input_path +:+ file_name);
    read_lines gl file_date lines cq_dict) cq_dict.

Definition import_data (fl : list string) (gl : gmap string (list string))
    (fs : gmap string (list string))
  : result (gmap string (gmap string (list pyfloat))) :=
  cq_dict ← init_keys fl gl;
  read_files fl gl fs cq_dict.

(** ** Well correction (cells 4 and 5) *)

(** The first replicate of hcaT in the Rand42 cells of 20200806 is dropped
    by hand: the group is overwritten with the two values kept. *)
Definition well_correction
    (cq_dict : gmap string (gmap string (list pyfloat)))
  : result (gmap string (gmap string (list pyfloat))) :=
  setitem2 cq_dict "hcaT" "Rand42_20200806"
    [Fin 23.48359183; Fin 23.68555433].

(** ** Relative expression calculations (cell 6) *)

(** [d[k1][k2]] *)
Definition getitem2 {V} (d : gmap string (gmap string V)) (k1 k2 : string)
  : result V :=
  t ← getitem d k1;
  getitem t k2.

(** Find mean and sem of replicate values: the loop over the guides of one
    gene, then the pass over all genes. *)
Definition gene_stats (cq_dict : gmap string (gmap string (list pyfloat)))
    (gene : string)
  : result (gmap string pyfloat * gmap string pyfloat) :=
  guides ← getitem cq_dict gene;
  for_each (keys guides) (λ guide '(means, sems),
    replicates ← getitem2 cq_dict gene guide;
    Ok (<[guide := np_mean replicates]> means,
        <[guide := stats_sem replicates]> sems)) (∅, ∅).

Definition replicate_stats (fl : list string) (gl : gmap string (list string))
    (cq_dict : gmap string (gmap string (list pyfloat)))
  : result (gmap string (gmap string pyfloat) *
            gmap string (gmap string pyfloat)) :=
  for_genes fl gl (λ _ gene '(cq_mean_dict, cq_sem_dict),
    '(means, sems) ← gene_stats cq_dict gene;
    Ok (<[gene := means]> cq_mean_dict, <[gene := sems]> cq_sem_dict)) (∅, ∅).

(** Normalize by hcaT abundance. *)
Definition gene_d_cq
    (cq_mean_dict cq_sem_dict : gmap string (gmap string pyfloat))
    (gene : string)
  : result (gmap string pyfloat * gmap string pyfloat) :=
  guides ← getitem cq_mean_dict gene;
  for_each (keys guides) (λ guide '(means, sems),
    hcaT_mean ← getitem2 cq_mean_dict "hcaT" guide;
    gene_mean ← getitem2 cq_mean_dict gene guide;
    hcaT_sem ← getitem2 cq_sem_dict "hcaT" guide;
    gene_sem ← getitem2 cq_sem_dict gene guide;
    sem ← math_sqrt (fadd (fsquare hcaT_sem) (fsquare gene_sem));
    Ok (<[guide := fsub hcaT_mean gene_mean]> means,
        <[guide := sem]> sems)) (∅, ∅).

Definition normalize_hcaT (fl : list string) (gl : gmap string (list string))
    (cq_mean_dict cq_sem_dict : gmap string (gmap string pyfloat))
  : result (gmap string (gmap string pyfloat) *
            gmap string (gmap string pyfloat)) :=
  for_genes fl gl (λ _ gene '(d_cq_mean_dict, d_cq_sem_dict),
    if decide (gene ≠ "hcaT") then
      '(means, sems) ← gene_d_cq cq_mean_dict cq_sem_dict gene;
      Ok (<[gene := means]> d_cq_mean_dict, <[gene := sems]> d_cq_sem_dict)
    else Ok (d_cq_mean_dict, d_cq_sem_dict)) (∅, ∅).

(** Normalize by target transcript abundance without CRISPRi.  The values
    of d_cq_sem_dict come from [math.sqrt]: they are Python floats, and
    their squares raise where numpy's would be infinite. *)
Definition gene_dd_cq
    (d_cq_mean_dict d_cq_sem_dict : gmap string (gmap string pyfloat))
    (file_date gene : string)
  : result (gmap string pyfloat * gmap string pyfloat) :=
  guides ← getitem d_cq_mean_dict gene;
  for_each (keys guides) (λ guide '(means, sems),
    guide_mean ← getitem2 d_cq_mean_dict gene guide;
    Rand42_mean ← getitem2 d_cq_mean_dict gene ("Rand42_" +:+ file_date);
    guide_sem ← getitem2 d_cq_sem_dict gene guide;
    guide_square ← py_square guide_sem;
    Rand42_sem ← getitem2 d_cq_sem_dict gene ("Rand42_" +:+ file_date);
    Rand42_square ← py_square Rand42_sem;
    sem ← math_sqrt (fadd guide_square Rand42_square);
    Ok (<[guide := fsub guide_mean Rand42_mean]> means,
        <[guide := sem]> sems)) (∅, ∅).

Definition normalize_Rand42 (fl : list string)
    (gl : gmap string (list string))
    (d_cq_mean_dict d_cq_sem_dict : gmap string (gmap string pyfloat))
  : result (gmap string (gmap string pyfloat) *
            gmap string (gmap string pyfloat)) :=
  for_genes fl gl (λ file_date gene '(dd_cq_mean_dict, dd_cq_sem_dict),
    if decide (gene ≠ "hcaT") then
      '(means, sems) ← gene_dd_cq d_cq_mean_dict d_cq_sem_dict file_date gene;
      Ok (<[gene := means]> dd_cq_mean_dict, <[gene := sems]> dd_cq_sem_dict)
    else Ok (dd_cq_mean_dict, dd_cq_sem_dict)) (∅, ∅).

(** Transform to a linear scale. *)
Definition gene_lin
    (dd_cq_mean_dict dd_cq_sem_dict : gmap string (gmap string pyfloat))
    (gene : string)
  : result (gmap string pyfloat * gmap string pyfloat) :=
  guides ← getitem dd_cq_mean_dict gene;
  for_each (keys guides) (λ guide '(means, sems),
    dd_mean ← getitem2 dd_cq_mean_dict gene guide;
    lin ← math_pow2 dd_mean;
    dd_sem ← getitem2 dd_cq_sem_dict gene guide;
    Ok (<[guide := lin]> means,
        <[guide := fmul (fmul np_log2 dd_sem) lin]> sems)) (∅, ∅).

Definition linearize (fl : list string) (gl : gmap string (list string))
    (dd_cq_mean_dict dd_cq_sem_dict : gmap string (gmap string pyfloat))
  : result (gmap string (gmap string pyfloat) *
            gmap string (gmap string pyfloat)) :=
  for_genes fl gl (λ _ gene '(dd_cq_mean_lin_dict, dd_cq_sem_lin_dict),
    if decide (gene ≠ "hcaT") then
      '(means, sems) ← gene_lin dd_cq_mean_dict dd_cq_sem_dict gene;
      Ok (<[gene := means]> dd_cq_mean_lin_dict,
          <[gene := sems]> dd_cq_sem_lin_dict)
    else Ok (dd_cq_mean_lin_dict, dd_cq_sem_lin_dict)) (∅, ∅).

(** The dictionaries the cell leaves behind. *)
Record expression : Type := Expression {
  cq_mean_dict : gmap string (gmap string pyfloat);
  cq_sem_dict : gmap string (gmap string pyfloat);
  d_cq_mean_dict : gmap string (gmap string pyfloat);
  d_cq_sem_dict : gmap string (gmap string pyfloat);
  dd_cq_mean_dict : gmap string (gmap string pyfloat);
  dd_cq_sem_dict : gmap string (gmap string pyfloat);
  dd_cq_mean_lin_dict : gmap string (gmap string pyfloat);
  dd_cq_sem_lin_dict : gmap string (gmap string pyfloat)
}.

Definition relative_expression (fl : list string)
    (gl : gmap string (list string))
    (cq_dict : gmap string (gmap string (list pyfloat)))
  : result expression :=
  '(cq_mean, cq_sem) ← replicate_stats fl gl cq_dict;
  '(d_mean, d_sem) ← normalize_hcaT fl gl cq_mean cq_sem;
  '(dd_mean, dd_sem) ← normalize_Rand42 fl gl d_mean d_sem;
  '(lin_mean, lin_sem) ← linearize fl gl dd_mean dd_sem;
  Ok (Expression cq_mean cq_sem d_mean d_sem dd_mean dd_sem lin_mean lin_sem).

(** Cells 3 to 6 on the notebook's own constants. *)
Definition notebook (fs : gmap string (list string)) : result expression :=
  cq_dict ← import_data file_list gene_list fs;
  cq_dict ← well_correction cq_dict;
  relative_expression file_list gene_list cq_dict.

(** ** Gene expression plotting (cell 7): the data behind the bars *)

(** The colours handed to [ax.bar], one per bar. *)
Definition col : list string :=
  ["black"; "black"; "green"; "green"; "blue"; "blue"; "red"; "red";
   "cyan"; "cyan"].

(** The loop over the guides of one gene: a bar for every guide that does
    not start with Rand42. *)
Definition gene_bars (out : expression) (gene : string)
    (bars : list pyfloat * list pyfloat * list string)
  : result (list pyfloat * list pyfloat * list string) :=
  guides ← getitem (dd_cq_mean_dict out) gene;
  for_each (keys guides) (λ guide '(qPCR_mean, qPCR_sem, labels),
    if String.prefix "Rand42" guide then Ok (qPCR_mean, qPCR_sem, labels)
    else
      mean ← getitem2 (dd_cq_mean_lin_dict out) gene guide;
      sem ← getitem2 (dd_cq_sem_lin_dict out) gene guide;
      Ok ((qPCR_mean ++ [mean])%list, (qPCR_sem ++ [sem])%list,
          (labels ++ [guide])%list)) bars.

(** [qPCR_mean], [qPCR_sem] and [labels] as the cell leaves them for
    [ax.bar] and [ax.set_xticklabels]. *)
Definition figure_bars (fl : list string) (gl : gmap string (list string))
    (out : expression)
  : result (list pyfloat * list pyfloat * list string) :=
  for_genes fl gl (λ _ gene bars,
    if decide (gene = "hcaT") then Ok bars
    else gene_bars out gene bars) ([], [], []).

(** Cells 3 to 7 on the notebook's own constants. *)
Definition notebook_figure (fs : gmap string (list string))
  : result (list pyfloat * list pyfloat * list string) :=
  out ← notebook fs;
  figure_bars file_list gene_list out.

(** * Vocabulary of the properties *)

(** ** Dictionaries and loops *)

(** [d[k1][k2]] as a partial function. *)
Definition lookup2 {V} (d : gmap string (gmap string V)) (k1 k2 : string)
  : option V :=
  d !! k1 ≫= (.!! k2).

(** Every pass of cell 6 has the same shape: for some of the keys it runs
    through, it computes a pair of values and stores them under the key in a
    pair of dictionaries. *)
Definition assign2 {V W} (k : string) (v : V * W)
    (s : gmap string V * gmap string W) : gmap string V * gmap string W :=
  (<[k := v.1]> s.1, <[k := v.2]> s.2).

(** The gene list of a file has the gene. *)
Definition lists (gl : gmap string (list string)) (gene file_name : string)
  : Prop :=
  ∃ genes, gl !! substring 0 8 file_name = Some genes ∧ gene ∈ genes.

#[global] Instance lists_dec gl gene file_name :
  Decision (lists gl gene file_name).
Proof.
  unfold lists. destruct (gl !! substring 0 8 file_name) as [genes|].
  - destruct (decide (gene ∈ genes)) as [Hin|Hout].
    + left. by exists genes.
    + right. intros (genes' & [= <-] & Hin). by apply Hout.
  - right. by intros (genes & ? & _).
Defined.

(** The file of [fl] whose pass over its gene list is the last one to reach
    [gene]: every dictionary entry of [gene] is left as that pass wrote it,
    and Rand42 of that file is the gene's reference guide. *)
Definition last_file (fl : list string) (gl : gmap string (list string))
    (gene : string) : option string :=
  last (filter (lists gl gene) fl).

(** The three guides one pass of the second key-initialisation loop puts
    into the table of a gene and into the table of hcaT. *)
Definition guide_keys (file_date gene : string) : list string :=
  [gene +:+ "1_C"; gene +:+ "3_C"; "Rand42_" +:+ file_date].

(** Every guide of a gene other than hcaT is a guide of hcaT. *)
Definition hcaT_covers (cq_dict : gmap string (gmap string (list pyfloat)))
  : Prop :=
  ∀ gene guide, gene ≠ "hcaT" →
    is_Some (lookup2 cq_dict gene guide) →
    is_Some (lookup2 cq_dict "hcaT" guide).

(** The keys the calculations rely on: every listed gene has a table; for a
    gene other than hcaT, the table has the Rand42 guide of each file that
    lists the gene, hcaT is listed as well, and hcaT's table has every guide
    of the gene's table. *)
Definition keyed (fl : list string) (gl : gmap string (list string))
    (cq_dict : gmap string (gmap string (list pyfloat))) : Prop :=
  ∀ file_name, file_name ∈ fl →
    ∃ genes, gl !! substring 0 8 file_name = Some genes
      ∧ ∀ gene, gene ∈ genes →
          is_Some (cq_dict !! gene)
          ∧ (gene ≠ "hcaT" →
             is_Some (lookup2 cq_dict gene
                        ("Rand42_" +:+ substring 0 8 file_name))
             ∧ is_Some (last_file fl gl "hcaT")
             ∧ ∀ guide, is_Some (lookup2 cq_dict gene guide) →
                        is_Some (lookup2 cq_dict "hcaT" guide)).

(** The same, as a check that can be run on given dictionaries. *)
Definition well_keyed (fl : list string) (gl : gmap string (list string))
    (cq_dict : gmap string (gmap string (list pyfloat))) : bool :=
  forallb (λ file_name,
    match gl !! substring 0 8 file_name with
    | None => false
    | Some genes =>
        forallb (λ gene,
          match cq_dict !! gene with
          | None => false
          | Some guides =>
              bool_decide (gene = "hcaT")
              || bool_decide
                   (is_Some
                      (guides !! ("Rand42_" +:+ substring 0 8 file_name)))
                 && bool_decide (is_Some (last_file fl gl "hcaT"))
                 && match cq_dict !! "hcaT" with
                    | None => false
                    | Some hcaT_guides =>
                        forallb (λ guide,
                          bool_decide (is_Some (hcaT_guides !! guide)))
                          (keys guides)
                    end
          end) genes
    end) fl.

(** ** Replicate groups *)

(** A valid replicate group: at least two values, all finite. *)
Definition valid_group (l : list pyfloat) : bool :=
  forallb is_fin l && (2 <=? length l)%nat.

(** A value a binary64 float can hold: the special values, and the reals
    below the overflow threshold. *)
Definition is_float (x : pyfloat) : Prop :=
  match x with
  | Fin r => (Rabs r < overflow_threshold)%R
  | _ => True
  end.

(** A float that is NaN, or finite and of magnitude at most [B]. *)
Definition within (B : R) (x : pyfloat) : Prop :=
  match x with
  | Fin r => (Rabs r <= B)%R
  | NaN => True
  | PInf | NInf => False
  end.

(** A float that is not below zero. *)
Definition not_negative (x : pyfloat) : Prop :=
  match x with
  | Fin r => (0 <= r)%R
  | NInf => False
  | PInf | NaN => True
  end.

(** A group of Cq values as a plate can give them: at most a million
    replicates, each NaN or of magnitude at most 250.  The differences of
    differences of the means of such groups stay below 1024 in magnitude,
    where [math.pow] overflows. *)
Definition tame (l : list pyfloat) : Prop :=
  (INR (length l) <= 10 ^ 6)%R ∧ Forall (within 250) l.

(** A valid group of such values. *)
Definition plausible (l : list pyfloat) : Prop :=
  valid_group l = true ∧ tame l.

(** The real-valued statistics of a group of finite replicates. *)
Definition Rsum (rs : list R) : R := foldl Rplus 0%R rs.

Definition Rmean (rs : list R) : R := (Rsum rs / INR (length rs))%R.

Definition Rsem (rs : list R) : R :=
  (sqrt (Rsum (map (λ x, (x - Rmean rs) * (x - Rmean rs)) rs)
         / INR (length rs - 1))
   / sqrt (INR (length rs)))%R.

(** ** The Relative Expression Calculator *)

(** The root of a sum of two squares, as the error propagation of the
    second pass computes it, on numpy's floats.  [math.sqrt] is never handed
    a negative number there. *)
Definition root_sum_squares (a b : pyfloat) : pyfloat :=
  np_sqrt (fadd (fsquare a) (fsquare b)).

(** The same in the third pass, on Python's floats: a square out of range
    raises. *)
Definition py_root_sum_squares (a b : pyfloat) : result pyfloat :=
  a2 ← py_square a;
  b2 ← py_square b;
  math_sqrt (fadd a2 b2).

(** The calculator of the specification (steps 2 to 4), as functions of the
    four replicate groups: the reference gene and the gene under the guide,
    the reference gene and the gene under the reference guide. *)
Definition dCq_mean (ref_gene gene : list pyfloat) : pyfloat :=
  fsub (np_mean ref_gene) (np_mean gene).

Definition dCq_sem (ref_gene gene : list pyfloat) : pyfloat :=
  root_sum_squares (stats_sem ref_gene) (stats_sem gene).

Definition ddCq_mean (hcaT gene hcaT_ref gene_ref : list pyfloat) : pyfloat :=
  fsub (dCq_mean hcaT gene) (dCq_mean hcaT_ref gene_ref).

Definition ddCq_sem (hcaT gene hcaT_ref gene_ref : list pyfloat)
  : result pyfloat :=
  py_root_sum_squares (dCq_sem hcaT gene) (dCq_sem hcaT_ref gene_ref).

Definition fold_change (hcaT gene hcaT_ref gene_ref : list pyfloat)
  : result pyfloat :=
  math_pow2 (ddCq_mean hcaT gene hcaT_ref gene_ref).

Definition fold_change_sem (hcaT gene hcaT_ref gene_ref : list pyfloat)
  : result pyfloat :=
  sem ← ddCq_sem hcaT gene hcaT_ref gene_ref;
  lin ← fold_change hcaT gene hcaT_ref gene_ref;
  Ok (fmul (fmul np_log2 sem) lin).

(** A result that is a value, or an exception among [E]. *)
Definition ok_or {A} (E : exn → Prop) (r : result A) : Prop :=
  match r with
  | Ok _ => True
  | Raise e => E e
  end.

(** What the third and the fourth pass of cell 6 compute beyond looking
    up and subtracting: for a gene other than hcaT, a file that lists it and
    a guide, the root of the sum of the squares of the two dCq SEMs, with
    the reference guide of that file; and the power of two, with the
    reference guide of the last file that lists the gene.  [P] says how
    these computations end. *)
Definition calculations (P : result pyfloat → Prop) (fl : list string)
    (gl : gmap string (list string))
    (cq_dict : gmap string (gmap string (list pyfloat))) : Prop :=
  ∀ file_name gene guide hcaT group hcaT_ref gene_ref,
    file_name ∈ fl → lists gl gene file_name → gene ≠ "hcaT" →
    lookup2 cq_dict "hcaT" guide = Some hcaT →
    lookup2 cq_dict gene guide = Some group →
    lookup2 cq_dict "hcaT" ("Rand42_" +:+ substring 0 8 file_name)
      = Some hcaT_ref →
    lookup2 cq_dict gene ("Rand42_" +:+ substring 0 8 file_name)
      = Some gene_ref →
    P (ddCq_sem hcaT group hcaT_ref gene_ref)
    ∧ (last_file fl gl gene = Some file_name →
       P (fold_change hcaT group hcaT_ref gene_ref)).

(** The squares and the powers of two of cell 6 are within the range of a
    float. *)
Definition in_range (fl : list string) (gl : gmap string (list string))
    (cq_dict : gmap string (gmap string (list pyfloat))) : Prop :=
  calculations is_Ok fl gl cq_dict.

(** Every replicate group of the dictionary is tame. *)
Definition all_tame (cq_dict : gmap string (gmap string (list pyfloat)))
  : Prop :=
  ∀ gene guide group, lookup2 cq_dict gene guide = Some group → tame group.

(** ** Rows *)

(** A line of a file ends with a newline character. *)
Definition newline : string := String "010"%char EmptyString.

Definition fields (line : string) : list string := split_on "," line.

(** A row that can be read as (gene, guide, numeric Cq): it has the three
    columns and [float] accepts the Cq column. *)
Definition parses_as_triple (line : string) : bool :=
  match fields line !! 2, fields line !! 4, fields line !! 5 with
  | Some _, Some _, Some cq => bool_decide (is_Some (py_float cq))
  | _, _, _ => false
  end.

(** The two ways a row makes the import fail: the row ends before a field
    the loop reads, or [float] rejects the Cq field of a row that passed
    every guard. *)
Definition too_short (line : string) : Prop :=
  fields line !! 2 = None
  ∨ ∃ gene, fields line !! 2 = Some gene ∧ gene ≠ ""
            ∧ fields line !! 5 = None.

Definition bad_cq (gl : gmap string (list string)) (file_date : string)
    (cq_dict : gmap string (gmap string (list pyfloat))) (line : string)
  : Prop :=
  ∃ gene guide cq genes guides replicates,
    fields line !! 2 = Some gene ∧ gene ≠ ""
    ∧ fields line !! 4 = Some guide
    ∧ fields line !! 5 = Some cq ∧ cq ≠ ""
    ∧ gl !! file_date = Some genes ∧ gene ∈ genes
    ∧ cq_dict !! gene = Some guides ∧ guides !! guide = Some replicates
    ∧ py_float cq = None.

(** ** Examples *)

(** One file, the reference gene and one gene; the groups of the gene's
    first guide and of the reference guide are given, its other guide has no
    replicates. *)
Definition example_files : list string := ["20200806_example.csv"].

Definition example_genes : gmap string (list string) :=
  {["20200806" := ["hcaT"; "gene"]]}.

Definition example_cq (hcaT gene hcaT_ref gene_ref : list pyfloat)
  : gmap string (gmap string (list pyfloat)) :=
  {[ "hcaT" := {[ "gene1_C" := hcaT; "gene3_C" := [];
                  "Rand42_20200806" := hcaT_ref ]};
     "gene" := {[ "gene1_C" := gene; "gene3_C" := [];
                  "Rand42_20200806" := gene_ref ]} ]}.

(** A file with rows for the gene under both guides and for hcaT under the
    reference guide, and no row for hcaT under the gene's guide. *)
Definition example_rows_no_reference : gmap string (list string) :=
  {[ "inputs/20200806_example.csv" :=
       [ "Well,Fluor,Target,Content,Sample,Cq" +:+ newline;
         "A01,SYBR,gene,Unkn,gene1_C,22" +:+ newline;
         "A02,SYBR,gene,Unkn,gene1_C,22" +:+ newline;
         "A03,SYBR,gene,Unkn,Rand42_20200806,23" +:+ newline;
         "A04,SYBR,gene,Unkn,Rand42_20200806,23" +:+ newline;
         "A05,SYBR,hcaT,Unkn,Rand42_20200806,23" +:+ newline;
         "A06,SYBR,hcaT,Unkn,Rand42_20200806,23" +:+ newline ] ]}.

(** The dictionary the two key-initialisation loops build from the
    notebook's own file and gene lists. *)
Definition notebook_keys : gmap string (gmap string (list pyfloat)) :=
  Eval vm_compute in
    match init_keys file_list gene_list with
    | Ok cq_dict => cq_dict
    | Raise _ => ∅
    end.

(** ** The import, row by row, and the figure *)

(** [sep.join(fields)] *)
Fixpoint join_with (sep : ascii) (l : list string) : string :=
  match l with
  | [] => EmptyString
  | [field] => field
  | field :: l' => field +:+ String sep (join_with sep l')
  end.

(** How often a character occurs in a string. *)
Fixpoint occurrences (c : ascii) (s : string) : nat :=
  match s with
  | EmptyString => 0
  | String a s' => (if Ascii.eqb a c then 1 else 0) + occurrences c s'
  end.

(** The guide keys the key initialisation is to give a gene: the three
    guides of every pass of the second loop that reaches the gene, or, for
    hcaT, of every pass that reaches any other gene. *)
Definition expected_key (fl : list string) (gl : gmap string (list string))
    (gene guide : string) : Prop :=
  ∃ file_name genes g,
    file_name ∈ fl ∧ gl !! substring 0 8 file_name = Some genes
    ∧ g ∈ genes ∧ g ≠ "hcaT" ∧ (gene = g ∨ gene = "hcaT")
    ∧ guide ∈ guide_keys (substring 0 8 file_name) g.

(** The value a line brings to the group of (gene, guide), if it brings
    one: the line names the gene in field 2 and the guide in field 4, and
    [float] reads its field 5. *)
Definition reads_into (gene guide line : string) : option pyfloat :=
  match fields line !! 2, fields line !! 4, fields line !! 5 with
  | Some sp2, Some sp4, Some sp5 =>
      if decide (sp2 = gene ∧ sp4 = guide ∧ sp2 ≠ "" ∧ sp5 ≠ "")
      then py_float sp5 else None
  | _, _, _ => None
  end.

(** The genes the passes of cell 6 and cell 7 go through, file after file,
    hcaT left out. *)
Definition target_genes (fl : list string) (gl : gmap string (list string))
  : list string :=
  fl ≫= λ file_name,
    filter (λ gene, gene ≠ "hcaT")
      (default [] (gl !! substring 0 8 file_name)).

(** The values the files bring to the group of (gene, guide): file after
    file, the rows after the header of every file whose gene list has the
    gene, in their order. *)
Definition rows_read (fl : list string) (gl : gmap string (list string))
    (fs : gmap string (list string)) (gene guide : string) : list pyfloat :=
  fl ≫= λ file_name,
    if decide (lists gl gene file_name) then
      omap (reads_into gene guide)
        (tail (default [] (fs !! (input_path +:+ file_name))))
    else [].

(** The gene is in the gene list of some file of the file list. *)
Definition listed (fl : list string) (gl : gmap string (list string))
    (gene : string) : Prop :=
  ∃ file_name, file_name ∈ fl ∧ lists gl gene file_name.

(** The bars of the figure, as (gene, guide) pairs: gene after gene, the
    guides of the gene's ddCq table other than the Rand42 ones, in the order
    the table gives its keys. *)
Definition bar_keys (genes : list string) (out : expression)
  : list (string * string) :=
  genes ≫= λ gene,
    pair gene <$>
      filter (λ guide, String.prefix "Rand42" guide = false)
        (keys (default ∅ (dd_cq_mean_dict out !! gene))).

(** The two files of the notebook with nothing but their header line. *)
Definition header_only_files : gmap string (list string) :=
  {[ "inputs/20200806_luna_rtqpcr_quant.csv" :=
       [ "Well,Fluor,Target,Content,Sample,Cq" +:+ newline ];
     "inputs/20200813_luna_rtqpcr_quant.csv" :=
       [ "Well,Fluor,Target,Content,Sample,Cq" +:+ newline ] ]}.

(** A row that makes [float] fail during the import: it names, in fields 2
    and 4, a gene of the file's gene list and a guide that is one of the
    gene's keys, and its Cq field is not empty and not a number. *)
Definition bad_row (fl : list string) (gl : gmap string (list string))
    (file_name line : string) : Prop :=
  ∃ gene guide cq,
    fields line !! 2 = Some gene ∧ gene ≠ ""
    ∧ fields line !! 4 = Some guide
    ∧ fields line !! 5 = Some cq ∧ cq ≠ ""
    ∧ lists gl gene file_name ∧ expected_key fl gl gene guide
    ∧ py_float cq = None.

(** What the loops over the files and their rows keep: the keys the
    calculations rely on, and the set of groups. *)
Definition import_invariant (fl : list string)
    (gl : gmap string (list string))
    (cq_dict : gmap string (gmap string (list pyfloat))) : Prop :=
  keyed fl gl cq_dict
  ∧ ∀ gene guide,
      is_Some (lookup2 cq_dict gene guide) ↔ expected_key fl gl gene guide.

(** * Properties *)

(** ** The error monad and loops *)

Lemma is_Ok_Ok {A} (a : A) : is_Ok (Ok a).
Proof. by exists a. Qed.

Lemma bind_Ok_inv {A B} (r : result A) (f : A → result B) (b : B) :
  r ≫= f = Ok b → ∃ a, r = Ok a ∧ f a = Ok b.
Proof. destruct r as [a|e]; [by exists a | done]. Qed.

Lemma getitem_Ok {V} (d : gmap string V) (k : string) (v : V) :
  getitem d k = Ok v ↔ d !! k = Some v.
Proof. unfold getitem. destruct (d !! k); naive_solver. Qed.

Lemma getitem2_Ok {V} (d : gmap string (gmap string V)) (k1 k2 : string)
    (v : V) :
  getitem2 d k1 k2 = Ok v ↔ ∃ t, d !! k1 = Some t ∧ t !! k2 = Some v.
Proof.
  unfold getitem2, getitem.
  destruct (d !! k1) as [t|]; simpl; [|naive_solver].
  destruct (t !! k2) eqn:E; naive_solver.
Qed.

Lemma elem_of_keys {V} (d : gmap string V) (k : string) :
  k ∈ keys d ↔ is_Some (d !! k).
Proof.
  unfold keys. rewrite list_elem_of_fmap. split.
  - intros [[k' v] [-> Hin]]. apply elem_of_map_to_list in Hin. by exists v.
  - intros [v Hv]. exists (k, v). split; [done|].
    by apply elem_of_map_to_list.
Qed.

Section loops.
Context {A S : Type}.
Implicit Types (xs : list A) (body : A → S → result S) (s : S).

Lemma for_each_app xs ys body s :
  for_each (xs ++ ys)%list body s
  = s' ← for_each xs body s; for_each ys body s'.
Proof.
  revert s. induction xs as [|x xs IH]; intros s; simpl; [done|].
  destruct (body x s) as [s1|e]; simpl; [apply IH | done].
Qed.

Lemma for_each_ext xs body body' s :
  (∀ x s, x ∈ xs → body x s = body' x s) →
  for_each xs body s = for_each xs body' s.
Proof.
  revert s. induction xs as [|x xs IH]; intros s Hext; simpl; [done|].
  rewrite (Hext x s) by left.
  destruct (body' x s) as [s1|e]; simpl; [|done].
  apply IH. intros y t Hy. apply Hext. by right.
Qed.

(** A property kept by every pass of the body holds when the loop ends. *)
Lemma for_each_invariant (P : S → Prop) xs body s s' :
  P s →
  (∀ x s s', x ∈ xs → P s → body x s = Ok s' → P s') →
  for_each xs body s = Ok s' → P s'.
Proof.
  revert s. induction xs as [|x xs IH]; intros s Hs Hstep; simpl.
  - by intros [= <-].
  - intros Hrun. apply bind_Ok_inv in Hrun as (s1 & Hx & Hrest).
    apply (IH s1); [| |done].
    + eapply Hstep; [left|done..].
    + intros y t t' Hy. apply Hstep. by right.
Qed.

(** A loop whose body never raises under the invariant runs through. *)
Lemma for_each_total (P : S → Prop) xs body s :
  P s →
  (∀ x s, x ∈ xs → P s → ∃ s', body x s = Ok s' ∧ P s') →
  ∃ s', for_each xs body s = Ok s' ∧ P s'.
Proof.
  revert s. induction xs as [|x xs IH]; intros s Hs Hstep; simpl.
  - by exists s.
  - destruct (Hstep x s) as (s1 & -> & Hs1); [left|done|]. simpl.
    apply IH; [done|]. intros y t Hy. apply Hstep. by right.
Qed.
End loops.

Lemma last_file_snoc fl gl gene file_name :
  last_file (fl ++ [file_name])%list gl gene
  = if decide (lists gl gene file_name) then Some file_name
    else last_file fl gl gene.
Proof.
  unfold last_file. rewrite filter_app, filter_cons, filter_nil.
  case_decide; [apply last_snoc | by rewrite app_nil_r].
Qed.

Lemma last_file_lists fl gl gene file_name :
  last_file fl gl gene = Some file_name →
  file_name ∈ fl ∧ lists gl gene file_name.
Proof.
  unfold last_file. intros H. apply last_Some in H as [l' H].
  assert (file_name ∈ filter (lists gl gene) fl) as Hin.
  { rewrite H. apply elem_of_app. right. by left. }
  by apply list_elem_of_filter in Hin as [? ?].
Qed.

Lemma last_file_is_Some fl gl gene file_name :
  file_name ∈ fl → lists gl gene file_name →
  is_Some (last_file fl gl gene).
Proof.
  intros Hin Hl. unfold last_file.
  assert (file_name ∈ filter (lists gl gene) fl) as Hf
    by by apply list_elem_of_filter.
  destruct (filter (lists gl gene) fl) as [|x l] using rev_ind.
  - by apply elem_of_nil in Hf.
  - rewrite last_snoc. by eexists.
Qed.

(** ** Loops that fill a pair of dictionaries *)

Section assign_loops.
Context {V W : Type}.
Variable take : string → bool.

Section one_level.
Variable G : string → result (V * W).
Variable body :
  string → gmap string V * gmap string W →
  result (gmap string V * gmap string W).
Hypothesis body_eq : ∀ k s,
  body k s = if take k then v ← G k; Ok (assign2 k v s) else Ok s.

Lemma assign_loop_taken xs s s' k :
  for_each xs body s = Ok s' → k ∈ xs → take k = true →
  ∃ v, G k = Ok v ∧ s'.1 !! k = Some v.1 ∧ s'.2 !! k = Some v.2.
Proof.
  revert s'. induction xs as [|x xs IH] using rev_ind; intros s'.
  - intros _ Hin. by apply elem_of_nil in Hin.
  - rewrite for_each_app. intros Hrun Hin Hk.
    apply bind_Ok_inv in Hrun as (s1 & Hxs & Hx). simpl in Hx.
    rewrite body_eq in Hx. destruct (decide (k = x)) as [->|Hne].
    + rewrite Hk in Hx. destruct (G x) as [v|] eqn:HG; [|done].
      simpl in Hx. injection Hx as <-. exists v. simpl.
      by rewrite !lookup_insert_eq.
    + apply elem_of_app in Hin as [Hin|Hin];
        [|apply list_elem_of_singleton in Hin; done].
      destruct (IH s1 Hxs Hin Hk) as (v & HG & H1 & H2).
      exists v. split; [done|].
      destruct (take x); [|by injection Hx as <-].
      destruct (G x) as [w|]; [|done]. simpl in Hx. injection Hx as <-.
      simpl. by rewrite !lookup_insert_ne.
Qed.

Lemma assign_loop_other xs s s' k :
  for_each xs body s = Ok s' → ¬ (k ∈ xs ∧ take k = true) →
  s'.1 !! k = s.1 !! k ∧ s'.2 !! k = s.2 !! k.
Proof.
  revert s. induction xs as [|x xs IH]; intros s; simpl.
  - by intros [= <-].
  - intros Hrun Hk. apply bind_Ok_inv in Hrun as (s1 & Hx & Hxs).
    destruct (IH s1 Hxs) as [-> ->].
    { intros [? ?]. apply Hk. split; [by right|done]. }
    rewrite body_eq in Hx. destruct (take x) eqn:Hx'.
    + destruct (G x) as [w|]; [|done]. simpl in Hx. injection Hx as <-.
      assert (x ≠ k) by (intros ->; apply Hk; split; [left|done]).
      simpl. by rewrite !lookup_insert_ne.
    + by injection Hx as <-.
Qed.

Lemma assign_loop_total xs s :
  (∀ k, k ∈ xs → take k = true → is_Ok (G k)) →
  is_Ok (for_each xs body s).
Proof.
  intros HG.
  destruct (for_each_total (λ _, True) xs body s) as (s' & ? & _);
    [done| |by exists s'].
  intros k t Hk _. rewrite body_eq. destruct (take k) eqn:Ht.
  - destruct (HG k Hk Ht) as [v ->]. simpl. eauto.
  - eauto.
Qed.
End one_level.

Section two_levels.
Variable G : string → string → result (V * W).
Variable body :
  string → string → gmap string V * gmap string W →
  result (gmap string V * gmap string W).
Hypothesis body_eq : ∀ file_date gene s,
  body file_date gene s
  = if take gene then v ← G file_date gene; Ok (assign2 gene v s)
    else Ok s.

Lemma for_genes_taken fl gl s s' gene :
  for_genes fl gl body s = Ok s' → take gene = true →
  match last_file fl gl gene with
  | Some file_name =>
      ∃ v, G (substring 0 8 file_name) gene = Ok v
           ∧ s'.1 !! gene = Some v.1 ∧ s'.2 !! gene = Some v.2
  | None => s'.1 !! gene = s.1 !! gene ∧ s'.2 !! gene = s.2 !! gene
  end.
Proof.
  intros Hrun Hk. revert s' Hrun.
  induction fl as [|file_name fl IH] using rev_ind; intros s'.
  - by intros [= <-].
  - unfold for_genes. rewrite for_each_app. intros Hrun.
    apply bind_Ok_inv in Hrun as (s1 & Hfl & Hrun). simpl in Hrun.
    apply bind_Ok_inv in Hrun as (s2 & Hrun & [= <-]).
    apply bind_Ok_inv in Hrun as (genes & Hgl & Hrun).
    apply getitem_Ok in Hgl. specialize (IH s1 Hfl).
    rewrite last_file_snoc. case_decide as Hl.
    + destruct Hl as (genes' & Hgl' & Hin).
      assert (genes' = genes) as -> by congruence.
      eapply assign_loop_taken; [apply body_eq|done..].
    + destruct (assign_loop_other _ _ (body_eq _) genes s1 s2 gene Hrun)
        as [-> ->]; [|done].
      intros [Hin _]. apply Hl. by exists genes.
Qed.

Lemma for_genes_skipped fl gl s s' gene :
  for_genes fl gl body s = Ok s' → take gene = false →
  s'.1 !! gene = s.1 !! gene ∧ s'.2 !! gene = s.2 !! gene.
Proof.
  intros Hrun Hk. revert Hrun.
  apply (for_each_invariant
           (λ t, t.1 !! gene = s.1 !! gene ∧ t.2 !! gene = s.2 !! gene));
    [done|].
  intros file_name t t' _ [<- <-] Hrun.
  apply bind_Ok_inv in Hrun as (genes & _ & Hrun).
  eapply assign_loop_other; [apply body_eq|done|].
  intros [_ ?]. congruence.
Qed.

Lemma for_genes_total fl gl s :
  (∀ file_name, file_name ∈ fl →
     ∃ genes, gl !! substring 0 8 file_name = Some genes
       ∧ ∀ gene, gene ∈ genes → take gene = true →
           is_Ok (G (substring 0 8 file_name) gene)) →
  is_Ok (for_genes fl gl body s).
Proof.
  intros HG.
  destruct (for_each_total (λ _, True) fl
              (λ file_name s,
                 genes ← getitem gl (substring 0 8 file_name);
                 for_each genes (body (substring 0 8 file_name)) s) s)
    as (s' & ? & _); [done| |by exists s'].
  intros file_name t Hin _. destruct (HG file_name Hin) as (genes & Hgl & Hok).
  unfold getitem. rewrite Hgl. simpl.
  destruct (assign_loop_total _ _ (body_eq _) genes t Hok) as [t' ->].
  eauto.
Qed.
End two_levels.
End assign_loops.

(** A loop over the keys of a dictionary that starts from a pair of empty
    dictionaries gives a pair of dictionaries with those same keys. *)
Lemma keys_loop_lookup {U V W} (G : string → result (V * W))
    (body : string → gmap string V * gmap string W →
            result (gmap string V * gmap string W))
    (t : gmap string U) (a : gmap string V) (b : gmap string W) (k : string) :
  (∀ k s, body k s = v ← G k; Ok (assign2 k v s)) →
  for_each (keys t) body (∅, ∅) = Ok (a, b) →
  match t !! k with
  | Some _ => ∃ v, G k = Ok v ∧ a !! k = Some v.1 ∧ b !! k = Some v.2
  | None => a !! k = None ∧ b !! k = None
  end.
Proof.
  intros Hbody Hrun. destruct (t !! k) as [u|] eqn:Hk.
  - apply (assign_loop_taken (λ _, true) G body Hbody _ _ _ k Hrun);
      [|done].
    apply elem_of_keys. by exists u.
  - destruct (assign_loop_other (λ _, true) G body Hbody _ _ _ k Hrun)
      as [H1 H2]; [|done].
    intros [Hin _]. apply elem_of_keys in Hin as [u Hu]. congruence.
Qed.

Lemma keys_loop_total {U V W} (G : string → result (V * W))
    (body : string → gmap string V * gmap string W →
            result (gmap string V * gmap string W))
    (t : gmap string U) :
  (∀ k s, body k s = v ← G k; Ok (assign2 k v s)) →
  (∀ k, is_Some (t !! k) → is_Ok (G k)) →
  is_Ok (for_each (keys t) body (∅, ∅)).
Proof.
  intros Hbody HG.
  apply (assign_loop_total (λ _, true) G body Hbody).
  intros k Hk _. apply HG. by apply elem_of_keys.
Qed.

Lemma getitem2_lookup2 {V} (d : gmap string (gmap string V)) k1 k2 (v : V) :
  getitem2 d k1 k2 = Ok v ↔ lookup2 d k1 k2 = Some v.
Proof.
  rewrite getitem2_Ok. unfold lookup2.
  destruct (d !! k1) as [t|]; simpl; split.
  - by intros (t' & [= <-] & ?).
  - intros ?. by exists t.
  - by intros (t' & ? & ?).
  - done.
Qed.

(** The bodies of the passes over all genes, in the shape of
    [for_genes_taken]. *)
Lemma pass_body_all {V W}
    (F : string → string → result (gmap string V * gmap string W))
    (file_date gene : string)
    (s : gmap string (gmap string V) * gmap string (gmap string W)) :
  (let '(means_dict, sems_dict) := s in
   '(means, sems) ← F file_date gene;
   Ok (<[gene := means]> means_dict, <[gene := sems]> sems_dict))
  = if (λ _, true) gene then v ← F file_date gene; Ok (assign2 gene v s)
    else Ok s.
Proof. destruct s. by destruct (F file_date gene) as [[? ?]|]. Qed.

Lemma pass_body_not_hcaT {V W}
    (F : string → string → result (gmap string V * gmap string W))
    (file_date gene : string)
    (s : gmap string (gmap string V) * gmap string (gmap string W)) :
  (let '(means_dict, sems_dict) := s in
   if decide (gene ≠ "hcaT") then
     '(means, sems) ← F file_date gene;
     Ok (<[gene := means]> means_dict, <[gene := sems]> sems_dict)
   else Ok (means_dict, sems_dict))
  = if (λ gene, bool_decide (gene ≠ "hcaT")) gene
    then v ← F file_date gene; Ok (assign2 gene v s)
    else Ok s.
Proof.
  destruct s. cbv beta. case_bool_decide as Hg.
  - rewrite decide_True by done. by destruct (F file_date gene) as [[? ?]|].
  - by rewrite decide_False by (by intros []).
Qed.

(** What a pass leaves under [gene]: the pair of dictionaries its inner
    loop built on the last file that lists the gene; nothing for a gene that
    is skipped or never listed. *)
Lemma pass_all_lookup {V W}
    (F : string → string → result (gmap string V * gmap string W))
    fl gl (means_dict : gmap string (gmap string V))
    (sems_dict : gmap string (gmap string W)) gene :
  for_genes fl gl (λ file_date gene '(means_dict, sems_dict),
    '(means, sems) ← F file_date gene;
    Ok (<[gene := means]> means_dict, <[gene := sems]> sems_dict)) (∅, ∅)
  = Ok (means_dict, sems_dict) →
  match last_file fl gl gene with
  | Some file_name =>
      ∃ means sems, F (substring 0 8 file_name) gene = Ok (means, sems)
        ∧ means_dict !! gene = Some means ∧ sems_dict !! gene = Some sems
  | None => means_dict !! gene = None ∧ sems_dict !! gene = None
  end.
Proof.
  intros Hrun.
  apply (for_genes_taken (λ _, true) F _ (pass_body_all F) _ _ _ _ gene)
    in Hrun; [|done].
  destruct (last_file fl gl gene); [|done].
  destruct Hrun as ([means sems] & ? & ? & ?). by exists means, sems.
Qed.

Lemma pass_not_hcaT_lookup {V W}
    (F : string → string → result (gmap string V * gmap string W))
    fl gl (means_dict : gmap string (gmap string V))
    (sems_dict : gmap string (gmap string W)) gene :
  for_genes fl gl (λ file_date gene '(means_dict, sems_dict),
    if decide (gene ≠ "hcaT") then
      '(means, sems) ← F file_date gene;
      Ok (<[gene := means]> means_dict, <[gene := sems]> sems_dict)
    else Ok (means_dict, sems_dict)) (∅, ∅)
  = Ok (means_dict, sems_dict) →
  match last_file fl gl gene with
  | Some file_name =>
      if decide (gene ≠ "hcaT") then
        ∃ means sems, F (substring 0 8 file_name) gene = Ok (means, sems)
          ∧ means_dict !! gene = Some means ∧ sems_dict !! gene = Some sems
      else means_dict !! gene = None ∧ sems_dict !! gene = None
  | None => means_dict !! gene = None ∧ sems_dict !! gene = None
  end.
Proof.
  intros Hrun. destruct (decide (gene ≠ "hcaT")) as [Hg|Hg].
  - apply (for_genes_taken _ F _ (pass_body_not_hcaT F) _ _ _ _ gene)
      in Hrun; [|by apply bool_decide_eq_true].
    destruct (last_file fl gl gene); [|done].
    destruct Hrun as ([means sems] & ? & ? & ?). by exists means, sems.
  - apply (for_genes_skipped _ F _ (pass_body_not_hcaT F) _ _ _ _ gene)
      in Hrun; [|by apply bool_decide_eq_false].
    by destruct (last_file fl gl gene).
Qed.

Lemma pass_all_total {V W}
    (F : string → string → result (gmap string V * gmap string W)) fl gl :
  (∀ file_name, file_name ∈ fl →
     ∃ genes, gl !! substring 0 8 file_name = Some genes
       ∧ ∀ gene, gene ∈ genes → is_Ok (F (substring 0 8 file_name) gene)) →
  is_Ok (for_genes fl gl (λ file_date gene '(means_dict, sems_dict),
    '(means, sems) ← F file_date gene;
    Ok (<[gene := means]> means_dict, <[gene := sems]> sems_dict))
    ((∅, ∅) : gmap string (gmap string V) * gmap string (gmap string W))).
Proof.
  intros HF. apply (for_genes_total (λ _, true) F _ (pass_body_all F)).
  intros file_name Hin. destruct (HF file_name Hin) as (genes & ? & ?).
  exists genes. eauto.
Qed.

Lemma pass_not_hcaT_total {V W}
    (F : string → string → result (gmap string V * gmap string W)) fl gl :
  (∀ file_name, file_name ∈ fl →
     ∃ genes, gl !! substring 0 8 file_name = Some genes
       ∧ ∀ gene, gene ∈ genes → gene ≠ "hcaT" →
           is_Ok (F (substring 0 8 file_name) gene)) →
  is_Ok (for_genes fl gl (λ file_date gene '(means_dict, sems_dict),
    if decide (gene ≠ "hcaT") then
      '(means, sems) ← F file_date gene;
      Ok (<[gene := means]> means_dict, <[gene := sems]> sems_dict)
    else Ok (means_dict, sems_dict))
    ((∅, ∅) : gmap string (gmap string V) * gmap string (gmap string W))).
Proof.
  intros HF. apply (for_genes_total _ F _ (pass_body_not_hcaT F)).
  intros file_name Hin. destruct (HF file_name Hin) as (genes & ? & Hok).
  exists genes. split; [done|]. intros gene ? Hg. apply Hok; [done|].
  by apply bool_decide_eq_true in Hg.
Qed.

(** ** Float arithmetic *)

(** *** The range of a float *)

Lemma overflow_threshold_above : (2 ^ 1020 < overflow_threshold)%R.
Proof. unfold overflow_threshold. lra. Qed.

Lemma Rsign_pos (r : R) : (0 < r)%R → Rsign r = Gt.
Proof.
  intros Hr. unfold Rsign. destruct (Req_EM_T r 0) as [?|_]; [lra|].
  destruct (Rlt_dec r 0) as [?|_]; [lra|done].
Qed.

Lemma Rabs_le_iff (x B : R) : (Rabs x <= B)%R ↔ (- B <= x <= B)%R.
Proof. unfold Rabs. destruct (Rcase_abs x); split; lra. Qed.

Lemma Rabs_lt_iff (x B : R) : (Rabs x < B)%R ↔ (- B < x < B)%R.
Proof. unfold Rabs. destruct (Rcase_abs x); split; lra. Qed.

Lemma finish_in_range (x : R) :
  (Rabs x < overflow_threshold)%R → finish x = Fin x.
Proof.
  intros Hx. unfold finish.
  destruct (Rle_dec overflow_threshold (Rabs x)); [lra|done].
Qed.

Lemma finish_not_negative (x : R) :
  (0 <= x)%R → finish x = Fin x ∨ finish x = PInf.
Proof.
  intros Hx. unfold finish.
  destruct (Rle_dec overflow_threshold (Rabs x)) as [Hle|]; [right|by left].
  rewrite Rabs_right in Hle by lra. rewrite Rsign_pos; [done|].
  pose proof overflow_threshold_above. lra.
Qed.

Lemma square_not_negative (r : R) : (0 <= r * r)%R.
Proof. pose proof (Rle_0_sqr r) as H. by unfold Rsqr in H. Qed.

Lemma square_le (r B : R) : (Rabs r <= B)%R → (r * r <= B * B)%R.
Proof.
  intros H%Rabs_le_iff.
  assert (0 <= (B - r) * (B + r))%R by (apply Rmult_le_pos; lra). lra.
Qed.

(** *** Squares and roots *)

Lemma fsquare_cases (a : pyfloat) :
  (∃ r, a = Fin r ∧ fsquare a = Fin (r * r))
  ∨ (a ≠ NaN ∧ fsquare a = PInf) ∨ (a = NaN ∧ fsquare a = NaN).
Proof.
  destruct a as [r| | |]; [|right; left|right; left|right; right]; eauto.
  unfold fsquare, fmul.
  destruct (finish_not_negative (r * r) (square_not_negative r)) as [->| ->];
    [left; eauto|right; left; eauto].
Qed.

Lemma fsquare_not_negative (a : pyfloat) : not_negative (fsquare a).
Proof.
  destruct (fsquare_cases a) as [(r & -> & ->)|[[_ ->]|[_ ->]]]; simpl;
    [apply square_not_negative|done..].
Qed.

Lemma fadd_not_negative (a b : pyfloat) :
  not_negative a → not_negative b → not_negative (fadd a b).
Proof.
  destruct a as [r| | |], b as [q| | |]; simpl; try done. intros Hr Hq.
  by destruct (finish_not_negative (r + q)) as [->| ->]; [lra|simpl; lra|].
Qed.

Lemma math_sqrt_not_negative (x : pyfloat) :
  not_negative x → math_sqrt x = Ok (np_sqrt x).
Proof.
  destruct x as [r| | |]; simpl; try done. intros Hr.
  destruct (Rlt_dec r 0); [lra|done].
Qed.

Lemma math_sqrt_root_sum_squares (a b : pyfloat) :
  math_sqrt (fadd (fsquare a) (fsquare b)) = Ok (root_sum_squares a b).
Proof.
  apply math_sqrt_not_negative, fadd_not_negative;
    apply fsquare_not_negative.
Qed.

Lemma root_sum_squares_NaN_l (b : pyfloat) : root_sum_squares NaN b = NaN.
Proof. unfold root_sum_squares. by destruct b. Qed.

Lemma root_sum_squares_NaN_r (a : pyfloat) : root_sum_squares a NaN = NaN.
Proof.
  unfold root_sum_squares.
  by destruct (fsquare_cases a) as [(r & -> & ->)|[[_ ->]|[_ ->]]].
Qed.

Lemma sqrt_not_negative (x : pyfloat) : not_negative (np_sqrt x).
Proof.
  destruct x as [r| | |]; simpl; try done.
  destruct (Rlt_dec r 0); simpl; [done|apply sqrt_pos].
Qed.

Lemma py_square_not_negative (a a2 : pyfloat) :
  py_square a = Ok a2 → not_negative a2.
Proof.
  destruct a as [r| | |]; simpl; try by intros [= <-].
  destruct (Rle_dec overflow_threshold (r * r)); [done|].
  intros [= <-]. apply square_not_negative.
Qed.

Lemma py_square_NaN (a2 : pyfloat) : py_square NaN = Ok a2 → a2 = NaN.
Proof. by intros [= <-]. Qed.

Lemma fadd_NaN_r (a : pyfloat) : fadd a NaN = NaN.
Proof. by destruct a. Qed.

Lemma fsub_NaN_l (b : pyfloat) : fsub NaN b = NaN.
Proof. done. Qed.

Lemma fsub_NaN_r (a : pyfloat) : fsub a NaN = NaN.
Proof. by destruct a. Qed.

Lemma fmul_NaN_l (x : pyfloat) : fmul NaN x = NaN.
Proof. by destruct x. Qed.

Lemma fmul_NaN_r (x : pyfloat) : fmul x NaN = NaN.
Proof. by destruct x. Qed.

(** The error propagation of the third pass, when it returns, returns what
    the one of the second pass does. *)
Lemma py_root_sum_squares_Ok (a b s : pyfloat) :
  py_root_sum_squares a b = Ok s →
  ∃ a2 b2, py_square a = Ok a2 ∧ py_square b = Ok b2
           ∧ s = np_sqrt (fadd a2 b2).
Proof.
  unfold py_root_sum_squares. intros Hrun.
  apply bind_Ok_inv in Hrun as (a2 & Ha & Hrun).
  apply bind_Ok_inv in Hrun as (b2 & Hb & Hrun).
  exists a2, b2. split; [done|]. split; [done|].
  rewrite math_sqrt_not_negative in Hrun; [by injection Hrun|].
  apply fadd_not_negative; by eapply py_square_not_negative.
Qed.

Lemma py_root_sum_squares_NaN (a b s : pyfloat) :
  py_root_sum_squares a b = Ok s → a = NaN ∨ b = NaN → s = NaN.
Proof.
  intros (a2 & b2 & Ha & Hb & ->)%py_root_sum_squares_Ok [-> | ->].
  - apply py_square_NaN in Ha as ->. done.
  - apply py_square_NaN in Hb as ->. by rewrite fadd_NaN_r.
Qed.

(** They raise OverflowError and nothing else. *)
Lemma py_square_raise (a : pyfloat) (e : exn) :
  py_square a = Raise e → e = OverflowError.
Proof.
  destruct a as [r| | |]; simpl; try done.
  destruct (Rle_dec overflow_threshold (r * r)); [by intros [= <-]|done].
Qed.

Lemma py_root_sum_squares_raise (a b : pyfloat) (e : exn) :
  py_root_sum_squares a b = Raise e → e = OverflowError.
Proof.
  unfold py_root_sum_squares.
  destruct (py_square a) as [a2|e1] eqn:Ha; simpl;
    [|intros [= <-]; by eapply py_square_raise].
  destruct (py_square b) as [b2|e1] eqn:Hb; simpl;
    [|intros [= <-]; by eapply py_square_raise].
  rewrite math_sqrt_not_negative; [done|].
  apply fadd_not_negative; by eapply py_square_not_negative.
Qed.

Lemma math_pow2_raise (y : pyfloat) (e : exn) :
  math_pow2 y = Raise e → e = OverflowError.
Proof.
  destruct y as [r| | |]; simpl; try done.
  destruct (Rle_dec 1024 r); [by intros [= <-]|].
  by destruct (Rle_dec r (-1075)).
Qed.


Lemma math_pow2_zero : math_pow2 (Fin 0) = Ok (Fin 1).
Proof.
  simpl. destruct (Rle_dec 1024 0); [lra|].
  destruct (Rle_dec 0 (-1075)); [lra|]. do 2 f_equal. apply Rpower_O. lra.
Qed.

Lemma math_pow2_Fin (r : R) :
  (-1075 < r < 1024)%R → math_pow2 (Fin r) = Ok (Fin (Rpower 2 r)).
Proof.
  intros Hr. simpl. destruct (Rle_dec 1024 r); [lra|].
  destruct (Rle_dec r (-1075)); [lra|done].
Qed.

Lemma math_pow2_overflow (r : R) :
  (1024 <= r)%R → math_pow2 (Fin r) = Raise OverflowError.
Proof. intros Hr. simpl. destruct (Rle_dec 1024 r); [done|lra]. Qed.

Lemma math_pow2_underflow (r : R) :
  (r <= -1075)%R → math_pow2 (Fin r) = Ok (Fin 0).
Proof.
  intros Hr. simpl. destruct (Rle_dec 1024 r); [lra|].
  destruct (Rle_dec r (-1075)); [done|lra].
Qed.

Lemma Rpower_2_pos (r : R) : (0 < Rpower 2 r)%R.
Proof. unfold Rpower. apply exp_pos. Qed.

Lemma Rpower_2_le (r : R) : (r <= 1000)%R → (Rpower 2 r <= 2 ^ 1000)%R.
Proof.
  intros Hr. rewrite <- (Rpower_pow 1000 2) by lra.
  replace (INR 1000) with 1000%R
    by (rewrite INR_IZR_INZ; f_equal).
  apply Rle_Rpower; lra.
Qed.

Lemma ln_2_bounds : (0 < ln 2 < 1)%R.
Proof.
  split; [pose proof ln_lt_2; lra|].
  rewrite <- (ln_exp 1). apply ln_increasing; [lra|].
  pose proof (exp_ineq1 1). lra.
Qed.

(** *** Values within bounds *)

Lemma within_is_float (B : R) (x : pyfloat) :
  within B x → (B < overflow_threshold)%R → is_float x.
Proof. destruct x; simpl; try done. lra. Qed.

Lemma fsub_within (A B : R) (a b : pyfloat) :
  within A a → within B b → (A + B < overflow_threshold)%R →
  within (A + B) (fsub a b).
Proof.
  destruct a as [r| | |], b as [q| | |]; simpl; try done.
  intros Hr%Rabs_le_iff Hq%Rabs_le_iff HT.
  assert (Rabs (r - q) <= A + B)%R as H by (apply Rabs_le_iff; lra).
  rewrite finish_in_range by lra. done.
Qed.

Lemma fsub_Fin (a b : R) :
  (Rabs (a - b) < overflow_threshold)%R → fsub (Fin a) (Fin b) = Fin (a - b).
Proof. apply finish_in_range. Qed.

Lemma fsub_diag (x : pyfloat) :
  fsub x x = if is_fin x then Fin 0 else NaN.
Proof.
  destruct x as [r| | |]; simpl; try done.
  replace (r - r)%R with 0%R by lra. apply finish_in_range.
  rewrite Rabs_R0. pose proof overflow_threshold_above. lra.
Qed.

Lemma sqrt_sum_squares_le (r q A B : R) :
  (Rabs r <= A)%R → (Rabs q <= B)%R →
  (0 <= sqrt (r * r + q * q) <= A + B)%R.
Proof.
  intros Hr Hq. split; [apply sqrt_pos|].
  pose proof (Rabs_pos r). pose proof (Rabs_pos q).
  rewrite <- (sqrt_square (A + B)) by lra. apply sqrt_le_1_alt.
  pose proof (square_le _ _ Hr). pose proof (square_le _ _ Hq).
  assert (0 <= A * B)%R by (apply Rmult_le_pos; lra). lra.
Qed.

Lemma root_sum_squares_Fin (a b : R) :
  (a * a + b * b < overflow_threshold)%R →
  root_sum_squares (Fin a) (Fin b) = Fin (sqrt (a * a + b * b)).
Proof.
  intros HT. unfold root_sum_squares, fsquare, fmul.
  pose proof (square_not_negative a). pose proof (square_not_negative b).
  rewrite !finish_in_range by (rewrite Rabs_right; lra).
  simpl. rewrite finish_in_range by (rewrite Rabs_right; lra). simpl.
  destruct (Rlt_dec (a * a + b * b) 0); [lra|done].
Qed.

Lemma root_sum_squares_within (A B : R) (a b : pyfloat) :
  within A a → within B b → (A * A + B * B < overflow_threshold)%R →
  within (A + B) (root_sum_squares a b)
  ∧ not_negative (root_sum_squares a b).
Proof.
  intros Ha Hb HT. split; [|apply sqrt_not_negative].
  destruct a as [r| | |]; [|done..|by rewrite root_sum_squares_NaN_l].
  destruct b as [q| | |]; [|done..|by rewrite root_sum_squares_NaN_r].
  simpl in Ha, Hb. pose proof (square_le _ _ Ha). pose proof (square_le _ _ Hb).
  rewrite root_sum_squares_Fin by lra. simpl.
  destruct (sqrt_sum_squares_le r q A B Ha Hb). rewrite Rabs_right; lra.
Qed.

Lemma py_root_sum_squares_Fin (a b : R) :
  (a * a + b * b < overflow_threshold)%R →
  py_root_sum_squares (Fin a) (Fin b) = Ok (Fin (sqrt (a * a + b * b))).
Proof.
  intros HT. unfold py_root_sum_squares. simpl.
  pose proof (square_not_negative a). pose proof (square_not_negative b).
  destruct (Rle_dec overflow_threshold (a * a)); [lra|]. simpl.
  destruct (Rle_dec overflow_threshold (b * b)); [lra|]. simpl.
  rewrite finish_in_range by (rewrite Rabs_right; lra). simpl.
  destruct (Rlt_dec (a * a + b * b) 0); [lra|done].
Qed.

Lemma py_root_sum_squares_within (A B : R) (a b : pyfloat) :
  within A a → within B b → (A * A + B * B < overflow_threshold)%R →
  ∃ s, py_root_sum_squares a b = Ok s ∧ within (A + B) s ∧ not_negative s.
Proof.
  intros Ha Hb HT.
  destruct a as [r| | |]; [|done..|].
  2:{ destruct b as [q| | |]; [|done..|by exists NaN].
      simpl in Hb. pose proof (square_le _ _ Hb).
      pose proof (square_not_negative A).
      exists NaN. unfold py_root_sum_squares. simpl.
      destruct (Rle_dec overflow_threshold (q * q)); [lra|done]. }
  simpl in Ha. pose proof (square_le _ _ Ha).
  destruct b as [q| | |]; [|done..|].
  2:{ pose proof (square_not_negative B).
      exists NaN. unfold py_root_sum_squares. simpl.
      destruct (Rle_dec overflow_threshold (r * r)); [lra|done]. }
  simpl in Hb. pose proof (square_le _ _ Hb).
  rewrite py_root_sum_squares_Fin by lra. eexists. split; [done|].
  destruct (sqrt_sum_squares_le r q A B Ha Hb). simpl.
  rewrite Rabs_right; lra.
Qed.

Lemma math_pow2_within (y : pyfloat) :
  within 1000 y →
  ∃ lin, math_pow2 y = Ok lin
    ∧ (y = NaN ∧ lin = NaN
       ∨ ∃ r, y = Fin r ∧ lin = Fin (Rpower 2 r)
              ∧ (0 < Rpower 2 r <= 2 ^ 1000)%R).
Proof.
  destruct y as [r| | |]; simpl; [|done..|by exists NaN; split; [|left]].
  intros Hr%Rabs_le_iff. destruct (Rle_dec 1024 r); [lra|].
  destruct (Rle_dec r (-1075)); [lra|]. eexists. split; [done|]. right.
  exists r. split; [done|]. split; [done|].
  split; [apply Rpower_2_pos|apply Rpower_2_le; lra].
Qed.

Lemma fmul_Fin (a b : R) :
  (Rabs (a * b) < overflow_threshold)%R → fmul (Fin a) (Fin b) = Fin (a * b).
Proof. apply finish_in_range. Qed.

(** *** Sums and means *)

Lemma foldl_fadd_NaN (l : list pyfloat) : foldl fadd NaN l = NaN.
Proof. induction l as [|x l IH]; [done|]. simpl. exact IH. Qed.

Lemma fsum_NaN (l : list pyfloat) : NaN ∈ l → fsum l = NaN.
Proof.
  unfold fsum. generalize (Fin 0). induction l as [|x l IH]; intros acc Hin.
  - by apply elem_of_nil in Hin.
  - simpl. apply elem_of_cons in Hin as [<-|Hin]; [|by apply IH].
    rewrite fadd_NaN_r. apply foldl_fadd_NaN.
Qed.

Lemma np_mean_NaN (l : list pyfloat) : NaN ∈ l → np_mean l = NaN.
Proof. intros Hin. unfold np_mean. by rewrite fsum_NaN. Qed.

Lemma stats_sem_NaN (l : list pyfloat) : NaN ∈ l → stats_sem l = NaN.
Proof.
  intros Hin. unfold stats_sem, np_std1. rewrite (np_mean_NaN l Hin).
  rewrite fsum_NaN; [done|].
  apply list_elem_of_fmap. exists NaN. split; [done|exact Hin].
Qed.

Lemma fdiv_Fin (a b : R) :
  b ≠ 0%R → (Rabs (a / b) < overflow_threshold)%R →
  fdiv (Fin a) (Fin b) = Fin (a / b).
Proof.
  intros Hb HT. simpl. destruct (Req_EM_T b 0); [done|].
  by apply finish_in_range.
Qed.

Lemma fdiv_zero_zero : fdiv (Fin 0) (Fin 0) = NaN.
Proof.
  simpl. destruct (Req_EM_T 0 0) as [_|]; [|done].
  unfold Rsign. by destruct (Req_EM_T 0 0).
Qed.

Lemma foldl_Rplus_acc (a : R) (rs : list R) :
  foldl Rplus a rs = (a + Rsum rs)%R.
Proof.
  unfold Rsum. revert a. induction rs as [|r rs IH]; intros a; simpl.
  - lra.
  - rewrite (IH (a + r)%R), (IH (0 + r)%R). lra.
Qed.

Lemma Rsum_cons (r : R) (rs : list R) : Rsum (r :: rs) = (r + Rsum rs)%R.
Proof. unfold Rsum at 1. simpl. rewrite foldl_Rplus_acc. lra. Qed.

Lemma Rsum_nonneg (rs : list R) :
  Forall (λ r, 0 <= r)%R rs → (0 <= Rsum rs)%R.
Proof.
  induction 1 as [|r rs Hr _ IH]; [unfold Rsum; simpl; lra|].
  rewrite Rsum_cons. lra.
Qed.

Lemma Rsum_le (B : R) (rs : list R) :
  Forall (λ r, Rabs r <= B)%R rs →
  (Rabs (Rsum rs) <= INR (length rs) * B)%R.
Proof.
  induction 1 as [|r rs Hr _ IH].
  - unfold Rsum. simpl. rewrite Rabs_R0. lra.
  - rewrite Rsum_cons. cbn [length]. rewrite S_INR.
    apply Rabs_le_iff in Hr, IH. apply Rabs_le_iff. lra.
Qed.

Lemma INR_length_pos {A} (l : list A) : l ≠ [] → (1 <= INR (length l))%R.
Proof.
  intros Hl. destruct l; [done|]. cbn [length]. rewrite S_INR.
  pose proof (pos_INR (length l)). lra.
Qed.

Lemma foldl_fadd_Fin (B a : R) (rs : list R) :
  Forall (λ r, Rabs r <= B)%R rs →
  (Rabs a + INR (length rs) * B < overflow_threshold)%R →
  foldl fadd (Fin a) (Fin <$> rs) = Fin (foldl Rplus a rs).
Proof.
  intros Hrs. revert a. induction Hrs as [|r rs Hr Hrs IH]; intros a HT.
  { done. }
  cbn [length] in HT. rewrite S_INR in HT. cbn [fmap list_fmap foldl fadd].
  assert (0 <= INR (length rs) * B)%R.
  { apply Rmult_le_pos; [apply pos_INR|]. pose proof (Rabs_pos r). lra. }
  pose proof (Rabs_triang a r).
  rewrite finish_in_range by lra. apply IH. lra.
Qed.

Lemma fsum_Fin (B : R) (rs : list R) :
  Forall (λ r, Rabs r <= B)%R rs →
  (INR (length rs) * B < overflow_threshold)%R →
  fsum (Fin <$> rs) = Fin (Rsum rs).
Proof.
  intros Hrs HT. apply (foldl_fadd_Fin B); [done|]. rewrite Rabs_R0. lra.
Qed.

Lemma Rmean_le (B : R) (rs : list R) :
  rs ≠ [] → Forall (λ r, Rabs r <= B)%R rs → (Rabs (Rmean rs) <= B)%R.
Proof.
  intros Hne Hrs. pose proof (INR_length_pos rs Hne) as Hn.
  pose proof (Rsum_le B rs Hrs) as Hsum. apply Rabs_le_iff in Hsum.
  apply Rabs_le_iff. unfold Rmean.
  split.
  - apply (Rmult_le_reg_r (INR (length rs))); [lra|].
    replace (Rsum rs / INR (length rs) * INR (length rs))%R with (Rsum rs)
      by (field; lra).
    lra.
  - apply (Rmult_le_reg_r (INR (length rs))); [lra|].
    replace (Rsum rs / INR (length rs) * INR (length rs))%R with (Rsum rs)
      by (field; lra).
    lra.
Qed.

Lemma np_mean_Fin (B : R) (rs : list R) :
  rs ≠ [] → Forall (λ r, Rabs r <= B)%R rs →
  (INR (length rs) * B < overflow_threshold)%R →
  np_mean (Fin <$> rs) = Fin (Rmean rs).
Proof.
  intros Hne Hrs HT. unfold np_mean, count.
  rewrite (fsum_Fin B), length_fmap by done.
  pose proof (INR_length_pos rs Hne) as Hn.
  apply fdiv_Fin; [lra|]. fold (Rmean rs).
  pose proof (Rmean_le B rs Hne Hrs).
  assert (0 <= B)%R by (pose proof (Rabs_pos (Rmean rs)); lra).
  assert (0 <= (INR (length rs) - 1) * B)%R
    by (apply Rmult_le_pos; lra).
  lra.
Qed.

Lemma np_mean_nil : np_mean [] = NaN.
Proof. apply fdiv_zero_zero. Qed.

(** *** The standard error *)

Lemma squared_deviations_Fin (B m : R) (rs : list R) :
  (Rabs m <= B)%R → Forall (λ r, Rabs r <= B)%R rs →
  (4 * (B * B) < overflow_threshold)%R → (2 * B < overflow_threshold)%R →
  map (λ x, fsquare (fsub x (Fin m))) (Fin <$> rs)
  = Fin <$> map (λ x, (x - m) * (x - m))%R rs.
Proof.
  intros Hm Hrs HT2 HT1. induction Hrs as [|r rs Hr _ IH]; [done|].
  cbn [map fmap list_fmap]. rewrite IH. f_equal.
  assert (Rabs (r - m) <= 2 * B)%R as Hd.
  { apply Rabs_le_iff in Hm, Hr. apply Rabs_le_iff. lra. }
  rewrite fsub_Fin by lra. unfold fsquare. apply fmul_Fin.
  pose proof (square_le _ _ Hd). pose proof (square_not_negative (r - m)).
  rewrite Rabs_right; lra.
Qed.

Lemma squared_deviations_le (B : R) (rs : list R) :
  rs ≠ [] → Forall (λ r, Rabs r <= B)%R rs →
  Forall (λ d, Rabs d <= 4 * (B * B))%R
    (map (λ x, (x - Rmean rs) * (x - Rmean rs))%R rs).
Proof.
  intros Hne Hrs. pose proof (Rmean_le B rs Hne Hrs) as Hm.
  apply Forall_forall. intros d Hd.
  apply list_elem_of_In, in_map_iff in Hd as (x & <- & Hx).
  apply list_elem_of_In in Hx.
  pose proof (proj1 (Forall_forall _ _) Hrs x Hx) as Hr. simpl in Hr.
  assert (Rabs (x - Rmean rs) <= 2 * B)%R as Hd.
  { apply Rabs_le_iff in Hm, Hr. apply Rabs_le_iff. lra. }
  pose proof (square_le _ _ Hd).
  pose proof (square_not_negative (x - Rmean rs)).
  rewrite Rabs_right; lra.
Qed.

Lemma squared_deviations_nonneg (m : R) (rs : list R) :
  (0 <= Rsum (map (λ x, (x - m) * (x - m))%R rs))%R.
Proof.
  apply Rsum_nonneg, Forall_forall. intros y Hy.
  apply list_elem_of_In, in_map_iff in Hy as (x & <- & _).
  apply square_not_negative.
Qed.

(** The variance of at least two values of magnitude at most [B] is at
    most 8 B^2, and their standard error at most 3 B. *)
Lemma variance_le (B : R) (rs : list R) :
  (2 ≤ length rs)%nat → Forall (λ r, Rabs r <= B)%R rs →
  (0 <= Rsum (map (λ x, (x - Rmean rs) * (x - Rmean rs)) rs)
        / INR (length rs - 1) <= 8 * (B * B))%R.
Proof.
  intros Hlen Hrs.
  assert (rs ≠ []) as Hne by (intros ->; simpl in Hlen; lia).
  pose proof (squared_deviations_nonneg (Rmean rs) rs) as H0.
  pose proof (Rsum_le _ _ (squared_deviations_le B rs Hne Hrs)) as Hsum.
  rewrite length_map in Hsum. apply Rabs_le_iff in Hsum.
  set (S := Rsum _) in *.
  assert (INR (length rs) = INR (length rs - 1) + 1)%R as Hn.
  { rewrite <- S_INR. f_equal. lia. }
  assert (1 <= INR (length rs - 1))%R as Hn1.
  { change 1%R with (INR 1). apply le_INR. lia. }
  set (n1 := INR (length rs - 1)) in *. rewrite Hn in Hsum.
  pose proof (square_not_negative B).
  split.
  - apply Rmult_le_pos; [done|]. left. apply Rinv_0_lt_compat. lra.
  - apply (Rmult_le_reg_r n1); [lra|].
    replace (S / n1 * n1)%R with S by (field; lra).
    assert (0 <= (n1 - 1) * (4 * (B * B)))%R
      by (apply Rmult_le_pos; lra).
    lra.
Qed.

Lemma Rsem_le (B : R) (rs : list R) :
  (2 ≤ length rs)%nat → Forall (λ r, Rabs r <= B)%R rs →
  (0 <= Rsem rs <= 3 * B)%R.
Proof.
  intros Hlen Hrs.
  assert (rs ≠ []) as Hne by (intros ->; simpl in Hlen; lia).
  pose proof (variance_le B rs Hlen Hrs) as [Hv0 Hv]. unfold Rsem.
  set (v := (Rsum _ / _)%R) in *.
  pose proof (INR_length_pos rs Hne) as Hn.
  assert (0 <= B)%R as HB.
  { pose proof (Rmean_le B rs Hne Hrs). pose proof (Rabs_pos (Rmean rs)).
    lra. }
  assert (1 <= sqrt (INR (length rs)))%R as Hs.
  { rewrite <- sqrt_1. by apply sqrt_le_1_alt. }
  assert (0 <= sqrt v <= 3 * B)%R as [Hs0 Hsv].
  { split; [apply sqrt_pos|].
    rewrite <- (sqrt_square (3 * B)) by lra. apply sqrt_le_1_alt.
    pose proof (square_not_negative B). lra. }
  split.
  - apply Rmult_le_pos; [done|]. left. apply Rinv_0_lt_compat. lra.
  - apply (Rmult_le_reg_r (sqrt (INR (length rs)))); [lra|].
    replace (sqrt v / sqrt (INR (length rs)) * sqrt (INR (length rs)))%R
      with (sqrt v) by (field; lra).
    assert (0 <= (sqrt (INR (length rs)) - 1) * (3 * B))%R
      by (apply Rmult_le_pos; lra).
    lra.
Qed.

Lemma stats_sem_Fin (B : R) (rs : list R) :
  (2 ≤ length rs)%nat → Forall (λ r, Rabs r <= B)%R rs →
  (INR (length rs) * B < overflow_threshold)%R →
  (INR (length rs) * (4 * (B * B)) < overflow_threshold)%R →
  (8 * (B * B) < overflow_threshold)%R →
  (3 * B < overflow_threshold)%R →
  stats_sem (Fin <$> rs) = Fin (Rsem rs).
Proof.
  intros Hlen Hrs HT1 HT2 HT3 HT4.
  assert (rs ≠ []) as Hne by (intros ->; simpl in Hlen; lia).
  pose proof (Rmean_le B rs Hne Hrs) as Hm.
  assert (0 <= B)%R as HB by (pose proof (Rabs_pos (Rmean rs)); lra).
  pose proof (square_not_negative B) as HBB.
  pose proof (variance_le B rs Hlen Hrs) as [Hv0 Hv].
  pose proof (Rsem_le B rs Hlen Hrs) as [He0 He].
  pose proof (INR_length_pos rs Hne) as Hn.
  unfold stats_sem, np_std1, count. rewrite (np_mean_Fin B) by done.
  rewrite length_fmap, (squared_deviations_Fin B) by (done || lra).
  rewrite (fsum_Fin (4 * (B * B)));
    [|by apply squared_deviations_le|by rewrite length_map].
  assert (1 <= INR (length rs - 1))%R as Hn1.
  { change 1%R with (INR 1). apply le_INR. lia. }
  rewrite fdiv_Fin; [|lra|rewrite Rabs_right; lra].
  unfold Rsem in *. set (v := (Rsum _ / _)%R) in *.
  cbn [np_sqrt].
  destruct (Rlt_dec v 0) as [?|_]; [lra|].
  destruct (Rlt_dec (INR (length rs)) 0) as [?|_]; [lra|].
  apply fdiv_Fin; [|rewrite Rabs_right; lra].
  intros H0. apply sqrt_eq_0 in H0; lra.
Qed.

Lemma deviation_singleton (x : pyfloat) :
  is_float x → fsub x (np_mean [x]) = if is_fin x then Fin 0 else NaN.
Proof.
  intros Hx. unfold np_mean, fsum, count.
  destruct x as [a| | |]; cbn [foldl fadd length INR is_fin]; [| | |done].
  - simpl in Hx. replace (0 + a)%R with a by lra.
    rewrite finish_in_range by done.
    rewrite fdiv_Fin; [|lra|by replace (a / 1)%R with a by field].
    replace (a / 1)%R with a by field. apply (fsub_diag (Fin a)).
  - simpl. destruct (Req_EM_T 1 0) as [?|_]; [lra|].
    by rewrite Rsign_pos by lra.
  - simpl. destruct (Req_EM_T 1 0) as [?|_]; [lra|].
    by rewrite Rsign_pos by lra.
Qed.

(** A group of fewer than two replicates has no standard error: 0/0. *)
Lemma stats_sem_short (l : list pyfloat) :
  (length l < 2)%nat → Forall is_float l → stats_sem l = NaN.
Proof.
  intros Hlen Hl. unfold stats_sem, np_std1.
  replace (length l - 1)%nat with 0%nat by lia.
  enough (fdiv (fsum (map (λ x, fsquare (fsub x (np_mean l))) l)) (Fin (INR 0))
          = NaN) as -> by done.
  destruct l as [|x [|y l]]; [| |simpl in Hlen; lia].
  - apply fdiv_zero_zero.
  - unfold fsum. cbn [map foldl].
    rewrite deviation_singleton by (by inversion Hl).
    destruct (is_fin x); [|done]. cbn [fsquare fmul fadd].
    replace (0 * 0)%R with 0%R by lra.
    rewrite (finish_in_range 0)
      by (rewrite Rabs_R0; pose proof overflow_threshold_above; lra).
    cbn [fadd]. replace (0 + 0)%R with 0%R by lra.
    rewrite (finish_in_range 0)
      by (rewrite Rabs_R0; pose proof overflow_threshold_above; lra).
    apply fdiv_zero_zero.
Qed.

Lemma stats_sem_empty : stats_sem [] = NaN.
Proof. by apply stats_sem_short; [simpl; lia|]. Qed.

Lemma valid_group_Fin (l : list pyfloat) :
  valid_group l = true → ∃ rs, l = Fin <$> rs ∧ (2 ≤ length rs)%nat.
Proof.
  unfold valid_group. intros [Hfin Hlen]%andb_prop.
  apply Nat.leb_le in Hlen.
  assert (∃ rs, l = Fin <$> rs) as [rs ->].
  { clear Hlen. induction l as [|x l IH]; [by exists []|].
    simpl in Hfin. apply andb_prop in Hfin as [Hx Hl].
    destruct (IH Hl) as [rs ->]. destruct x as [r| | |]; try done.
    by exists (r :: rs). }
  exists rs. by rewrite length_fmap in Hlen.
Qed.

(** *** Groups of values within bounds *)

Lemma within_cases (B : R) (l : list pyfloat) :
  Forall (within B) l →
  NaN ∈ l ∨ ∃ rs, l = Fin <$> rs ∧ Forall (λ r, Rabs r <= B)%R rs.
Proof.
  induction 1 as [|x l Hx _ [IH|(rs & -> & IH)]].
  - right. by exists [].
  - left. by right.
  - destruct x as [r| | |]; [|done..|left; by left].
    right. exists (r :: rs). split; [done|]. by constructor.
Qed.

Lemma np_mean_within (B : R) (l : list pyfloat) :
  Forall (within B) l → (INR (length l) * B < overflow_threshold)%R →
  within B (np_mean l).
Proof.
  intros Hl HT. destruct (within_cases B l Hl) as [HNaN|(rs & -> & Hrs)].
  { by rewrite np_mean_NaN. }
  rewrite length_fmap in HT. destruct rs as [|r rs].
  { cbn [fmap list_fmap]. by rewrite np_mean_nil. }
  rewrite (np_mean_Fin B) by done. by apply Rmean_le.
Qed.

Lemma stats_sem_within (B : R) (l : list pyfloat) :
  Forall (within B) l →
  (INR (length l) * B < overflow_threshold)%R →
  (INR (length l) * (4 * (B * B)) < overflow_threshold)%R →
  (8 * (B * B) < overflow_threshold)%R →
  (3 * B < overflow_threshold)%R →
  within (3 * B) (stats_sem l).
Proof.
  intros Hl HT1 HT2 HT3 HT4.
  destruct (within_cases B l Hl) as [HNaN|(rs & -> & Hrs)].
  { by rewrite stats_sem_NaN. }
  rewrite length_fmap in HT1, HT2.
  destruct (decide (length rs < 2)%nat) as [Hshort|Hlen].
  - rewrite stats_sem_short; [done|by rewrite length_fmap|].
    apply Forall_fmap. eapply Forall_impl; [exact Hrs|].
    intros r Hr. simpl in *. pose proof (Rabs_pos r). lra.
  - rewrite (stats_sem_Fin B) by (done || lia).
    destruct (Rsem_le B rs) as [H0 Hle]; [lia|done|].
    simpl. rewrite Rabs_right; lra.
Qed.

Lemma tame_bounds (n : R) :
  (n <= 10 ^ 6)%R →
  (n * 250 < overflow_threshold)%R
  ∧ (n * (4 * (250 * 250)) < overflow_threshold)%R
  ∧ (8 * (250 * 250) < overflow_threshold)%R
  ∧ (3 * 250 < overflow_threshold)%R.
Proof. intros Hn. pose proof overflow_threshold_above. lra. Qed.

Lemma tame_nil : tame [].
Proof. split; [simpl; lra|constructor]. Qed.

Lemma tame_is_float (l : list pyfloat) : tame l → Forall is_float l.
Proof.
  intros [_ Hl]. eapply Forall_impl; [exact Hl|]. intros x Hx.
  apply (within_is_float 250); [done|].
  pose proof overflow_threshold_above. lra.
Qed.

Lemma tame_np_mean (l : list pyfloat) : tame l → within 250 (np_mean l).
Proof.
  intros [Hn Hl]. destruct (tame_bounds _ Hn) as (? & ? & ? & ?).
  by apply np_mean_within.
Qed.

Lemma tame_stats_sem (l : list pyfloat) : tame l → within 750 (stats_sem l).
Proof.
  intros [Hn Hl]. destruct (tame_bounds _ Hn) as (? & ? & ? & ?).
  replace 750%R with (3 * 250)%R by lra. by apply stats_sem_within.
Qed.

Lemma plausible_Fin (l : list pyfloat) :
  plausible l →
  ∃ rs, l = Fin <$> rs ∧ (2 ≤ length rs)%nat
        ∧ (INR (length rs) <= 10 ^ 6)%R
        ∧ Forall (λ r, Rabs r <= 250)%R rs.
Proof.
  intros [(rs & -> & Hlen)%valid_group_Fin [Hn Hl]]. exists rs.
  rewrite length_fmap in Hn. split; [done|]. split; [done|]. split; [done|].
  rewrite Forall_fmap in Hl. eapply Forall_impl; [exact Hl|]. done.
Qed.

Lemma plausible_np_mean (rs : list R) :
  (2 ≤ length rs)%nat → (INR (length rs) <= 10 ^ 6)%R →
  Forall (λ r, Rabs r <= 250)%R rs →
  np_mean (Fin <$> rs) = Fin (Rmean rs) ∧ (Rabs (Rmean rs) <= 250)%R.
Proof.
  intros Hlen Hn Hrs. destruct (tame_bounds _ Hn) as (? & ? & ? & ?).
  assert (rs ≠ []) as Hne by (intros ->; simpl in Hlen; lia).
  split; [by apply (np_mean_Fin 250)|by apply Rmean_le].
Qed.

Lemma plausible_stats_sem (rs : list R) :
  (2 ≤ length rs)%nat → (INR (length rs) <= 10 ^ 6)%R →
  Forall (λ r, Rabs r <= 250)%R rs →
  stats_sem (Fin <$> rs) = Fin (Rsem rs) ∧ (0 <= Rsem rs <= 750)%R.
Proof.
  intros Hlen Hn Hrs. destruct (tame_bounds _ Hn) as (? & ? & ? & ?).
  split; [by apply (stats_sem_Fin 250)|].
  destruct (Rsem_le 250 rs Hlen Hrs). lra.
Qed.

(** ** Loops that raise only what their bodies raise *)

Lemma is_Ok_ok_or {A} (r : result A) : is_Ok r ↔ ok_or (λ _, False) r.
Proof.
  destruct r as [a|e]; simpl; [|by split; [intros []|]].
  by split; [|exists a].
Qed.

Lemma ok_or_bind {A B} (E : exn → Prop) (r : result A) (f : A → result B) :
  ok_or E r → (∀ a, r = Ok a → ok_or E (f a)) → ok_or E (r ≫= f).
Proof. destruct r as [a|e]; simpl; [|done]. intros _ Hf. by apply Hf. Qed.

Lemma for_each_ok_or {A S} (E : exn → Prop) (xs : list A)
    (body : A → S → result S) (s : S) :
  (∀ x s, x ∈ xs → ok_or E (body x s)) → ok_or E (for_each xs body s).
Proof.
  revert s. induction xs as [|x xs IH]; intros s Hbody; simpl; [done|].
  apply ok_or_bind; [apply Hbody; by left|]. intros s1 _. apply IH.
  intros y t Hy. apply Hbody. by right.
Qed.

Lemma for_genes_ok_or {S} (E : exn → Prop) fl gl
    (body : string → string → S → result S) (s : S) :
  (∀ file_name, file_name ∈ fl →
     ∃ genes, gl !! substring 0 8 file_name = Some genes
       ∧ ∀ gene s, gene ∈ genes →
           ok_or E (body (substring 0 8 file_name) gene s)) →
  ok_or E (for_genes fl gl body s).
Proof.
  intros Hbody. apply for_each_ok_or. intros file_name t Hin.
  destruct (Hbody file_name Hin) as (genes & Hgl & Hok).
  unfold getitem. rewrite Hgl. simpl. apply for_each_ok_or.
  intros gene u Hgene. by apply Hok.
Qed.

Lemma pass_not_hcaT_ok_or {V W} (E : exn → Prop)
    (F : string → string → result (gmap string V * gmap string W)) fl gl :
  (∀ file_name, file_name ∈ fl →
     ∃ genes, gl !! substring 0 8 file_name = Some genes
       ∧ ∀ gene, gene ∈ genes → gene ≠ "hcaT" →
           ok_or E (F (substring 0 8 file_name) gene)) →
  ok_or E (for_genes fl gl (λ file_date gene '(means_dict, sems_dict),
    if decide (gene ≠ "hcaT") then
      '(means, sems) ← F file_date gene;
      Ok (<[gene := means]> means_dict, <[gene := sems]> sems_dict)
    else Ok (means_dict, sems_dict))
    ((∅, ∅) : gmap string (gmap string V) * gmap string (gmap string W))).
Proof.
  intros HF. apply for_genes_ok_or. intros file_name Hin.
  destruct (HF file_name Hin) as (genes & Hgl & Hok).
  exists genes. split; [done|]. intros gene [ms ss] Hgene.
  case_decide as Hne; [|done].
  apply ok_or_bind; [by apply Hok|]. by intros [means sems] _.
Qed.

Lemma keys_loop_ok_or {U V W} (E : exn → Prop) (G : string → result (V * W))
    (body : string → gmap string V * gmap string W →
            result (gmap string V * gmap string W))
    (t : gmap string U) :
  (∀ k s, body k s = v ← G k; Ok (assign2 k v s)) →
  (∀ k, is_Some (t !! k) → ok_or E (G k)) →
  ok_or E (for_each (keys t) body (∅, ∅)).
Proof.
  intros Hbody HG. apply for_each_ok_or. intros k s Hk.
  rewrite Hbody. apply ok_or_bind; [|done]. by apply HG, elem_of_keys.
Qed.

(** ** The four passes of cell 6, one gene at a time *)

(** Brings the body of a loop over guides into the shape of
    [keys_loop_lookup]: every lookup either raises or gives a value. *)
Ltac loop_body :=
  intros ? [? ?]; cbn beta;
  repeat match goal with
         | |- context [mbind _ ?r] => destruct r; simpl
         end;
  done.

Section per_gene.
Implicit Types (means sems : gmap string pyfloat).
Implicit Types (gene guide : string).

Lemma gene_stats_lookup cq_dict gene means sems :
  gene_stats cq_dict gene = Ok (means, sems) →
  ∃ guides, cq_dict !! gene = Some guides
    ∧ ∀ guide, means !! guide = np_mean <$> guides !! guide
               ∧ sems !! guide = stats_sem <$> guides !! guide.
Proof.
  intros Hrun. apply bind_Ok_inv in Hrun as (guides & Hg & Hrun).
  apply getitem_Ok in Hg. exists guides. split; [done|]. intros guide.
  apply (keys_loop_lookup
           (λ guide, replicates ← getitem2 cq_dict gene guide;
                     Ok (np_mean replicates, stats_sem replicates))
           _ guides means sems guide) in Hrun; [|loop_body].
  destruct (guides !! guide) as [l|] eqn:Hl; [|done].
  destruct Hrun as (v & Hv & -> & ->).
  apply bind_Ok_inv in Hv as (l' & Hl' & [= <-]).
  apply getitem2_Ok in Hl' as (t & Ht & Hl').
  by assert (l' = l) as -> by congruence.
Qed.

Lemma gene_stats_total cq_dict gene :
  is_Some (cq_dict !! gene) → is_Ok (gene_stats cq_dict gene).
Proof.
  intros [guides Hg]. unfold gene_stats, getitem. rewrite Hg. simpl.
  apply (keys_loop_total
           (λ guide, replicates ← getitem2 cq_dict gene guide;
                     Ok (np_mean replicates, stats_sem replicates)));
    [loop_body|].
  intros guide [l Hl]. unfold getitem2, getitem. rewrite Hg. simpl.
  rewrite Hl. apply is_Ok_Ok.
Qed.

Lemma gene_d_cq_lookup cq_mean cq_sem gene means sems guide :
  gene_d_cq cq_mean cq_sem gene = Ok (means, sems) →
  match lookup2 cq_mean gene guide with
  | Some gene_mean =>
      ∃ hcaT_mean hcaT_sem gene_sem,
        lookup2 cq_mean "hcaT" guide = Some hcaT_mean
        ∧ lookup2 cq_sem "hcaT" guide = Some hcaT_sem
        ∧ lookup2 cq_sem gene guide = Some gene_sem
        ∧ means !! guide = Some (fsub hcaT_mean gene_mean)
        ∧ sems !! guide = Some (root_sum_squares hcaT_sem gene_sem)
  | None => means !! guide = None ∧ sems !! guide = None
  end.
Proof.
  intros Hrun. apply bind_Ok_inv in Hrun as (guides & Hg & Hrun).
  apply getitem_Ok in Hg. unfold lookup2 at 1. rewrite Hg. simpl.
  apply (keys_loop_lookup
           (λ guide,
              hcaT_mean ← getitem2 cq_mean "hcaT" guide;
              gene_mean ← getitem2 cq_mean gene guide;
              hcaT_sem ← getitem2 cq_sem "hcaT" guide;
              gene_sem ← getitem2 cq_sem gene guide;
              sem ← math_sqrt (fadd (fsquare hcaT_sem) (fsquare gene_sem));
              Ok (fsub hcaT_mean gene_mean, sem))
           _ guides means sems guide) in Hrun; [|loop_body].
  destruct (guides !! guide) as [gm|] eqn:Hgm; [|done].
  destruct Hrun as (v & Hv & -> & ->).
  apply bind_Ok_inv in Hv as (hm & Hhm & Hv).
  apply bind_Ok_inv in Hv as (gm' & Hgm' & Hv).
  apply bind_Ok_inv in Hv as (hs & Hhs & Hv).
  apply bind_Ok_inv in Hv as (gs & Hgs & Hv).
  rewrite math_sqrt_root_sum_squares in Hv. injection Hv as <-.
  apply getitem2_lookup2 in Hhm, Hgm', Hhs, Hgs.
  assert (gm' = gm) as ->.
  { unfold lookup2 in Hgm'. rewrite Hg in Hgm'. simpl in Hgm'. congruence. }
  by exists hm, hs, gs.
Qed.

Lemma gene_d_cq_total cq_mean cq_sem gene :
  is_Some (cq_mean !! gene) →
  (∀ guide, is_Some (lookup2 cq_mean gene guide) →
     is_Some (lookup2 cq_mean "hcaT" guide)
     ∧ is_Some (lookup2 cq_sem "hcaT" guide)
     ∧ is_Some (lookup2 cq_sem gene guide)) →
  is_Ok (gene_d_cq cq_mean cq_sem gene).
Proof.
  intros [guides Hg] Hkeys. unfold gene_d_cq, getitem. rewrite Hg. simpl.
  apply (keys_loop_total
           (λ guide,
              hcaT_mean ← getitem2 cq_mean "hcaT" guide;
              gene_mean ← getitem2 cq_mean gene guide;
              hcaT_sem ← getitem2 cq_sem "hcaT" guide;
              gene_sem ← getitem2 cq_sem gene guide;
              sem ← math_sqrt (fadd (fsquare hcaT_sem) (fsquare gene_sem));
              Ok (fsub hcaT_mean gene_mean, sem)));
    [loop_body|].
  intros guide [gm Hgm].
  assert (lookup2 cq_mean gene guide = Some gm) as Hgm'
    by (unfold lookup2; by rewrite Hg).
  destruct (Hkeys guide) as ([hm Hhm] & [hs Hhs] & [gs Hgs]); [by eexists|].
  apply getitem2_lookup2 in Hhm, Hgm', Hhs, Hgs.
  rewrite Hhm, Hgm', Hhs, Hgs. simpl.
  rewrite math_sqrt_root_sum_squares. apply is_Ok_Ok.
Qed.

Lemma gene_dd_cq_lookup d_mean d_sem file_date gene means sems guide :
  gene_dd_cq d_mean d_sem file_date gene = Ok (means, sems) →
  match lookup2 d_mean gene guide with
  | Some guide_mean =>
      ∃ Rand42_mean guide_sem Rand42_sem sem,
        lookup2 d_mean gene ("Rand42_" +:+ file_date) = Some Rand42_mean
        ∧ lookup2 d_sem gene guide = Some guide_sem
        ∧ lookup2 d_sem gene ("Rand42_" +:+ file_date) = Some Rand42_sem
        ∧ py_root_sum_squares guide_sem Rand42_sem = Ok sem
        ∧ means !! guide = Some (fsub guide_mean Rand42_mean)
        ∧ sems !! guide = Some sem
  | None => means !! guide = None ∧ sems !! guide = None
  end.
Proof.
  intros Hrun. apply bind_Ok_inv in Hrun as (guides & Hg & Hrun).
  apply getitem_Ok in Hg. unfold lookup2 at 1. rewrite Hg. simpl.
  apply (keys_loop_lookup
           (λ guide,
              guide_mean ← getitem2 d_mean gene guide;
              Rand42_mean ←
                getitem2 d_mean gene ("Rand42_" +:+ file_date);
              guide_sem ← getitem2 d_sem gene guide;
              guide_square ← py_square guide_sem;
              Rand42_sem ← getitem2 d_sem gene ("Rand42_" +:+ file_date);
              Rand42_square ← py_square Rand42_sem;
              sem ← math_sqrt (fadd guide_square Rand42_square);
              Ok (fsub guide_mean Rand42_mean, sem))
           _ guides means sems guide) in Hrun; [|loop_body].
  destruct (guides !! guide) as [dm|] eqn:Hdm; [|done].
  destruct Hrun as (v & Hv & -> & ->).
  apply bind_Ok_inv in Hv as (dm' & Hdm' & Hv).
  apply bind_Ok_inv in Hv as (rm & Hrm & Hv).
  apply bind_Ok_inv in Hv as (ds & Hds & Hv).
  apply bind_Ok_inv in Hv as (ds2 & Hds2 & Hv).
  apply bind_Ok_inv in Hv as (rs & Hrs & Hv).
  apply bind_Ok_inv in Hv as (rs2 & Hrs2 & Hv).
  apply bind_Ok_inv in Hv as (sem & Hsem & [= <-]).
  apply getitem2_lookup2 in Hdm', Hrm, Hds, Hrs.
  assert (dm' = dm) as ->.
  { unfold lookup2 in Hdm'. rewrite Hg in Hdm'. simpl in Hdm'. congruence. }
  exists rm, ds, rs, sem. repeat (split; [done|]). split; [|done].
  unfold py_root_sum_squares. by rewrite Hds2, Hrs2.
Qed.

(** With the keys in place, the third pass over a gene ends as the squares
    of its guides do. *)
Lemma gene_dd_cq_ok_or (E : exn → Prop) d_mean d_sem file_date gene :
  is_Some (d_mean !! gene) →
  (∀ guide, is_Some (lookup2 d_mean gene guide) →
     ∃ guide_sem Rand42_sem,
       is_Some (lookup2 d_mean gene ("Rand42_" +:+ file_date))
       ∧ lookup2 d_sem gene guide = Some guide_sem
       ∧ lookup2 d_sem gene ("Rand42_" +:+ file_date) = Some Rand42_sem
       ∧ ok_or E (py_root_sum_squares guide_sem Rand42_sem)) →
  ok_or E (gene_dd_cq d_mean d_sem file_date gene).
Proof.
  intros [guides Hg] Hkeys. unfold gene_dd_cq, getitem. rewrite Hg. simpl.
  apply (keys_loop_ok_or E
           (λ guide,
              guide_mean ← getitem2 d_mean gene guide;
              Rand42_mean ←
                getitem2 d_mean gene ("Rand42_" +:+ file_date);
              guide_sem ← getitem2 d_sem gene guide;
              guide_square ← py_square guide_sem;
              Rand42_sem ← getitem2 d_sem gene ("Rand42_" +:+ file_date);
              Rand42_square ← py_square Rand42_sem;
              sem ← math_sqrt (fadd guide_square Rand42_square);
              Ok (fsub guide_mean Rand42_mean, sem)));
    [loop_body|].
  intros guide [dm Hdm].
  assert (lookup2 d_mean gene guide = Some dm) as Hdm'
    by (unfold lookup2; by rewrite Hg).
  destruct (Hkeys guide) as (ds & rs & [rm Hrm] & Hds & Hrs & Hok);
    [by eexists|].
  apply getitem2_lookup2 in Hdm', Hrm, Hds, Hrs.
  rewrite Hdm', Hrm, Hds. simpl. unfold py_root_sum_squares in Hok.
  destruct (py_square ds) as [ds2|e]; simpl in *; [|done].
  rewrite Hrs. simpl.
  destruct (py_square rs) as [rs2|e]; simpl in *; [|done].
  by destruct (math_sqrt (fadd ds2 rs2)).
Qed.

Lemma gene_lin_lookup dd_mean dd_sem gene means sems guide :
  gene_lin dd_mean dd_sem gene = Ok (means, sems) →
  match lookup2 dd_mean gene guide with
  | Some mean =>
      ∃ sem lin,
        lookup2 dd_sem gene guide = Some sem
        ∧ math_pow2 mean = Ok lin
        ∧ means !! guide = Some lin
        ∧ sems !! guide = Some (fmul (fmul np_log2 sem) lin)
  | None => means !! guide = None ∧ sems !! guide = None
  end.
Proof.
  intros Hrun. apply bind_Ok_inv in Hrun as (guides & Hg & Hrun).
  apply getitem_Ok in Hg. unfold lookup2 at 1. rewrite Hg. simpl.
  apply (keys_loop_lookup
           (λ guide,
              mean ← getitem2 dd_mean gene guide;
              lin ← math_pow2 mean;
              sem ← getitem2 dd_sem gene guide;
              Ok (lin, fmul (fmul np_log2 sem) lin))
           _ guides means sems guide) in Hrun; [|loop_body].
  destruct (guides !! guide) as [m|] eqn:Hm; [|done].
  destruct Hrun as (v & Hv & -> & ->).
  apply bind_Ok_inv in Hv as (m' & Hm' & Hv).
  apply bind_Ok_inv in Hv as (lin & Hlin & Hv).
  apply bind_Ok_inv in Hv as (e & He & [= <-]).
  apply getitem2_lookup2 in Hm', He.
  assert (m' = m) as ->.
  { unfold lookup2 in Hm'. rewrite Hg in Hm'. simpl in Hm'. congruence. }
  by exists e, lin.
Qed.

(** With the keys in place, the fourth pass over a gene ends as the powers
    of two of its guides do. *)
Lemma gene_lin_ok_or (E : exn → Prop) dd_mean dd_sem gene :
  is_Some (dd_mean !! gene) →
  (∀ guide mean, lookup2 dd_mean gene guide = Some mean →
     is_Some (lookup2 dd_sem gene guide) ∧ ok_or E (math_pow2 mean)) →
  ok_or E (gene_lin dd_mean dd_sem gene).
Proof.
  intros [guides Hg] Hkeys. unfold gene_lin, getitem. rewrite Hg. simpl.
  apply (keys_loop_ok_or E
           (λ guide,
              mean ← getitem2 dd_mean gene guide;
              lin ← math_pow2 mean;
              sem ← getitem2 dd_sem gene guide;
              Ok (lin, fmul (fmul np_log2 sem) lin)));
    [loop_body|].
  intros guide [m Hm].
  assert (lookup2 dd_mean gene guide = Some m) as Hm'
    by (unfold lookup2; by rewrite Hg).
  destruct (Hkeys guide m Hm') as [[e He] Hok].
  apply getitem2_lookup2 in Hm', He.
  rewrite Hm'. simpl. destruct (math_pow2 m) as [lin|]; simpl in *; [|done].
  by rewrite He.
Qed.
End per_gene.

(** ** The four passes of cell 6, over all genes *)

Lemma lookup2_Some {V} (d : gmap string (gmap string V)) k1 k2 t :
  d !! k1 = Some t → lookup2 d k1 k2 = t !! k2.
Proof. intros H. unfold lookup2. by rewrite H. Qed.

Lemma lookup2_None {V} (d : gmap string (gmap string V)) k1 k2 :
  d !! k1 = None → lookup2 d k1 k2 = None.
Proof. intros H. unfold lookup2. by rewrite H. Qed.

Section passes.
Variables (fl : list string) (gl : gmap string (list string)).
Implicit Types (gene guide file_name : string).

Lemma replicate_stats_lookup cq_dict cq_mean cq_sem gene :
  replicate_stats fl gl cq_dict = Ok (cq_mean, cq_sem) →
  if last_file fl gl gene is Some _ then
    is_Some (cq_dict !! gene) ∧ is_Some (cq_mean !! gene)
    ∧ ∀ guide,
        lookup2 cq_mean gene guide = np_mean <$> lookup2 cq_dict gene guide
        ∧ lookup2 cq_sem gene guide
          = stats_sem <$> lookup2 cq_dict gene guide
  else cq_mean !! gene = None ∧ cq_sem !! gene = None.
Proof.
  intros Hrun.
  apply (pass_all_lookup (λ _, gene_stats cq_dict) _ _ _ _ gene) in Hrun.
  destruct (last_file fl gl gene); [|done].
  destruct Hrun as (means & sems & Hg & Hm & Hs).
  apply gene_stats_lookup in Hg as (guides & Hcq & Hg).
  split; [by eexists|]. split; [by eexists|]. intros guide.
  rewrite (lookup2_Some _ _ _ _ Hm), (lookup2_Some _ _ _ _ Hs),
    (lookup2_Some _ _ _ _ Hcq).
  apply Hg.
Qed.

Lemma replicate_stats_total cq_dict :
  (∀ file_name, file_name ∈ fl →
     ∃ genes, gl !! substring 0 8 file_name = Some genes
       ∧ ∀ gene, gene ∈ genes → is_Some (cq_dict !! gene)) →
  is_Ok (replicate_stats fl gl cq_dict).
Proof.
  intros Hkeys. apply (pass_all_total (λ _, gene_stats cq_dict)).
  intros file_name Hin. destruct (Hkeys file_name Hin) as (genes & ? & Hg).
  exists genes. split; [done|]. intros gene ?.
  by apply gene_stats_total, Hg.
Qed.

Lemma normalize_hcaT_lookup cq_mean cq_sem d_mean d_sem gene guide :
  normalize_hcaT fl gl cq_mean cq_sem = Ok (d_mean, d_sem) →
  gene ≠ "hcaT" → is_Some (last_file fl gl gene) →
  is_Some (d_mean !! gene)
  ∧ match lookup2 cq_mean gene guide with
    | Some gene_mean =>
        ∃ hcaT_mean hcaT_sem gene_sem,
          lookup2 cq_mean "hcaT" guide = Some hcaT_mean
          ∧ lookup2 cq_sem "hcaT" guide = Some hcaT_sem
          ∧ lookup2 cq_sem gene guide = Some gene_sem
          ∧ lookup2 d_mean gene guide = Some (fsub hcaT_mean gene_mean)
          ∧ lookup2 d_sem gene guide
            = Some (root_sum_squares hcaT_sem gene_sem)
    | None =>
        lookup2 d_mean gene guide = None ∧ lookup2 d_sem gene guide = None
    end.
Proof.
  intros Hrun Hgene [file_name Hlast].
  apply (pass_not_hcaT_lookup (λ _, gene_d_cq cq_mean cq_sem) _ _ _ _ gene)
    in Hrun.
  rewrite Hlast, decide_True in Hrun by done.
  destruct Hrun as (means & sems & Hg & Hm & Hs).
  split; [by eexists|].
  rewrite (lookup2_Some _ _ _ _ Hm), (lookup2_Some _ _ _ _ Hs).
  by apply gene_d_cq_lookup.
Qed.

Lemma normalize_Rand42_lookup d_mean d_sem dd_mean dd_sem gene guide
    file_name :
  normalize_Rand42 fl gl d_mean d_sem = Ok (dd_mean, dd_sem) →
  gene ≠ "hcaT" → last_file fl gl gene = Some file_name →
  let Rand42 := "Rand42_" +:+ substring 0 8 file_name in
  is_Some (dd_mean !! gene)
  ∧ match lookup2 d_mean gene guide with
    | Some guide_mean =>
        ∃ Rand42_mean guide_sem Rand42_sem sem,
          lookup2 d_mean gene Rand42 = Some Rand42_mean
          ∧ lookup2 d_sem gene guide = Some guide_sem
          ∧ lookup2 d_sem gene Rand42 = Some Rand42_sem
          ∧ py_root_sum_squares guide_sem Rand42_sem = Ok sem
          ∧ lookup2 dd_mean gene guide = Some (fsub guide_mean Rand42_mean)
          ∧ lookup2 dd_sem gene guide = Some sem
    | None =>
        lookup2 dd_mean gene guide = None
        ∧ lookup2 dd_sem gene guide = None
    end.
Proof.
  intros Hrun Hgene Hlast Rand42.
  apply (pass_not_hcaT_lookup (gene_dd_cq d_mean d_sem) _ _ _ _ gene)
    in Hrun.
  rewrite Hlast, decide_True in Hrun by done.
  destruct Hrun as (means & sems & Hg & Hm & Hs).
  split; [by eexists|].
  rewrite (lookup2_Some _ _ _ _ Hm), (lookup2_Some _ _ _ _ Hs).
  by apply gene_dd_cq_lookup.
Qed.

Lemma linearize_lookup dd_mean dd_sem lin_mean lin_sem gene guide :
  linearize fl gl dd_mean dd_sem = Ok (lin_mean, lin_sem) →
  gene ≠ "hcaT" → is_Some (last_file fl gl gene) →
  match lookup2 dd_mean gene guide with
  | Some mean =>
      ∃ sem lin,
        lookup2 dd_sem gene guide = Some sem
        ∧ math_pow2 mean = Ok lin
        ∧ lookup2 lin_mean gene guide = Some lin
        ∧ lookup2 lin_sem gene guide = Some (fmul (fmul np_log2 sem) lin)
  | None =>
      lookup2 lin_mean gene guide = None
      ∧ lookup2 lin_sem gene guide = None
  end.
Proof.
  intros Hrun Hgene [file_name Hlast].
  apply (pass_not_hcaT_lookup (λ _, gene_lin dd_mean dd_sem) _ _ _ _ gene)
    in Hrun.
  rewrite Hlast, decide_True in Hrun by done.
  destruct Hrun as (means & sems & Hg & Hm & Hs).
  rewrite (lookup2_Some _ _ _ _ Hm), (lookup2_Some _ _ _ _ Hs).
  by apply gene_lin_lookup.
Qed.
End passes.

(** ** The Relative Expression Calculator *)

Section calculator.
Variables (fl : list string) (gl : gmap string (list string)).
Variable cq_dict : gmap string (gmap string (list pyfloat)).
Implicit Types (gene guide file_name : string).

(** The first two passes: ΔCq of every group of a listed gene that is not
    the reference gene. *)
Lemma d_cq_lookup cq_mean cq_sem d_mean d_sem gene guide :
  replicate_stats fl gl cq_dict = Ok (cq_mean, cq_sem) →
  normalize_hcaT fl gl cq_mean cq_sem = Ok (d_mean, d_sem) →
  gene ≠ "hcaT" → is_Some (last_file fl gl gene) →
  match lookup2 cq_dict gene guide with
  | Some group =>
      ∃ hcaT_group,
        lookup2 cq_dict "hcaT" guide = Some hcaT_group
        ∧ lookup2 d_mean gene guide = Some (dCq_mean hcaT_group group)
        ∧ lookup2 d_sem gene guide = Some (dCq_sem hcaT_group group)
  | None =>
      lookup2 d_mean gene guide = None ∧ lookup2 d_sem gene guide = None
  end.
Proof.
  intros Hstats Hnorm Hgene Hlast.
  pose proof (replicate_stats_lookup fl gl _ _ _ gene Hstats) as Hg.
  pose proof (replicate_stats_lookup fl gl _ _ _ "hcaT" Hstats) as Hh.
  destruct Hlast as [file_name Hlast]. rewrite Hlast in Hg.
  destruct Hg as (_ & _ & Hg). destruct (Hg guide) as [Hgm Hgs].
  destruct (normalize_hcaT_lookup fl gl _ _ _ _ gene guide Hnorm Hgene)
    as [_ Hd]; [by eexists|].
  rewrite Hgm in Hd.
  destruct (lookup2 cq_dict gene guide) as [group|]; simpl in *; [|done].
  destruct Hd as (hm & hs & gs & Hhm & Hhs & Hgs' & -> & ->).
  destruct (last_file fl gl "hcaT").
  - destruct Hh as (_ & _ & Hh). destruct (Hh guide) as [Hhm' Hhs'].
    rewrite Hhm' in Hhm. rewrite Hhs' in Hhs.
    destruct (lookup2 cq_dict "hcaT" guide) as [hcaT_group|]; [|done].
    exists hcaT_group. simpl in *. unfold dCq_mean, dCq_sem.
    split; [done|]. split; repeat f_equal; congruence.
  - destruct Hh as [Hh _]. by rewrite (lookup2_None _ _ _ Hh) in Hhm.
Qed.

(** What the cell, when it returns, leaves for a guide of a gene: the
    calculator applied to the four groups, the reference guide being Rand42
    of the last file that lists the gene. *)
Lemma relative_expression_lookup out gene guide file_name group :
  relative_expression fl gl cq_dict = Ok out →
  gene ≠ "hcaT" → last_file fl gl gene = Some file_name →
  lookup2 cq_dict gene guide = Some group →
  let Rand42 := "Rand42_" +:+ substring 0 8 file_name in
  ∃ hcaT hcaT_ref gene_ref sem lin,
    lookup2 cq_dict "hcaT" guide = Some hcaT
    ∧ lookup2 cq_dict "hcaT" Rand42 = Some hcaT_ref
    ∧ lookup2 cq_dict gene Rand42 = Some gene_ref
    ∧ ddCq_sem hcaT group hcaT_ref gene_ref = Ok sem
    ∧ fold_change hcaT group hcaT_ref gene_ref = Ok lin
    ∧ lookup2 (dd_cq_mean_dict out) gene guide
      = Some (ddCq_mean hcaT group hcaT_ref gene_ref)
    ∧ lookup2 (dd_cq_sem_dict out) gene guide = Some sem
    ∧ lookup2 (dd_cq_mean_lin_dict out) gene guide = Some lin
    ∧ lookup2 (dd_cq_sem_lin_dict out) gene guide
      = Some (fmul (fmul np_log2 sem) lin).
Proof.
  intros Hrun Hgene Hlast Hgroup Rand42. unfold relative_expression in Hrun.
  apply bind_Ok_inv in Hrun as ([cq_mean cq_sem] & Hstats & Hrun).
  apply bind_Ok_inv in Hrun as ([d_mean d_sem] & Hd & Hrun).
  apply bind_Ok_inv in Hrun as ([dd_mean dd_sem] & Hdd & Hrun).
  apply bind_Ok_inv in Hrun as ([lin_mean lin_sem] & Hlin & [= <-]).
  simpl.
  assert (is_Some (last_file fl gl gene)) as Hlisted by by eexists.
  pose proof (d_cq_lookup _ _ _ _ gene guide Hstats Hd Hgene Hlisted)
    as Hguide.
  pose proof (d_cq_lookup _ _ _ _ gene Rand42 Hstats Hd Hgene Hlisted)
    as HRand42.
  rewrite Hgroup in Hguide.
  destruct Hguide as (hcaT & HhcaT & Hdm & Hds).
  destruct (normalize_Rand42_lookup fl gl _ _ _ _ gene guide file_name
              Hdd Hgene Hlast) as [_ Hdd'].
  fold Rand42 in Hdd'. rewrite Hdm in Hdd'.
  destruct Hdd' as (rm & ds & rs & sem & Hrm & Hds' & Hrs & Hsem & Hddm
                    & Hdds).
  destruct (lookup2 cq_dict gene Rand42) as [gene_ref|];
    [|destruct HRand42; congruence].
  destruct HRand42 as (hcaT_ref & HhcaT_ref & Hrm' & Hrs').
  assert (rm = dCq_mean hcaT_ref gene_ref) as -> by congruence.
  assert (rs = dCq_sem hcaT_ref gene_ref) as -> by congruence.
  assert (ds = dCq_sem hcaT group) as -> by congruence.
  pose proof (linearize_lookup fl gl _ _ _ _ gene guide Hlin Hgene Hlisted)
    as Hl.
  rewrite Hddm in Hl. destruct Hl as (sem' & lin & Hsem' & Hpow & Hlm & Hls).
  assert (sem' = sem) as -> by congruence.
  exists hcaT, hcaT_ref, gene_ref, sem, lin.
  by repeat split.
Qed.
End calculator.

(** ** When the cell returns *)

Lemma well_keyed_keyed fl gl cq_dict :
  well_keyed fl gl cq_dict = true ↔ keyed fl gl cq_dict.
Proof.
  unfold well_keyed, keyed. rewrite forallb_forall. split.
  - intros Hwk file_name Hin. apply list_elem_of_In, Hwk in Hin.
    destruct (gl !! substring 0 8 file_name) as [genes|]; [|done].
    exists genes. split; [done|]. intros gene Hgene.
    rewrite forallb_forall in Hin. apply list_elem_of_In, Hin in Hgene.
    destruct (cq_dict !! gene) as [guides|] eqn:Hguides; [|done].
    split; [by eexists|]. intros Hne.
    rewrite bool_decide_eq_false_2 in Hgene by done. simpl in Hgene.
    apply andb_prop in Hgene as [[HRand42 HhcaT]%andb_prop Hsub].
    apply bool_decide_eq_true in HRand42, HhcaT.
    rewrite (lookup2_Some _ _ _ _ Hguides). split; [done|]. split; [done|].
    intros guide. rewrite (lookup2_Some _ _ _ _ Hguides). intros Hguide.
    destruct (cq_dict !! "hcaT") as [hcaT_guides|] eqn:Hh; [|done].
    rewrite (lookup2_Some _ _ _ _ Hh). rewrite forallb_forall in Hsub.
    apply elem_of_keys, list_elem_of_In, Hsub in Hguide.
    by apply bool_decide_eq_true in Hguide.
  - intros Hk file_name Hin. apply list_elem_of_In in Hin.
    destruct (Hk file_name Hin) as (genes & -> & Hgenes).
    apply forallb_forall. intros gene Hgene. apply list_elem_of_In in Hgene.
    destruct (Hgenes gene Hgene) as [[guides Hguides] Hne]. rewrite Hguides.
    case_bool_decide as Hg; [done|]. simpl.
    destruct (Hne Hg) as (HRand42 & HhcaT & Hsub).
    rewrite (lookup2_Some _ _ _ _ Hguides) in HRand42.
    rewrite !bool_decide_eq_true_2 by done. simpl.
    assert (is_Some (lookup2 cq_dict "hcaT"
                       ("Rand42_" +:+ substring 0 8 file_name))) as [l Hl].
    { apply Hsub. by rewrite (lookup2_Some _ _ _ _ Hguides). }
    destruct (cq_dict !! "hcaT") as [hcaT_guides|] eqn:Hh;
      [|by rewrite (lookup2_None _ _ _ Hh) in Hl].
    apply forallb_forall. intros guide Hguide.
    apply list_elem_of_In, elem_of_keys in Hguide.
    apply bool_decide_eq_true.
    rewrite <- (lookup2_Some _ _ _ _ Hh). apply Hsub.
    by rewrite (lookup2_Some _ _ _ _ Hguides).
Qed.

(** Only the keys matter. *)
Lemma keyed_same_keys fl gl
    (cq_dict cq_dict' : gmap string (gmap string (list pyfloat))) :
  (∀ gene, is_Some (cq_dict !! gene) → is_Some (cq_dict' !! gene)) →
  (∀ gene guide, is_Some (lookup2 cq_dict gene guide)
                 ↔ is_Some (lookup2 cq_dict' gene guide)) →
  keyed fl gl cq_dict → keyed fl gl cq_dict'.
Proof.
  intros Hdom Hsame Hk file_name Hin.
  destruct (Hk file_name Hin) as (genes & Hgl & Hgenes).
  exists genes. split; [done|]. intros gene Hgene.
  destruct (Hgenes gene Hgene) as [Hg Hne]. split; [by apply Hdom|].
  intros Hg'. destruct (Hne Hg') as (HRand42 & HhcaT & Hsub).
  split; [by apply Hsame|]. split; [done|].
  intros guide Hguide. apply Hsame, Hsub. by apply Hsame.
Qed.

Section totality.
Variables (fl : list string) (gl : gmap string (list string)).
Variable cq_dict : gmap string (gmap string (list pyfloat)).
Hypothesis Hkeys : keyed fl gl cq_dict.

Lemma listed_last_file file_name genes gene :
  file_name ∈ fl → gl !! substring 0 8 file_name = Some genes →
  gene ∈ genes → is_Some (last_file fl gl gene).
Proof.
  intros Hin Hgl Hgene. apply (last_file_is_Some _ _ _ file_name); [done|].
  by exists genes.
Qed.

(** With the keys in place the first two passes return: they look up,
    subtract, and compute on numpy's floats, which raise nothing. *)
Lemma first_passes_total :
  ∃ cq_mean cq_sem d_mean d_sem,
    replicate_stats fl gl cq_dict = Ok (cq_mean, cq_sem)
    ∧ normalize_hcaT fl gl cq_mean cq_sem = Ok (d_mean, d_sem).
Proof using Hkeys.
  (* Find mean and sem of replicate values *)
  destruct (replicate_stats_total fl gl cq_dict)
    as [[cq_mean cq_sem] Hstats].
  { intros file_name Hin.
    destruct (Hkeys _ Hin) as (genes & ? & Hg).
    exists genes. split; [done|]. intros gene ?. by apply Hg. }
  (* Normalize by hcaT abundance *)
  destruct (pass_not_hcaT_total (λ _, gene_d_cq cq_mean cq_sem) fl gl)
    as [[d_mean d_sem] Hd].
  { intros file_name Hin.
    destruct (Hkeys _ Hin) as (genes & Hgl & Hg).
    exists genes. split; [done|]. intros gene Hgene Hne.
    destruct (Hg gene Hgene) as [_ (_ & Hlisted & Hsub)]; [done|].
    pose proof (replicate_stats_lookup fl gl _ _ _ gene Hstats) as Hgs.
    pose proof (replicate_stats_lookup fl gl _ _ _ "hcaT" Hstats) as Hhs.
    destruct (listed_last_file _ _ _ Hin Hgl Hgene) as [f Hf].
    rewrite Hf in Hgs. destruct Hlisted as [f' Hf']. rewrite Hf' in Hhs.
    destruct Hgs as (_ & ? & Hgs). destruct Hhs as (_ & _ & Hhs).
    apply gene_d_cq_total; [done|]. intros guide.
    destruct (Hgs guide) as [-> ->]. destruct (Hhs guide) as [-> ->].
    rewrite !fmap_is_Some. auto. }
  by exists cq_mean, cq_sem, d_mean, d_sem.
Qed.

(** With the keys in place the cell ends as its squares and its powers of
    two do: no lookup fails. *)
Lemma relative_expression_ok_or (E : exn → Prop) :
  calculations (ok_or E) fl gl cq_dict →
  ok_or E (relative_expression fl gl cq_dict).
Proof using Hkeys.
  intros Hcalc. unfold relative_expression.
  destruct first_passes_total as (cq_mean & cq_sem & d_mean & d_sem
                                  & Hstats & Hd).
  rewrite Hstats. simpl. rewrite Hd. simpl.
  (* Normalize by target transcript abundance without CRISPRi *)
  assert (ok_or E (normalize_Rand42 fl gl d_mean d_sem)) as H3.
  { apply pass_not_hcaT_ok_or. intros file_name Hin.
    destruct (Hkeys _ Hin) as (genes & Hgl & Hg).
    exists genes. split; [done|]. intros gene Hgene Hne.
    destruct (Hg gene Hgene) as [_ ([gene_ref Hgene_ref] & _ & _)]; [done|].
    pose proof (listed_last_file _ _ _ Hin Hgl Hgene) as Hlisted.
    apply gene_dd_cq_ok_or.
    - by apply (normalize_hcaT_lookup fl gl _ _ _ _ gene "" Hd).
    - intros guide Hguide.
      pose proof (d_cq_lookup fl gl cq_dict _ _ _ _ gene guide Hstats Hd
                    Hne Hlisted) as Hgd.
      pose proof (d_cq_lookup fl gl cq_dict _ _ _ _ gene
                    ("Rand42_" +:+ substring 0 8 file_name) Hstats Hd
                    Hne Hlisted) as HRd.
      rewrite Hgene_ref in HRd.
      destruct HRd as (hcaT_ref & HhcaT_ref & HRm & HRs).
      destruct (lookup2 cq_dict gene guide) as [group|] eqn:Hgroup.
      2:{ destruct Hgd as [Hn _]. rewrite Hn in Hguide.
          by destruct Hguide. }
      destruct Hgd as (hcaT & HhcaT & Hdm & Hds).
      exists (dCq_sem hcaT group), (dCq_sem hcaT_ref gene_ref).
      split; [by eexists|]. split; [done|]. split; [done|].
      apply (Hcalc file_name gene guide hcaT group hcaT_ref gene_ref);
        try done.
      by exists genes. }
  destruct (normalize_Rand42 fl gl d_mean d_sem) as [[dd_mean dd_sem]|e]
    eqn:Hdd; simpl; [|exact H3].
  (* Transform to a linear scale *)
  assert (ok_or E (linearize fl gl dd_mean dd_sem)) as H4.
  { apply pass_not_hcaT_ok_or. intros file_name Hin.
    destruct (Hkeys _ Hin) as (genes & Hgl & Hg).
    exists genes. split; [done|]. intros gene Hgene Hne.
    destruct (listed_last_file _ _ _ Hin Hgl Hgene) as [f Hf].
    assert (is_Some (last_file fl gl gene)) as Hlisted by by eexists.
    destruct (last_file_lists _ _ _ _ Hf) as [Hf_in Hf_lists].
    apply gene_lin_ok_or.
    - by apply (normalize_Rand42_lookup fl gl _ _ _ _ gene "" f Hdd).
    - intros guide mean Hmean.
      destruct (normalize_Rand42_lookup fl gl _ _ _ _ gene guide f Hdd Hne
                  Hf) as [_ H].
      pose proof (d_cq_lookup fl gl cq_dict _ _ _ _ gene guide Hstats Hd
                    Hne Hlisted) as Hgd.
      pose proof (d_cq_lookup fl gl cq_dict _ _ _ _ gene
                    ("Rand42_" +:+ substring 0 8 f) Hstats Hd
                    Hne Hlisted) as HRd.
      destruct (lookup2 d_mean gene guide) as [dm|] eqn:Hdm.
      2:{ destruct H as [H _]. congruence. }
      destruct H as (rm & ds & rs & sem & Hrm & Hds & Hrs & Hsem & Hddm
                     & Hdds).
      split; [by eexists|].
      assert (mean = fsub dm rm) as -> by congruence.
      destruct (lookup2 cq_dict gene guide) as [group|] eqn:Hgroup;
        [|destruct Hgd; congruence].
      destruct Hgd as (hcaT & HhcaT & Hdm' & _).
      destruct (lookup2 cq_dict gene ("Rand42_" +:+ substring 0 8 f))
        as [gene_ref|] eqn:Hgene_ref; [|destruct HRd; congruence].
      destruct HRd as (hcaT_ref & HhcaT_ref & Hrm' & _).
      assert (dm = dCq_mean hcaT group) as -> by congruence.
      assert (rm = dCq_mean hcaT_ref gene_ref) as -> by congruence.
      by apply (Hcalc f gene guide hcaT group hcaT_ref gene_ref). }
  by destruct (linearize fl gl dd_mean dd_sem) as [[lin_mean lin_sem]|e].
Qed.

(** With the keys in place and the arithmetic in range, the cell
    returns. *)
Lemma relative_expression_total :
  in_range fl gl cq_dict → is_Ok (relative_expression fl gl cq_dict).
Proof using Hkeys.
  intros Hrange. apply is_Ok_ok_or, relative_expression_ok_or.
  intros file_name gene guide hcaT group hcaT_ref gene_ref
    Hin Hlists Hgene HhcaT Hgroup HhcaT_ref Hgene_ref.
  destruct (Hrange file_name gene guide hcaT group hcaT_ref gene_ref)
    as [Hsem Hlin]; try done.
  split; [by apply is_Ok_ok_or|]. intros Hlast. by apply is_Ok_ok_or, Hlin.
Qed.

(** With the keys in place, all the cell can raise is OverflowError. *)
Lemma relative_expression_raise (e : exn) :
  relative_expression fl gl cq_dict = Raise e → e = OverflowError.
Proof using Hkeys.
  intros Hrun.
  pose proof (relative_expression_ok_or (λ e, e = OverflowError)) as H.
  rewrite Hrun in H. apply H.
  intros file_name gene guide hcaT group hcaT_ref gene_ref _ _ _ _ _ _ _.
  split.
  - destruct (ddCq_sem hcaT group hcaT_ref gene_ref) as [?|e'] eqn:Hs;
      [done|]. simpl. by eapply py_root_sum_squares_raise.
  - intros _.
    destruct (fold_change hcaT group hcaT_ref gene_ref) as [?|e'] eqn:Hs;
      [done|]. simpl. by eapply math_pow2_raise.
Qed.
End totality.

(** *** The calculator on tame groups: nothing is out of range *)

Lemma tame_dCq_mean (h g : list pyfloat) :
  tame h → tame g → within 500 (dCq_mean h g).
Proof.
  intros Hh Hg. unfold dCq_mean. replace 500%R with (250 + 250)%R by lra.
  apply fsub_within; [by apply tame_np_mean..|].
  pose proof overflow_threshold_above. lra.
Qed.

Lemma tame_dCq_sem (h g : list pyfloat) :
  tame h → tame g → within 1500 (dCq_sem h g).
Proof.
  intros Hh Hg. unfold dCq_sem. replace 1500%R with (750 + 750)%R by lra.
  apply root_sum_squares_within; [by apply tame_stats_sem..|].
  pose proof overflow_threshold_above. lra.
Qed.

Lemma tame_ddCq_mean (h g hr gr : list pyfloat) :
  tame h → tame g → tame hr → tame gr → within 1000 (ddCq_mean h g hr gr).
Proof.
  intros Hh Hg Hhr Hgr. unfold ddCq_mean.
  replace 1000%R with (500 + 500)%R by lra.
  apply fsub_within; [by apply tame_dCq_mean..|].
  pose proof overflow_threshold_above. lra.
Qed.

Lemma tame_ddCq_sem (h g hr gr : list pyfloat) :
  tame h → tame g → tame hr → tame gr →
  ∃ sem, ddCq_sem h g hr gr = Ok sem ∧ within 3000 sem ∧ not_negative sem.
Proof.
  intros Hh Hg Hhr Hgr. unfold ddCq_sem.
  replace 3000%R with (1500 + 1500)%R by lra.
  apply py_root_sum_squares_within; [by apply tame_dCq_sem..|].
  pose proof overflow_threshold_above. lra.
Qed.

Lemma tame_fold_change (h g hr gr : list pyfloat) :
  tame h → tame g → tame hr → tame gr →
  ∃ lin, fold_change h g hr gr = Ok lin
    ∧ (ddCq_mean h g hr gr = NaN ∧ lin = NaN
       ∨ ∃ r, ddCq_mean h g hr gr = Fin r ∧ lin = Fin (Rpower 2 r)
              ∧ (0 < Rpower 2 r <= 2 ^ 1000)%R).
Proof.
  intros Hh Hg Hhr Hgr. unfold fold_change.
  by apply math_pow2_within, tame_ddCq_mean.
Qed.

Lemma tame_in_range fl gl
    (cq_dict : gmap string (gmap string (list pyfloat))) :
  all_tame cq_dict → in_range fl gl cq_dict.
Proof.
  intros Htame file_name gene guide hcaT group hcaT_ref gene_ref
    _ _ _ HhcaT Hgroup HhcaT_ref Hgene_ref.
  apply Htame in HhcaT, Hgroup, HhcaT_ref, Hgene_ref.
  split.
  - destruct (tame_ddCq_sem hcaT group hcaT_ref gene_ref) as (s & -> & _);
      [done..|]. apply is_Ok_Ok.
  - intros _.
    destruct (tame_fold_change hcaT group hcaT_ref gene_ref) as (s & -> & _);
      [done..|]. apply is_Ok_Ok.
Qed.

(** *** The calculator on plausible groups: all values are finite *)

Lemma plausible_tame (l : list pyfloat) : plausible l → tame l.
Proof. by intros [_ ?]. Qed.

Lemma plausible_fmap (rs : list R) :
  plausible (Fin <$> rs) →
  (2 ≤ length rs)%nat ∧ (INR (length rs) <= 10 ^ 6)%R
  ∧ Forall (λ r, Rabs r <= 250)%R rs.
Proof.
  intros [Hvalid [Hn Hl]]. rewrite length_fmap in Hn.
  unfold valid_group in Hvalid. apply andb_prop in Hvalid as [_ Hlen].
  apply Nat.leb_le in Hlen. rewrite length_fmap in Hlen.
  split; [done|]. split; [done|]. by rewrite Forall_fmap in Hl.
Qed.

Lemma length_2_nonempty {A} (l : list A) : (2 ≤ length l)%nat → l ≠ [].
Proof. intros H ->. simpl in H. lia. Qed.

Lemma plausible_dCq (hs gs : list R) :
  plausible (Fin <$> hs) → plausible (Fin <$> gs) →
  ∃ e, dCq_mean (Fin <$> hs) (Fin <$> gs) = Fin (Rmean hs - Rmean gs)
       ∧ (Rabs (Rmean hs - Rmean gs) <= 500)%R
       ∧ dCq_sem (Fin <$> hs) (Fin <$> gs) = Fin e
       ∧ (0 <= e <= 1500)%R.
Proof.
  intros (Hh2 & Hhn & Hh)%plausible_fmap (Hg2 & Hgn & Hg)%plausible_fmap.
  destruct (plausible_np_mean hs) as [Emh Hmh]; [done..|].
  destruct (plausible_np_mean gs) as [Emg Hmg]; [done..|].
  destruct (plausible_stats_sem hs) as [Esh Hsh]; [done..|].
  destruct (plausible_stats_sem gs) as [Esg Hsg]; [done..|].
  pose proof overflow_threshold_above as HT.
  assert (Rabs (Rmean hs - Rmean gs) <= 500)%R as Hd.
  { apply Rabs_le_iff in Hmh, Hmg. apply Rabs_le_iff. lra. }
  assert (Rabs (Rsem hs) <= 750)%R as Hah by (rewrite Rabs_right; lra).
  assert (Rabs (Rsem gs) <= 750)%R as Hag by (rewrite Rabs_right; lra).
  pose proof (square_le _ _ Hah). pose proof (square_le _ _ Hag).
  exists (sqrt (Rsem hs * Rsem hs + Rsem gs * Rsem gs)).
  unfold dCq_mean, dCq_sem. rewrite Emh, Emg, Esh, Esg.
  split; [apply fsub_Fin; lra|]. split; [done|].
  split; [apply root_sum_squares_Fin; lra|].
  pose proof (sqrt_sum_squares_le _ _ _ _ Hah Hag). lra.
Qed.

(** The outputs for four plausible groups. *)
Lemma plausible_calculator (hs gs hrs grs : list R) :
  plausible (Fin <$> hs) → plausible (Fin <$> gs) →
  plausible (Fin <$> hrs) → plausible (Fin <$> grs) →
  let dd := ((Rmean hs - Rmean gs) - (Rmean hrs - Rmean grs))%R in
  ∃ e,
    (Rabs dd <= 1000)%R ∧ (0 <= e <= 3000)%R
    ∧ ddCq_mean (Fin <$> hs) (Fin <$> gs) (Fin <$> hrs) (Fin <$> grs)
      = Fin dd
    ∧ ddCq_sem (Fin <$> hs) (Fin <$> gs) (Fin <$> hrs) (Fin <$> grs)
      = Ok (Fin e)
    ∧ fold_change (Fin <$> hs) (Fin <$> gs) (Fin <$> hrs) (Fin <$> grs)
      = Ok (Fin (Rpower 2 dd))
    ∧ fmul (fmul np_log2 (Fin e)) (Fin (Rpower 2 dd))
      = Fin (ln 2 * e * Rpower 2 dd).
Proof.
  intros Hh Hg Hhr Hgr dd.
  destruct (plausible_dCq hs gs Hh Hg) as (e1 & Em1 & Hm1 & Es1 & He1).
  destruct (plausible_dCq hrs grs Hhr Hgr) as (e2 & Em2 & Hm2 & Es2 & He2).
  pose proof overflow_threshold_above as HT.
  assert (Rabs dd <= 1000)%R as Hdd.
  { apply Rabs_le_iff in Hm1, Hm2. apply Rabs_le_iff. unfold dd. lra. }
  assert (Rabs e1 <= 1500)%R as Ha1 by (rewrite Rabs_right; lra).
  assert (Rabs e2 <= 1500)%R as Ha2 by (rewrite Rabs_right; lra).
  pose proof (square_le _ _ Ha1). pose proof (square_le _ _ Ha2).
  pose proof (sqrt_sum_squares_le _ _ _ _ Ha1 Ha2) as He.
  set (e := sqrt (e1 * e1 + e2 * e2)) in *.
  exists e. split; [done|]. split; [lra|].
  unfold ddCq_mean, ddCq_sem, fold_change, ddCq_mean.
  rewrite Em1, Em2, Es1, Es2.
  apply Rabs_le_iff in Hdd.
  rewrite fsub_Fin by (apply Rabs_lt_iff; fold dd; lra). fold dd.
  split; [done|]. split; [apply py_root_sum_squares_Fin; lra|].
  split; [apply math_pow2_Fin; lra|].
  pose proof ln_2_bounds as Hln.
  pose proof (Rpower_2_pos dd) as Hp0.
  pose proof (Rpower_2_le dd) as Hp. specialize (Hp ltac:(lra)).
  assert (0 <= ln 2 * e <= 3000)%R as [Hle0 Hle].
  { split; [apply Rmult_le_pos; lra|].
    assert (0 <= (1 - ln 2) * e)%R by (apply Rmult_le_pos; lra). lra. }
  unfold np_log2. rewrite fmul_Fin by (rewrite Rabs_right; lra).
  apply fmul_Fin.
  assert (0 <= ln 2 * e * Rpower 2 dd <= 3000 * 2 ^ 1000)%R as [? ?].
  { split; [apply Rmult_le_pos; lra|]. apply Rmult_le_compat; lra. }
  rewrite Rabs_right; lra.
Qed.

(** The calculator on groups that are too short or empty. *)
Lemma ddCq_sem_short (hcaT gene hcaT_ref gene_ref : list pyfloat)
    (sem : pyfloat) :
  (length hcaT < 2 ∧ Forall is_float hcaT
   ∨ length gene < 2 ∧ Forall is_float gene
   ∨ length hcaT_ref < 2 ∧ Forall is_float hcaT_ref
   ∨ length gene_ref < 2 ∧ Forall is_float gene_ref)%nat →
  ddCq_sem hcaT gene hcaT_ref gene_ref = Ok sem → sem = NaN.
Proof.
  intros Hshort Hsem. unfold ddCq_sem in Hsem.
  apply (py_root_sum_squares_NaN _ _ _ Hsem). unfold dCq_sem.
  destruct Hshort as [[H F]|[[H F]|[[H F]|[H F]]]];
    rewrite (stats_sem_short _ H F);
    rewrite ?root_sum_squares_NaN_l, ?root_sum_squares_NaN_r; auto.
Qed.

Lemma fold_change_empty (hcaT gene hcaT_ref gene_ref : list pyfloat) :
  hcaT = [] ∨ gene = [] ∨ hcaT_ref = [] ∨ gene_ref = [] →
  ddCq_mean hcaT gene hcaT_ref gene_ref = NaN
  ∧ fold_change hcaT gene hcaT_ref gene_ref = Ok NaN.
Proof.
  intros Hempty.
  assert (ddCq_mean hcaT gene hcaT_ref gene_ref = NaN) as Hmean.
  { unfold ddCq_mean, dCq_mean.
    destruct Hempty as [-> | [-> | [-> | ->]]]; rewrite np_mean_nil;
      by rewrite ?fsub_NaN_l, ?fsub_NaN_r, ?fsub_NaN_l. }
  split; [done|]. unfold fold_change. by rewrite Hmean.
Qed.

(** Replacing the replicates of a group that is there keeps the keys. *)
Lemma lookup2_insert_group {V} (d : gmap string (gmap string V))
    gene guide (l : V) guides g k :
  d !! gene = Some guides →
  lookup2 (<[gene := <[guide := l]> guides]> d) g k
  = if decide (g = gene ∧ k = guide) then Some l else lookup2 d g k.
Proof.
  intros Hg. unfold lookup2. destruct (decide (g = gene)) as [->|Hne].
  - rewrite lookup_insert_eq, Hg. simpl.
    destruct (decide (k = guide)) as [->|Hk].
    + rewrite lookup_insert_eq. by rewrite decide_True.
    + rewrite lookup_insert_ne by done. rewrite decide_False; [done|].
      by intros [_ ?].
  - rewrite lookup_insert_ne by done. rewrite decide_False; [done|].
    by intros [? _].
Qed.

Lemma keyed_insert_group fl gl
    (cq_dict : gmap string (gmap string (list pyfloat)))
    gene guide l guides :
  cq_dict !! gene = Some guides → is_Some (guides !! guide) →
  keyed fl gl cq_dict →
  keyed fl gl (<[gene := <[guide := l]> guides]> cq_dict).
Proof.
  intros Hg Hguide. apply keyed_same_keys.
  - intros g Hsome. destruct (decide (g = gene)) as [->|Hne].
    + rewrite lookup_insert_eq. by eexists.
    + by rewrite lookup_insert_ne.
  - intros g k. rewrite (lookup2_insert_group _ _ _ _ _ _ _ Hg).
    case_decide as Hgk; [|done]. destruct Hgk as [-> ->].
    rewrite (lookup2_Some _ _ _ _ Hg). split; [by eexists|done].
Qed.

(** Moving every replicate by the same amount moves the mean with them. *)
Lemma Rmean_shift (k : R) (xs xs' : list R) :
  xs ≠ [] → Forall2 (λ x x', x' = x - k)%R xs xs' →
  Rmean xs' = (Rmean xs - k)%R.
Proof.
  intros Hxs Hshift.
  assert (Rsum xs' = Rsum xs - INR (length xs) * k
          ∧ length xs' = length xs)%R as [Hsum Hlen].
  { clear Hxs. induction Hshift as [|x x' xs xs' -> _ [IHsum IHlen]].
    - unfold Rsum. simpl. split; [lra|done].
    - rewrite !Rsum_cons, IHsum. cbn [length]. rewrite IHlen, S_INR.
      split; [lra|done]. }
  unfold Rmean. rewrite Hsum, Hlen.
  pose proof (INR_length_pos xs Hxs). field. lra.
Qed.

(** ** Loops over the genes of all files, in general *)

Section for_genes.
Context {S : Type}.
Implicit Types (body : string → string → S → result S) (s : S).

(** Something one pass of the body brings about, and no pass undoes, holds
    when the loop ends. *)
Lemma for_each_establish {A} (Q : S → Prop) (xs : list A)
    (step : A → S → result S) s s' x :
  x ∈ xs →
  (∀ s s', step x s = Ok s' → Q s') →
  (∀ y s s', y ∈ xs → Q s → step y s = Ok s' → Q s') →
  for_each xs step s = Ok s' → Q s'.
Proof.
  revert s. induction xs as [|y xs IH]; intros s Hin Hest Hkeep Hrun.
  - by apply elem_of_nil in Hin.
  - simpl in Hrun. apply bind_Ok_inv in Hrun as (s1 & Hy & Hrun).
    apply elem_of_cons in Hin as [->|Hin].
    + apply (for_each_invariant Q xs step s1); [by eapply Hest| |done].
      intros z t t' Hz. apply Hkeep. by right.
    + apply (IH s1); [done..| |done].
      intros z t t' Hz. apply Hkeep. by right.
Qed.

Lemma for_genes_invariant (P : S → Prop) fl gl body s s' :
  P s →
  (∀ file_name genes gene s s',
     file_name ∈ fl → gl !! substring 0 8 file_name = Some genes →
     gene ∈ genes → P s →
     body (substring 0 8 file_name) gene s = Ok s' → P s') →
  for_genes fl gl body s = Ok s' → P s'.
Proof.
  intros Hs Hkeep. apply for_each_invariant; [done|].
  intros file_name t t' Hin Ht Hrun.
  apply bind_Ok_inv in Hrun as (genes & Hgl & Hrun).
  apply getitem_Ok in Hgl. revert Hrun. apply for_each_invariant; [done|].
  intros gene u u' Hgene. by eapply Hkeep.
Qed.

Lemma for_genes_establish (Q : S → Prop) fl gl body s s'
    file_name genes gene :
  file_name ∈ fl → gl !! substring 0 8 file_name = Some genes →
  gene ∈ genes →
  (∀ s s', body (substring 0 8 file_name) gene s = Ok s' → Q s') →
  (∀ file_name genes gene s s',
     file_name ∈ fl → gl !! substring 0 8 file_name = Some genes →
     gene ∈ genes → Q s →
     body (substring 0 8 file_name) gene s = Ok s' → Q s') →
  for_genes fl gl body s = Ok s' → Q s'.
Proof.
  intros Hin Hgl Hgene Hest Hkeep.
  apply (for_each_establish Q fl _ s s' file_name); [done|..].
  - intros t t' Hrun. apply bind_Ok_inv in Hrun as (genes' & Hgl' & Hrun).
    apply getitem_Ok in Hgl'. assert (genes' = genes) as -> by congruence.
    revert Hrun. apply (for_each_establish Q genes _ t t' gene); [done..|].
    intros g u u' Hg. by eapply Hkeep.
  - intros f t t' Hf Ht Hrun.
    apply bind_Ok_inv in Hrun as (genes' & Hgl' & Hrun).
    apply getitem_Ok in Hgl'. revert Hrun.
    apply for_each_invariant; [done|].
    intros g u u' Hg. by eapply Hkeep.
Qed.

Lemma for_genes_listed fl gl body s s' file_name :
  for_genes fl gl body s = Ok s' → file_name ∈ fl →
  is_Some (gl !! substring 0 8 file_name).
Proof.
  intros Hrun Hin. revert s Hrun.
  induction fl as [|f fl IH]; intros s Hrun; [by apply elem_of_nil in Hin|].
  unfold for_genes in Hrun. simpl in Hrun.
  apply bind_Ok_inv in Hrun as (s1 & Hf & Hrun).
  apply bind_Ok_inv in Hf as (genes & Hgl & _). apply getitem_Ok in Hgl.
  apply elem_of_cons in Hin as [->|Hin]; [by eexists|].
  by apply (IH Hin s1).
Qed.
End for_genes.

(** ** Key initialisation *)

Section keys.
Implicit Types (cq_dict : gmap string (gmap string (list pyfloat))).
Implicit Types (gene guide file_name : string).

Lemma setitem2_lookup2 cq_dict cq_dict' k1 k2 l g k :
  setitem2 cq_dict k1 k2 l = Ok cq_dict' →
  lookup2 cq_dict' g k
  = if decide (g = k1 ∧ k = k2) then Some l else lookup2 cq_dict g k.
Proof.
  intros Hset. apply bind_Ok_inv in Hset as (t & Ht & [= <-]).
  apply getitem_Ok in Ht. by apply lookup2_insert_group.
Qed.

Lemma setitem2_dom cq_dict cq_dict' k1 k2 l g :
  setitem2 cq_dict k1 k2 l = Ok cq_dict' →
  is_Some (cq_dict' !! g) ↔ is_Some (cq_dict !! g).
Proof.
  intros Hset. apply bind_Ok_inv in Hset as (t & Ht & [= <-]).
  apply getitem_Ok in Ht. destruct (decide (g = k1)) as [->|Hne].
  - rewrite lookup_insert_eq, Ht. split; by eexists.
  - by rewrite lookup_insert_ne.
Qed.

Lemma init_guides_body cq_dict cq_dict' file_date gene :
  (cq1 ← setitem2 cq_dict gene (gene +:+ "1_C") [];
   cq2 ← setitem2 cq1 gene (gene +:+ "3_C") [];
   cq3 ← setitem2 cq2 gene ("Rand42_" +:+ file_date) [];
   cq4 ← setitem2 cq3 "hcaT" (gene +:+ "1_C") [];
   cq5 ← setitem2 cq4 "hcaT" (gene +:+ "3_C") [];
   setitem2 cq5 "hcaT" ("Rand42_" +:+ file_date) []) = Ok cq_dict' →
  is_Some (cq_dict !! "hcaT")
  ∧ (∀ g, is_Some (cq_dict' !! g) ↔ is_Some (cq_dict !! g))
  ∧ ∀ g k, is_Some (lookup2 cq_dict' g k)
           ↔ is_Some (lookup2 cq_dict g k)
             ∨ ((g = gene ∨ g = "hcaT") ∧ k ∈ guide_keys file_date gene).
Proof.
  intros Hrun.
  apply bind_Ok_inv in Hrun as (cq1 & H1 & Hrun).
  apply bind_Ok_inv in Hrun as (cq2 & H2 & Hrun).
  apply bind_Ok_inv in Hrun as (cq3 & H3 & Hrun).
  apply bind_Ok_inv in Hrun as (cq4 & H4 & Hrun).
  apply bind_Ok_inv in Hrun as (cq5 & H5 & H6).
  assert (∀ g, is_Some (cq_dict' !! g) ↔ is_Some (cq_dict !! g)) as Hdom.
  { intros g.
    rewrite (setitem2_dom _ _ _ _ _ g H6), (setitem2_dom _ _ _ _ _ g H5),
      (setitem2_dom _ _ _ _ _ g H4), (setitem2_dom _ _ _ _ _ g H3),
      (setitem2_dom _ _ _ _ _ g H2), (setitem2_dom _ _ _ _ _ g H1).
    done. }
  split; [|split; [done|]].
  - apply Hdom. apply bind_Ok_inv in H6 as (t & Ht & [= <-]).
    rewrite lookup_insert_eq. by eexists.
  - intros g k.
    rewrite (setitem2_lookup2 _ _ _ _ _ g k H6),
      (setitem2_lookup2 _ _ _ _ _ g k H5),
      (setitem2_lookup2 _ _ _ _ _ g k H4),
      (setitem2_lookup2 _ _ _ _ _ g k H3),
      (setitem2_lookup2 _ _ _ _ _ g k H2),
      (setitem2_lookup2 _ _ _ _ _ g k H1).
    unfold guide_keys. rewrite !elem_of_cons, elem_of_nil.
    repeat case_decide; split; intros ?; try (by eexists); naive_solver.
Qed.
End keys.

Section init_keys.
Variables (fl : list string) (gl : gmap string (list string)).
Implicit Types (cq_dict : gmap string (gmap string (list pyfloat))).
Implicit Types (gene guide file_name : string).

(** After the first loop: an empty table for every listed gene, and for
    no other. *)
Lemma init_genes_empty cq_dict gene guide :
  init_genes fl gl = Ok cq_dict → lookup2 cq_dict gene guide = None.
Proof.
  intros Hrun.
  enough (∀ g t, cq_dict !! g = Some t → t = ∅) as Hempty.
  { unfold lookup2. destruct (cq_dict !! gene) as [t|] eqn:Ht; [|done].
    by rewrite (Hempty _ _ Ht). }
  revert Hrun.
  apply (for_genes_invariant
           (λ s : gmap string (gmap string (list pyfloat)),
              ∀ g t, s !! g = Some t → t = ∅));
    [intros g t; by rewrite lookup_empty|].
  intros _ _ g s s' _ _ _ IH [= <-] g' t.
  destruct (decide (g' = g)) as [->|Hne].
  - rewrite lookup_insert_eq. by intros [= <-].
  - rewrite lookup_insert_ne by done. apply IH.
Qed.

Lemma init_genes_only_listed cq_dict gene :
  init_genes fl gl = Ok cq_dict → is_Some (cq_dict !! gene) →
  is_Some (last_file fl gl gene).
Proof.
  intros Hrun. revert Hrun.
  apply (for_genes_invariant
           (λ s : gmap string (gmap string (list pyfloat)),
              is_Some (s !! gene) → is_Some (last_file fl gl gene)));
    [by intros []|].
  intros file_name genes g s s' Hin Hgl Hg IH [= <-].
  destruct (decide (gene = g)) as [->|Hne].
  - intros _. apply (last_file_is_Some _ _ _ file_name); [done|].
    by exists genes.
  - by rewrite lookup_insert_ne.
Qed.

Lemma init_genes_listed cq_dict file_name genes gene :
  init_genes fl gl = Ok cq_dict → file_name ∈ fl →
  gl !! substring 0 8 file_name = Some genes → gene ∈ genes →
  is_Some (cq_dict !! gene).
Proof.
  intros Hrun Hin Hgl Hgene. revert Hrun.
  apply (for_genes_establish
           (λ s : gmap string (gmap string (list pyfloat)),
              is_Some (s !! gene)) _ _ _ _ _ file_name genes gene);
    [done..| |].
  - intros s s' [= <-]. rewrite lookup_insert_eq. by eexists.
  - intros _ _ g s s' _ _ _ IH [= <-].
    destruct (decide (gene = g)) as [->|Hne].
    + rewrite lookup_insert_eq. by eexists.
    + by rewrite lookup_insert_ne.
Qed.

(** One pass of the second loop: for a gene other than hcaT, three guides
    come into its table and into hcaT's; no table comes or goes. *)
Lemma init_guides_step cq_dict cq_dict' file_date gene :
  (if decide (gene ≠ "hcaT") then
     cq1 ← setitem2 cq_dict gene (gene +:+ "1_C") [];
     cq2 ← setitem2 cq1 gene (gene +:+ "3_C") [];
     cq3 ← setitem2 cq2 gene ("Rand42_" +:+ file_date) [];
     cq4 ← setitem2 cq3 "hcaT" (gene +:+ "1_C") [];
     cq5 ← setitem2 cq4 "hcaT" (gene +:+ "3_C") [];
     setitem2 cq5 "hcaT" ("Rand42_" +:+ file_date) []
   else Ok cq_dict) = Ok cq_dict' →
  (gene ≠ "hcaT" → is_Some (cq_dict !! "hcaT"))
  ∧ (∀ g, is_Some (cq_dict' !! g) ↔ is_Some (cq_dict !! g))
  ∧ ∀ g k, is_Some (lookup2 cq_dict' g k)
           ↔ is_Some (lookup2 cq_dict g k)
             ∨ (gene ≠ "hcaT" ∧ (g = gene ∨ g = "hcaT")
                ∧ k ∈ guide_keys file_date gene).
Proof.
  case_decide as Hgene.
  - intros Hrun. apply init_guides_body in Hrun as (Hh & Hdom & Hkeys).
    split; [done|]. split; [done|]. intros g k. rewrite Hkeys.
    naive_solver.
  - intros [= <-]. split; [done|]. split; [done|]. naive_solver.
Qed.

Lemma init_guides_dom cq_dict cq_dict' gene :
  init_guides fl gl cq_dict = Ok cq_dict' →
  is_Some (cq_dict' !! gene) ↔ is_Some (cq_dict !! gene).
Proof.
  apply (for_genes_invariant
           (λ s : gmap string (gmap string (list pyfloat)),
              is_Some (s !! gene) ↔ is_Some (cq_dict !! gene))); [done|].
  intros f gs g s s' _ _ _ IH Hstep.
  apply init_guides_step in Hstep as (_ & Hdom & _). by rewrite Hdom.
Qed.

Lemma init_guides_hcaT_covers cq_dict cq_dict' :
  hcaT_covers cq_dict → init_guides fl gl cq_dict = Ok cq_dict' →
  hcaT_covers cq_dict'.
Proof.
  intros Hcov. apply (for_genes_invariant hcaT_covers); [done|].
  intros f gs g s s' _ _ _ IH Hstep.
  apply init_guides_step in Hstep as (_ & _ & Hkeys).
  intros gene guide Hgene. rewrite !Hkeys.
  intros [Hold|(Hg & _ & Hk)]; [left; by apply (IH gene)|].
  right. auto.
Qed.

Lemma init_guides_Rand42 cq_dict cq_dict' file_name genes gene :
  init_guides fl gl cq_dict = Ok cq_dict' → file_name ∈ fl →
  gl !! substring 0 8 file_name = Some genes → gene ∈ genes →
  gene ≠ "hcaT" →
  is_Some (lookup2 cq_dict' gene ("Rand42_" +:+ substring 0 8 file_name)).
Proof.
  intros Hrun Hin Hgl Hgene Hne. revert Hrun.
  apply (for_genes_establish
           (λ s : gmap string (gmap string (list pyfloat)),
              is_Some (lookup2 s gene
                         ("Rand42_" +:+ substring 0 8 file_name)))
           _ _ _ _ _ file_name genes gene); [done..| |].
  - intros s s' Hstep. apply init_guides_step in Hstep as (_ & _ & Hkeys).
    apply Hkeys. right. split; [done|]. split; [by left|].
    unfold guide_keys. rewrite !elem_of_cons. auto.
  - intros f gs g s s' _ _ _ IH Hstep.
    apply init_guides_step in Hstep as (_ & _ & Hkeys).
    apply Hkeys. by left.
Qed.

Lemma init_keys_hcaT_covers cq_dict :
  init_keys fl gl = Ok cq_dict → hcaT_covers cq_dict.
Proof.
  intros Hrun. apply bind_Ok_inv in Hrun as (cq0 & Hgenes & Hguides).
  apply (init_guides_hcaT_covers cq0); [|done].
  intros gene guide _. rewrite (init_genes_empty _ _ _ Hgenes).
  by intros [].
Qed.

Lemma init_keys_keyed cq_dict :
  init_keys fl gl = Ok cq_dict → keyed fl gl cq_dict.
Proof.
  intros Hrun. pose proof (init_keys_hcaT_covers _ Hrun) as Hcov.
  apply bind_Ok_inv in Hrun as (cq0 & Hgenes & Hguides).
  intros file_name Hin.
  destruct (for_genes_listed _ _ _ _ _ file_name Hgenes Hin)
    as [genes Hgl].
  exists genes. split; [done|]. intros gene Hgene. split.
  - apply (init_guides_dom _ _ _ Hguides).
    by apply (init_genes_listed _ file_name genes).
  - intros Hne.
    pose proof (init_guides_Rand42 _ _ _ _ _ Hguides Hin Hgl Hgene Hne)
      as HRand42.
    split; [done|]. split; [|intros guide; by apply Hcov].
    apply (init_genes_only_listed cq0); [done|].
    apply (init_guides_dom _ _ _ Hguides).
    apply Hcov in HRand42; [|done]. destruct HRand42 as [l Hl].
    unfold lookup2 in Hl. destruct (cq_dict !! "hcaT"); [by eexists|done].
Qed.
End init_keys.

(** ** Reading the files *)

Section read_files.
Variable gl : gmap string (list string).
Implicit Types (cq_dict : gmap string (gmap string (list pyfloat))).
Implicit Types (gene guide file_name line : string).

(** A line adds a replicate to a group that is there, or nothing. *)
Lemma process_line_keys file_date line cq_dict cq_dict' :
  process_line gl file_date line cq_dict = Ok cq_dict' →
  (∀ gene, is_Some (cq_dict !! gene) → is_Some (cq_dict' !! gene))
  ∧ ∀ gene guide, is_Some (lookup2 cq_dict gene guide)
                  ↔ is_Some (lookup2 cq_dict' gene guide).
Proof.
  unfold process_line. intros Hrun.
  apply bind_Ok_inv in Hrun as (sp2 & _ & Hrun).
  case_decide; [by injection Hrun as <-|].
  apply bind_Ok_inv in Hrun as (sp5 & _ & Hrun).
  case_decide; [by injection Hrun as <-|].
  apply bind_Ok_inv in Hrun as (genes & _ & Hrun).
  case_decide; [|by injection Hrun as <-].
  apply bind_Ok_inv in Hrun as (sp4 & _ & Hrun).
  apply bind_Ok_inv in Hrun as (guides & Hguides & Hrun).
  apply getitem_Ok in Hguides.
  destruct (guides !! sp4) as [replicates|] eqn:Hrep;
    [|by injection Hrun as <-].
  apply bind_Ok_inv in Hrun as (cq & _ & [= <-]). split.
  - intros gene Hsome. destruct (decide (gene = sp2)) as [->|Hne].
    + rewrite lookup_insert_eq. by eexists.
    + by rewrite lookup_insert_ne.
  - intros gene guide. rewrite (lookup2_insert_group _ _ _ _ _ _ _ Hguides).
    case_decide as Hgk; [|done]. destruct Hgk as [-> ->].
    rewrite (lookup2_Some _ _ _ _ Hguides), Hrep. split; by eexists.
Qed.

Lemma read_files_keyed fl fl' fs cq_dict cq_dict' :
  read_files fl' gl fs cq_dict = Ok cq_dict' →
  keyed fl gl cq_dict → keyed fl gl cq_dict'.
Proof.
  intros Hrun Hkeyed. revert Hrun.
  apply (for_each_invariant (keyed fl gl)); [done|].
  intros file_name s s' _ Hs Hfile.
  apply bind_Ok_inv in Hfile as (lines & _ & Hlines). revert Hlines.
  apply (for_each_invariant (keyed fl gl)); [done|].
  intros line t t' _ Ht Hline.
  apply process_line_keys in Hline as [Hdom Hkeys].
  by apply (keyed_same_keys fl gl t t').
Qed.
End read_files.

(** What cell 3 hands to cell 6 has the keys cell 6 relies on. *)
Lemma import_data_keyed fl gl fs cq_dict :
  import_data fl gl fs = Ok cq_dict → keyed fl gl cq_dict.
Proof.
  intros Hrun. apply bind_Ok_inv in Hrun as (cq0 & Hinit & Hread).
  apply (read_files_keyed gl fl fl fs cq0); [done|].
  by apply init_keys_keyed.
Qed.

(** ** Rows *)

Lemma lookup_5_4_2 {A} (l : list A) (x : A) :
  l !! 5 = Some x → is_Some (l !! 2) ∧ is_Some (l !! 4).
Proof.
  intros H. apply lookup_lt_Some in H.
  split; apply lookup_lt_is_Some; lia.
Qed.

Lemma process_line_cases gl file_date line
    (cq_dict : gmap string (gmap string (list pyfloat))) genes :
  gl !! file_date = Some genes →
  (∀ gene, gene ∈ genes → is_Some (cq_dict !! gene)) →
  (process_line gl file_date line cq_dict = Raise IndexError
   ∧ too_short line)
  ∨ (process_line gl file_date line cq_dict = Raise ValueError
     ∧ bad_cq gl file_date cq_dict line)
  ∨ (is_Ok (process_line gl file_date line cq_dict)
     ∧ ¬ too_short line ∧ ¬ bad_cq gl file_date cq_dict line).
Proof.
  intros Hgl Hdom. unfold process_line, too_short, bad_cq, index, float_of.
  fold (fields line).
  destruct (fields line !! 2) as [sp2|] eqn:H2; simpl; [|left; by auto].
  case_decide as Hsp2.
  { right; right. split; [apply is_Ok_Ok|]. split; naive_solver. }
  destruct (fields line !! 5) as [sp5|] eqn:H5; simpl;
    [|left; split; [done|]; right; by exists sp2].
  case_decide as Hsp5.
  { right; right. split; [apply is_Ok_Ok|]. split; naive_solver. }
  unfold getitem. rewrite Hgl. simpl.
  case_decide as Hgene.
  2:{ right; right. split; [apply is_Ok_Ok|]. split; [naive_solver|].
      intros (g & gd & c & gs & ? & ? & ? & ? & ? & ? & ? & ? & ? & ?).
      naive_solver. }
  destruct (lookup_5_4_2 _ _ H5) as [_ [sp4 H4]]. rewrite H4. simpl.
  destruct (Hdom sp2 Hgene) as [guides Hguides]. rewrite Hguides. simpl.
  destruct (guides !! sp4) as [replicates|] eqn:Hrep.
  2:{ right; right. split; [apply is_Ok_Ok|]. split; [naive_solver|].
      intros (g & gd & c & gs & ? & ? & ? & ? & ? & ? & ? & ? & ? & ?).
      naive_solver. }
  destruct (py_float sp5) as [v|] eqn:Hv; simpl.
  - right; right. split; [apply is_Ok_Ok|]. split; [naive_solver|].
    intros (g & gd & c & gs & ? & ? & ? & ? & ? & ? & ? & ? & ? & ?).
    naive_solver.
  - right; left. split; [done|].
    by exists sp2, sp4, sp5, genes, guides, replicates.
Qed.

(** ** The notebook, end to end *)

(** Once the files are read without an error, the well correction finds
    its group, and the calculations run on a dictionary with the keys in
    place. *)
Lemma notebook_corrected fs cq_dict :
  import_data file_list gene_list fs = Ok cq_dict →
  ∃ corrected,
    well_correction cq_dict = Ok corrected
    ∧ keyed file_list gene_list corrected
    ∧ notebook fs = relative_expression file_list gene_list corrected.
Proof.
  intros Himport.
  pose proof (import_data_keyed _ _ _ _ Himport) as Hkeyed.
  assert (is_Some (lookup2 cq_dict "hcaT" "Rand42_20200806")) as Hkey.
  { destruct (Hkeyed "20200806_luna_rtqpcr_quant.csv") as (genes & Hgl & Hg);
      [by left|].
    assert (genes = ["hcaT"; "topA"; "ribB"]) as ->
      by (revert Hgl; by intros [= <-]).
    destruct (Hg "topA") as [_ (HRand42 & _ & Hcov)];
      [right; by left|done|].
    by apply Hcov. }
  destruct Hkey as [l Hl].
  destruct (cq_dict !! "hcaT") as [t|] eqn:Ht;
    [|by rewrite (lookup2_None _ _ _ Ht) in Hl].
  exists (<["hcaT" := <["Rand42_20200806" :=
                         [Fin 23.48359183; Fin 23.68555433]]> t]> cq_dict).
  split; [unfold well_correction, setitem2, getitem; by rewrite Ht|].
  split.
  - apply keyed_insert_group; [done| |done].
    rewrite (lookup2_Some _ _ _ _ Ht) in Hl. by eexists.
  - unfold notebook. rewrite Himport. simpl.
    unfold well_correction, setitem2, getitem. by rewrite Ht.
Qed.

(** ** The examples *)

Lemma decimal_in_range (sign mantissa exponent : Z) :
  let v := (IZR (sign * mantissa) * powerRZ 10 exponent)%R in
  (underflow_threshold < Rabs v < overflow_threshold)%R →
  decimal sign mantissa exponent = Fin v.
Proof.
  intros v [Hlo Hhi]. unfold decimal. fold v.
  destruct (Rle_dec overflow_threshold (Rabs v)); [lra|].
  destruct (Rle_dec (Rabs v) underflow_threshold); [lra|done].
Qed.

(** The numerals of the examples are read as their values. *)
Ltac numeral :=
  match goal with
  | |- decimal ?s ?m ?e = Fin ?v =>
      rewrite (decimal_in_range s m e);
      [reflexivity
      |change (underflow_threshold < Rabs v < overflow_threshold)%R;
       unfold underflow_threshold, overflow_threshold;
       rewrite Rabs_right by lra; lra]
  end.

Lemma numeral_22 : decimal 1 22 0 = Fin (22 * 1).
Proof. numeral. Qed.

Lemma numeral_23 : decimal 1 23 0 = Fin (23 * 1).
Proof. numeral. Qed.

Lemma numeral_23_5 : decimal 1 235 (-1) = Fin (235 * / (10 * 1)).
Proof. numeral. Qed.

Lemma numeral_25_1 : decimal 1 251 (-1) = Fin (251 * / (10 * 1)).
Proof. numeral. Qed.

Lemma py_float_23_5 : py_float "23.5" = Some (Fin (235 * / (10 * 1))).
Proof. rewrite <- numeral_23_5. reflexivity. Qed.

Lemma example_import_no_reference :
  import_data example_files example_genes example_rows_no_reference
  = Ok (example_cq [] [Fin (22 * 1); Fin (22 * 1)]
          [Fin (23 * 1); Fin (23 * 1)] [Fin (23 * 1); Fin (23 * 1)]).
Proof. rewrite <- numeral_22, <- numeral_23. reflexivity. Qed.

Lemma notebook_init_keys : init_keys file_list gene_list = Ok notebook_keys.
Proof. reflexivity. Qed.

(** The field after the last comma of a line holds the newline: when the Cq
    column is the last one and has no value, the field is not empty, the row
    is not skipped, and [float] is asked to read the newline. *)
Example last_field_holds_newline :
  fields ("A03,SYBR,gene,Unkn,gene1_C," +:+ newline) !! 5 = Some newline
  ∧ process_line example_genes "20200806"
      ("A03,SYBR,gene,Unkn,gene1_C," +:+ newline) (example_cq [] [] [] [])
    = Raise ValueError.
Proof. split; reflexivity. Qed.

(** The groups of the example dictionary. *)
Lemma example_cq_lookup (a b c d : list pyfloat) gene guide group :
  lookup2 (example_cq a b c d) gene guide = Some group →
  gene = "hcaT"
  ∧ (guide = "gene1_C" ∧ group = a ∨ guide = "gene3_C" ∧ group = []
     ∨ guide = "Rand42_20200806" ∧ group = c)
  ∨ gene = "gene"
    ∧ (guide = "gene1_C" ∧ group = b ∨ guide = "gene3_C" ∧ group = []
       ∨ guide = "Rand42_20200806" ∧ group = d).
Proof.
  unfold lookup2, example_cq.
  destruct (decide (gene = "hcaT")) as [->|Hh].
  - rewrite lookup_insert_eq. simpl. intros Hg. left. split; [done|].
    destruct (decide (guide = "gene1_C")) as [->|H1].
    { rewrite lookup_insert_eq in Hg. left. split; congruence. }
    rewrite lookup_insert_ne in Hg by done.
    destruct (decide (guide = "gene3_C")) as [->|H3].
    { rewrite lookup_insert_eq in Hg. right; left. split; congruence. }
    rewrite lookup_insert_ne in Hg by done.
    apply lookup_singleton_Some in Hg as [<- <-]. by right; right.
  - rewrite lookup_insert_ne by done.
    destruct (decide (gene = "gene")) as [->|Hg'].
    2:{ by rewrite lookup_singleton_ne. }
    rewrite lookup_singleton_eq. simpl. intros Hg. right. split; [done|].
    destruct (decide (guide = "gene1_C")) as [->|H1].
    { rewrite lookup_insert_eq in Hg. left. split; congruence. }
    rewrite lookup_insert_ne in Hg by done.
    destruct (decide (guide = "gene3_C")) as [->|H3].
    { rewrite lookup_insert_eq in Hg. right; left. split; congruence. }
    rewrite lookup_insert_ne in Hg by done.
    apply lookup_singleton_Some in Hg as [<- <-]. by right; right.
Qed.

Lemma example_keyed (a b c d : list pyfloat) :
  keyed example_files example_genes (example_cq a b c d).
Proof. apply well_keyed_keyed. reflexivity. Qed.

Lemma example_all_tame (a b c d : list pyfloat) :
  tame a → tame b → tame c → tame d → all_tame (example_cq a b c d).
Proof.
  intros Ha Hb Hc Hd gene guide group Hgroup.
  apply example_cq_lookup in Hgroup
    as [[_ [[_ ->]|[[_ ->]|[_ ->]]]]|[_ [[_ ->]|[[_ ->]|[_ ->]]]]];
    done || apply tame_nil.
Qed.

(** On the example dictionary the cell returns when the squares and the
    power of two of the gene's first guide are in range. *)
Lemma example_returns (a b c d : list pyfloat) :
  is_Ok (ddCq_sem a b c d) → is_Ok (fold_change a b c d) →
  is_Ok (relative_expression example_files example_genes
           (example_cq a b c d)).
Proof.
  intros [sem Hsem] Hlin.
  apply relative_expression_total; [apply example_keyed|].
  intros file_name gene guide hcaT group hcaT_ref gene_ref
    _ _ Hgene HhcaT Hgroup HhcaT_ref Hgene_ref.
  apply example_cq_lookup in HhcaT as [[_ HhcaT]|[? _]]; [|done].
  apply example_cq_lookup in Hgroup as [[? _]|[_ Hgroup]]; [done|].
  assert ("Rand42_" +:+ substring 0 8 file_name ≠ "gene1_C"
          ∧ "Rand42_" +:+ substring 0 8 file_name ≠ "gene3_C") as [H1 H3].
  { split; intros H; by injection H. }
  apply example_cq_lookup in HhcaT_ref as [[_ [[? _]|[[? _]|[_ ->]]]]|[? _]];
    try done.
  apply example_cq_lookup in Hgene_ref as [[? _]|[_ [[? _]|[[? _]|[_ ->]]]]];
    try done.
  destruct (py_root_sum_squares_Ok _ _ _ Hsem) as (a2 & c2 & Ha2 & Hc2 & _).
  assert (not_negative c2) as Hc2' by by eapply py_square_not_negative.
  assert (hcaT = a ∧ group = b ∨ hcaT = [] ∧ group = []
          ∨ hcaT = c ∧ group = d) as [[-> ->]|[[-> ->]|[-> ->]]].
  { destruct HhcaT as [[-> ->]|[[-> ->]|[-> ->]]],
      Hgroup as [[? ->]|[[? ->]|[? ->]]]; try done; auto. }
  - split; [by eexists|by intros _].
  - split.
    + unfold ddCq_sem, dCq_sem at 1. rewrite stats_sem_empty.
      rewrite root_sum_squares_NaN_l. unfold py_root_sum_squares.
      simpl. rewrite Hc2. simpl. apply is_Ok_Ok.
    + intros _. destruct (fold_change_empty [] [] c d) as [_ ->]; [by left|].
      apply is_Ok_Ok.
  - split.
    + unfold ddCq_sem, py_root_sum_squares. rewrite Hc2. simpl.
      rewrite math_sqrt_not_negative by by apply fadd_not_negative.
      apply is_Ok_Ok.
    + intros _. unfold fold_change, ddCq_mean. rewrite fsub_diag.
      destruct (is_fin (dCq_mean c d)); [|apply is_Ok_Ok].
      rewrite math_pow2_zero. apply is_Ok_Ok.
Qed.

Lemma example_returns_tame (a b c d : list pyfloat) :
  tame a → tame b → tame c → tame d →
  is_Ok (relative_expression example_files example_genes
           (example_cq a b c d)).
Proof.
  intros Ha Hb Hc Hd. apply example_returns.
  - destruct (tame_ddCq_sem a b c d) as (s & -> & _); [done..|].
    apply is_Ok_Ok.
  - destruct (tame_fold_change a b c d) as (s & -> & _); [done..|].
    apply is_Ok_Ok.
Qed.

(** On the example dictionary the cell raises OverflowError when the
    power of two of the gene's first guide is out of range. *)
Lemma example_raises (a b c d : list pyfloat) (r : R) :
  ddCq_mean a b c d = Fin r → (1024 <= r)%R →
  relative_expression example_files example_genes (example_cq a b c d)
  = Raise OverflowError.
Proof.
  intros Hmean Hr.
  assert ("gene" ≠ "hcaT") as Hgene by (intros H; by injection H).
  assert (∀ out, relative_expression example_files example_genes
                   (example_cq a b c d) ≠ Ok out) as Hnot.
  { intros out Hrun.
    destruct (relative_expression_lookup example_files example_genes
                (example_cq a b c d) out "gene" "gene1_C"
                "20200806_example.csv" b Hrun Hgene eq_refl eq_refl)
      as (h & hr & gr & sem & lin & Hh & Hhr & Hgr & _ & Hlin & _).
    clear Hrun.
    assert (Some h = Some a) as Ea by (rewrite <- Hh; reflexivity).
    assert (Some hr = Some c) as Ec by (rewrite <- Hhr; reflexivity).
    assert (Some gr = Some d) as Ed by (rewrite <- Hgr; reflexivity).
    injection Ea as ->. injection Ec as ->. injection Ed as ->.
    unfold fold_change in Hlin. rewrite Hmean in Hlin.
    rewrite math_pow2_overflow in Hlin by exact Hr. discriminate Hlin. }
  pose proof (relative_expression_raise example_files example_genes
                (example_cq a b c d) (example_keyed a b c d)) as Hraise.
  destruct (relative_expression example_files example_genes
              (example_cq a b c d)) as [out|e].
  - exfalso. exact (Hnot out eq_refl).
  - f_equal. exact (Hraise e eq_refl).
Qed.

(** Groups of two replicates. *)
Lemma tame_pair (x y : R) :
  (Rabs x <= 250)%R → (Rabs y <= 250)%R → tame [Fin x; Fin y].
Proof.
  intros Hx Hy. split; [cbn [length INR]; lra|].
  apply Forall_cons_2; [exact Hx|]. apply Forall_cons_2; [exact Hy|].
  apply Forall_nil_2.
Qed.


Lemma plausible_pair (x y : R) :
  (Rabs x <= 250)%R → (Rabs y <= 250)%R → plausible (Fin <$> [x; y]).
Proof. intros Hx Hy. split; [done|by apply tame_pair]. Qed.

Lemma Rmean_pair (x y : R) : Rmean [x; y] = ((x + y) / 2)%R.
Proof. unfold Rmean, Rsum. cbn [foldl length INR]. field. Qed.

Lemma np_mean_pair (x y : R) :
  (Rabs x <= 2 ^ 1000)%R → (Rabs y <= 2 ^ 1000)%R →
  np_mean [Fin x; Fin y] = Fin ((x + y) / 2).
Proof.
  intros Hx Hy. change [Fin x; Fin y] with (Fin <$> [x; y]).
  rewrite (np_mean_Fin (2 ^ 1000)); [by rewrite Rmean_pair|done| |].
  - apply Forall_cons_2; [exact Hx|]. apply Forall_cons_2; [exact Hy|].
    apply Forall_nil_2.
  - cbn [length INR]. pose proof overflow_threshold_above. lra.
Qed.

Lemma ddCq_mean_pairs (h1 h2 g1 g2 hr1 hr2 gr1 gr2 : R) :
  (Rabs h1 <= 2 ^ 1000)%R → (Rabs h2 <= 2 ^ 1000)%R →
  (Rabs g1 <= 2 ^ 1000)%R → (Rabs g2 <= 2 ^ 1000)%R →
  (Rabs hr1 <= 2 ^ 1000)%R → (Rabs hr2 <= 2 ^ 1000)%R →
  (Rabs gr1 <= 2 ^ 1000)%R → (Rabs gr2 <= 2 ^ 1000)%R →
  ddCq_mean [Fin h1; Fin h2] [Fin g1; Fin g2]
            [Fin hr1; Fin hr2] [Fin gr1; Fin gr2]
  = Fin (((h1 + h2) / 2 - (g1 + g2) / 2)
         - ((hr1 + hr2) / 2 - (gr1 + gr2) / 2)).
Proof.
  intros Hh1 Hh2 Hg1 Hg2 Hhr1 Hhr2 Hgr1 Hgr2.
  unfold ddCq_mean, dCq_mean. rewrite !np_mean_pair by done.
  pose proof overflow_threshold_above.
  apply Rabs_le_iff in Hh1, Hh2, Hg1, Hg2, Hhr1, Hhr2, Hgr1, Hgr2.
  rewrite !fsub_Fin; [done|apply Rabs_lt_iff; lra..].
Qed.

(** Two finite replicates whose sum is out of range: numpy's mean and
    scipy's SEM of the pair are infinite. *)
Lemma finish_overflow (x : R) :
  (overflow_threshold <= x)%R → finish x = PInf.
Proof.
  intros Hx. pose proof overflow_threshold_above. unfold finish.
  destruct (Rle_dec overflow_threshold (Rabs x)) as [_|Hn].
  - by rewrite Rsign_pos by lra.
  - rewrite Rabs_right in Hn by lra. lra.
Qed.

Lemma fdiv_PInf (b : R) : (0 < b)%R → fdiv PInf (Fin b) = PInf.
Proof.
  intros Hb. simpl. destruct (Req_EM_T b 0); [lra|].
  by rewrite Rsign_pos.
Qed.

Lemma pair_overflow (x : R) :
  (0 < x < overflow_threshold)%R → (overflow_threshold <= x + x)%R →
  np_mean [Fin x; Fin x] = PInf ∧ stats_sem [Fin x; Fin x] = PInf.
Proof.
  intros Hx Hsum.
  assert (np_mean [Fin x; Fin x] = PInf) as Hmean.
  { unfold np_mean, fsum, count. cbn [foldl fadd length INR].
    rewrite (finish_in_range (0 + x)) by (rewrite Rabs_right; lra).
    cbn [fadd]. rewrite finish_overflow by lra. apply fdiv_PInf. lra. }
  split; [done|]. unfold stats_sem, np_std1. rewrite Hmean.
  unfold fsum, count. cbn [map foldl fsub fsquare fmul fsign inf_of sign_mul
                            fadd length Nat.sub INR].
  rewrite (fdiv_PInf 1) by lra. cbn [np_sqrt].
  destruct (Rlt_dec (1 + 1) 0); [lra|]. apply fdiv_PInf.
  apply sqrt_lt_R0. lra.
Qed.

Lemma root_sum_squares_PInf_r (x : pyfloat) :
  x ≠ NaN → root_sum_squares x PInf = PInf.
Proof.
  intros Hx. unfold root_sum_squares.
  by destruct (fsquare_cases x) as [(r & _ & ->)|[[_ ->]|[? _]]].
Qed.

(** The fold change of a gene under its own reference guide. *)
Lemma reference_guide_fold_change fl gl
    (cq_dict : gmap string (gmap string (list pyfloat)))
    out gene file_name hcaT_ref gene_ref :
  relative_expression fl gl cq_dict = Ok out →
  gene ≠ "hcaT" → last_file fl gl gene = Some file_name →
  lookup2 cq_dict "hcaT" ("Rand42_" +:+ substring 0 8 file_name)
    = Some hcaT_ref →
  lookup2 cq_dict gene ("Rand42_" +:+ substring 0 8 file_name)
    = Some gene_ref →
  lookup2 (dd_cq_mean_lin_dict out) gene
    ("Rand42_" +:+ substring 0 8 file_name)
  = Some (if is_fin (dCq_mean hcaT_ref gene_ref) then Fin 1 else NaN).
Proof.
  intros Hout Hgene Hlast HhcaT_ref Hgene_ref.
  destruct (relative_expression_lookup fl gl cq_dict out gene
              ("Rand42_" +:+ substring 0 8 file_name) file_name gene_ref
              Hout Hgene Hlast Hgene_ref)
    as (h & hr & gr & sem & lin & Hh & Hhr & Hgr & _ & Hlin & _ & _
        & Hlin_mean & _).
  assert (h = hcaT_ref ∧ hr = hcaT_ref ∧ gr = gene_ref) as (-> & -> & ->)
    by (repeat split; congruence).
  rewrite Hlin_mean. f_equal. unfold fold_change, ddCq_mean in Hlin.
  rewrite fsub_diag in Hlin.
  destruct (is_fin (dCq_mean hcaT_ref gene_ref)).
  - rewrite math_pow2_zero in Hlin. by injection Hlin.
  - by injection Hlin.
Qed.

(** The Cq values 1100 for hcaT under the guide and 0 elsewhere: valid
    groups of finite values, and the cell raises OverflowError at
    [math.pow(2, 1100.0)]. *)
Lemma example_overflow :
  relative_expression example_files example_genes
    (example_cq [Fin 1100; Fin 1100] [Fin 0; Fin 0]
                [Fin 0; Fin 0] [Fin 0; Fin 0])
  = Raise OverflowError.
Proof.
  pose proof (pow_R1_Rle 2 1000 ltac:(lra)).
  apply (example_raises _ _ _ _ 1100); [|lra].
  rewrite ddCq_mean_pairs by (rewrite Rabs_right; lra). f_equal. lra.
Qed.

(** Groups of at most a million replicates, each NaN or of magnitude at
    most 2^64: the squares of the error propagation are in range. *)
Lemma moderate_ddCq_sem (h g hr gr : list pyfloat) :
  (∀ l, l ∈ [h; g; hr; gr] →
     (INR (length l) <= 10 ^ 6)%R ∧ Forall (within (2 ^ 64)) l) →
  is_Ok (ddCq_sem h g hr gr).
Proof.
  intros Hall. pose proof overflow_threshold_above as HT.
  assert (∀ l, l ∈ [h; g; hr; gr] →
            within (3 * 2 ^ 64) (stats_sem l)) as Hsem.
  { intros l [Hn Hl]%Hall. apply stats_sem_within; [done|lra..]. }
  assert (∀ a b, a ∈ [h; g; hr; gr] → b ∈ [h; g; hr; gr] →
            within (3 * 2 ^ 64 + 3 * 2 ^ 64) (dCq_sem a b)) as Hd.
  { intros a b Ha Hb. unfold dCq_sem.
    apply root_sum_squares_within; [by apply Hsem..|lra]. }
  destruct (py_root_sum_squares_within
              (3 * 2 ^ 64 + 3 * 2 ^ 64) (3 * 2 ^ 64 + 3 * 2 ^ 64)
              (dCq_sem h g) (dCq_sem hr gr)) as (s & Hs & _).
  - apply Hd; rewrite !elem_of_cons; auto.
  - apply Hd; rewrite !elem_of_cons; auto.
  - lra.
  - exists s. exact Hs.
Qed.

(** The Cq values 1100 for the gene under the guide and 0 elsewhere: the
    cell returns, and the fold change is [math.pow(2, -1100.0)], which is
    0.0. *)
Lemma example_underflow :
  ∃ out,
    relative_expression example_files example_genes
      (example_cq [Fin 0; Fin 0] [Fin 1100; Fin 1100]
                  [Fin 0; Fin 0] [Fin 0; Fin 0]) = Ok out
    ∧ lookup2 (dd_cq_mean_lin_dict out) "gene" "gene1_C" = Some (Fin 0).
Proof.
  assert ("gene" ≠ "hcaT") as Hgene by (intros H; by injection H).
  pose proof (pow_R1_Rle 2 1000 ltac:(lra)) as H1000.
  assert (ddCq_mean [Fin 0; Fin 0] [Fin 1100; Fin 1100]
            [Fin 0; Fin 0] [Fin 0; Fin 0] = Fin (-1100)) as Emean.
  { rewrite ddCq_mean_pairs by (rewrite Rabs_right; lra). f_equal. lra. }
  assert (fold_change [Fin 0; Fin 0] [Fin 1100; Fin 1100]
            [Fin 0; Fin 0] [Fin 0; Fin 0] = Ok (Fin 0)) as Elin.
  { unfold fold_change. rewrite Emean. apply math_pow2_underflow. lra. }
  destruct (example_returns [Fin 0; Fin 0] [Fin 1100; Fin 1100]
              [Fin 0; Fin 0] [Fin 0; Fin 0]) as [out Hout].
  { apply moderate_ddCq_sem. intros l Hl. split.
    - rewrite !elem_of_cons, elem_of_nil in Hl.
      destruct Hl as [->|[->|[->|[->|[]]]]]; cbn [length INR]; lra.
    - rewrite !elem_of_cons, elem_of_nil in Hl.
      destruct Hl as [->|[->|[->|[->|[]]]]];
        (apply Forall_cons_2; [|apply Forall_cons_2; [|apply Forall_nil_2]]);
        simpl; rewrite Rabs_right; lra. }
  { rewrite Elin. apply is_Ok_Ok. }
  exists out. split; [exact Hout|].
  destruct (relative_expression_lookup example_files example_genes _ out
              "gene" "gene1_C" "20200806_example.csv"
              [Fin 1100; Fin 1100] Hout Hgene eq_refl eq_refl)
    as (h & hr & gr & sem & lin & Hh & Hhr & Hgr & _ & Hlin & _ & _
        & Hlin_mean & _).
  clear Hout.
  assert (Some h = Some [Fin 0; Fin 0]) as Eh by (rewrite <- Hh; reflexivity).
  assert (Some hr = Some [Fin 0; Fin 0]) as Ehr
    by (rewrite <- Hhr; reflexivity).
  assert (Some gr = Some [Fin 0; Fin 0]) as Egr
    by (rewrite <- Hgr; reflexivity).
  injection Eh as ->. injection Ehr as ->. injection Egr as ->.
  rewrite Hlin_mean. congruence.
Qed.

(** * The claims *)



(** C2, as the code has it.  A replicate group with fewer than two values
    does not make the aggregation fail: scipy's SEM of such a group of
    floats is NaN, and with the keys of an import in place the first pass
    returns, holding that SEM for the group.  The NaN goes through the
    error propagation: whenever the cell returns, ddCq_sem and
    fold_change_sem of a guide that uses the group are NaN. *)
Theorem C2_short_group_gives_NaN fl gl
    (cq_dict : gmap string (gmap string (list pyfloat)))
    gene guide file_name hcaT group hcaT_ref gene_ref :
  gene ≠ "hcaT" → last_file fl gl gene = Some file_name →
  lookup2 cq_dict "hcaT" guide = Some hcaT →
  lookup2 cq_dict gene guide = Some group →
  lookup2 cq_dict "hcaT" ("Rand42_" +:+ substring 0 8 file_name)
    = Some hcaT_ref →
  lookup2 cq_dict gene ("Rand42_" +:+ substring 0 8 file_name)
    = Some gene_ref →
  (length hcaT < 2 ∧ Forall is_float hcaT
   ∨ length group < 2 ∧ Forall is_float group
   ∨ length hcaT_ref < 2 ∧ Forall is_float hcaT_ref
   ∨ length gene_ref < 2 ∧ Forall is_float gene_ref)%nat →
  (∀ l : list pyfloat,
     (length l < 2)%nat → Forall is_float l → stats_sem l = NaN)
  ∧ (well_keyed fl gl cq_dict = true →
     ∃ cq_mean cq_sem,
       replicate_stats fl gl cq_dict = Ok (cq_mean, cq_sem)
       ∧ lookup2 cq_sem gene guide = Some (stats_sem group))
  ∧ ∀ out,
      relative_expression fl gl cq_dict = Ok out →
      lookup2 (dd_cq_sem_dict out) gene guide = Some NaN
      ∧ lookup2 (dd_cq_sem_lin_dict out) gene guide = Some NaN.
Proof.
  intros Hgene Hlast HhcaT Hgroup HhcaT_ref Hgene_ref Hshort.
  split; [apply stats_sem_short|]. split.
  - intros Hkeys. apply well_keyed_keyed in Hkeys.
    destruct (first_passes_total fl gl cq_dict Hkeys)
      as (cq_mean & cq_sem & _ & _ & Hstats & _).
    exists cq_mean, cq_sem. split; [done|].
    pose proof (replicate_stats_lookup fl gl _ _ _ gene Hstats) as Hg.
    rewrite Hlast in Hg. destruct Hg as (_ & _ & Hg).
    destruct (Hg guide) as [_ ->]. by rewrite Hgroup.
  - intros out Hout.
    destruct (relative_expression_lookup fl gl cq_dict out gene guide
                file_name group Hout Hgene Hlast Hgroup)
      as (h & hr & gr & sem & lin & Hh & Hhr & Hgr & Hsem & _ & _
          & Hdd_sem & _ & Hlin_sem).
    assert (h = hcaT ∧ hr = hcaT_ref ∧ gr = gene_ref) as (-> & -> & ->)
      by (repeat split; congruence).
    apply (ddCq_sem_short _ _ _ _ _ Hshort) in Hsem as ->.
    rewrite Hdd_sem, Hlin_sem. split; [done|].
    by rewrite fmul_NaN_r, fmul_NaN_l.
Qed.

Lemma C2_witness :
  let cq_dict :=
    example_cq [Fin 23; Fin 23] [Fin 22]
               [Fin 23; Fin 23] [Fin 23; Fin 23] in
  (length [Fin 22] < 2)%nat
  ∧ stats_sem [Fin 22] = NaN
  ∧ ∃ out,
      relative_expression example_files example_genes cq_dict = Ok out
      ∧ lookup2 (dd_cq_sem_dict out) "gene" "gene1_C" = Some NaN
      ∧ lookup2 (dd_cq_sem_lin_dict out) "gene" "gene1_C" = Some NaN.
Proof.
  intros cq_dict. split; [simpl; lia|].
  assert ("gene" ≠ "hcaT") as Hgene by (intros H; by injection H).
  assert (Rabs 23 <= 250 ∧ Rabs 22 <= 250)%R as [H23 H22]
    by (rewrite !Rabs_right by lra; lra).
  assert (tame [Fin 22]) as Htame.
  { split; [cbn [length INR]; lra|].
    apply Forall_cons_2; [exact H22|apply Forall_nil_2]. }
  destruct (C2_short_group_gives_NaN example_files example_genes cq_dict
              "gene" "gene1_C" "20200806_example.csv"
              [Fin 23; Fin 23] [Fin 22] [Fin 23; Fin 23] [Fin 23; Fin 23]
              Hgene eq_refl eq_refl eq_refl eq_refl eq_refl)
    as (Hsem & _ & HNaN).
  { right; left. split; [simpl; lia|by apply tame_is_float]. }
  split; [apply Hsem; [simpl; lia|by apply tame_is_float]|].
  destruct (example_returns_tame [Fin 23; Fin 23] [Fin 22]
              [Fin 23; Fin 23] [Fin 23; Fin 23]) as [out Hout];
    [by apply tame_pair|exact Htame|by apply tame_pair..|].
  exists out. split; [exact Hout|]. exact (HNaN out Hout).
Defined.

(** A replicate group of length 1 raises nothing: the first pass returns
    with NaN for the SEM of the group, and so does the cell, with NaN for
    the SEM of the fold change. *)
Lemma C2_counterexample :
  let cq_dict :=
    example_cq [Fin 23; Fin 23] [Fin 22]
               [Fin 23; Fin 23] [Fin 23; Fin 23] in
  lookup2 cq_dict "gene" "gene1_C" = Some [Fin 22]
  ∧ (∃ cq_mean cq_sem,
       replicate_stats example_files example_genes cq_dict
       = Ok (cq_mean, cq_sem)
       ∧ lookup2 cq_sem "gene" "gene1_C" = Some NaN)
  ∧ ∃ out,
      relative_expression example_files example_genes cq_dict = Ok out
      ∧ lookup2 (dd_cq_sem_lin_dict out) "gene" "gene1_C" = Some NaN.
Proof.
  intros cq_dict. split; [reflexivity|].
  assert ("gene" ≠ "hcaT") as Hgene by (intros H; by injection H).
  assert (Rabs 23 <= 250 ∧ Rabs 22 <= 250)%R as [H23 H22]
    by (rewrite !Rabs_right by lra; lra).
  assert (tame [Fin 22]) as Htame.
  { split; [cbn [length INR]; lra|].
    apply Forall_cons_2; [exact H22|apply Forall_nil_2]. }
  assert (stats_sem [Fin 22] = NaN) as Esem
    by (apply stats_sem_short; [simpl; lia|by apply tame_is_float]).
  split.
  - destruct (first_passes_total example_files example_genes cq_dict
                (example_keyed _ _ _ _))
      as (cq_mean & cq_sem & _ & _ & Hstats & _).
    exists cq_mean, cq_sem. split; [exact Hstats|].
    pose proof (replicate_stats_lookup example_files example_genes _ _ _
                  "gene" Hstats) as Hg.
    clear Hstats. destruct Hg as (_ & _ & Hg).
    destruct (Hg "gene1_C") as [_ ->]. by rewrite <- Esem.
  - destruct (example_returns_tame [Fin 23; Fin 23] [Fin 22]
                [Fin 23; Fin 23] [Fin 23; Fin 23]) as [out Hout];
      [by apply tame_pair|exact Htame|by apply tame_pair..|].
    exists out. split; [exact Hout|].
    destruct (relative_expression_lookup example_files example_genes
                cq_dict out "gene" "gene1_C" "20200806_example.csv"
                [Fin 22] Hout Hgene eq_refl eq_refl)
      as (h & hr & gr & sem & lin & Hh & Hhr & Hgr & Hsem & _ & _ & _ & _
          & Hlin_sem).
    clear Hout. rewrite Hlin_sem. f_equal.
    assert (sem = NaN) as ->; [|by rewrite fmul_NaN_r, fmul_NaN_l].
    apply (ddCq_sem_short h [Fin 22] hr gr sem); [|exact Hsem].
    right; left. split; [simpl; lia|by apply tame_is_float].
Qed.

(** C3, as the code has it.  After the import no reference group is absent:
    the key initialisation gives every gene that has a group under a guide
    the group of hcaT under that guide and both groups under the reference
    guide Rand42 of the gene's file.  So no lookup of the cell fails: all it
    can raise is OverflowError, for a square or a power of two out of the
    range of a float.  A reference group no row was read into is an empty
    list: its mean is NaN, and whenever the cell returns, ddCq_mean and
    fold_change of the gene under the guide are NaN. *)
Theorem C3_empty_reference_gives_NaN fl gl fs
    (cq_dict : gmap string (gmap string (list pyfloat)))
    gene guide file_name group :
  import_data fl gl fs = Ok cq_dict →
  gene ≠ "hcaT" → last_file fl gl gene = Some file_name →
  lookup2 cq_dict gene guide = Some group →
  ∃ hcaT hcaT_ref gene_ref,
    lookup2 cq_dict "hcaT" guide = Some hcaT
    ∧ lookup2 cq_dict "hcaT" ("Rand42_" +:+ substring 0 8 file_name)
      = Some hcaT_ref
    ∧ lookup2 cq_dict gene ("Rand42_" +:+ substring 0 8 file_name)
      = Some gene_ref
    ∧ (∀ e, relative_expression fl gl cq_dict = Raise e →
            e = OverflowError)
    ∧ ∀ out,
        relative_expression fl gl cq_dict = Ok out →
        hcaT = [] ∨ hcaT_ref = [] ∨ gene_ref = [] →
        lookup2 (dd_cq_mean_dict out) gene guide = Some NaN
        ∧ lookup2 (dd_cq_mean_lin_dict out) gene guide = Some NaN.
Proof.
  intros Himport Hgene Hlast Hgroup.
  pose proof (import_data_keyed fl gl fs cq_dict Himport) as Hkeyed.
  destruct (last_file_lists _ _ _ _ Hlast) as [Hin (genes & Hgl & Hlisted)].
  destruct (Hkeyed file_name Hin) as (genes' & Hgl' & Hgenes).
  assert (genes' = genes) as -> by congruence.
  destruct (Hgenes gene Hlisted) as [_ ([gene_ref Hgene_ref] & _ & Hcov)];
    [done|].
  destruct (Hcov guide) as [hcaT HhcaT]; [by eexists|].
  destruct (Hcov ("Rand42_" +:+ substring 0 8 file_name))
    as [hcaT_ref HhcaT_ref]; [by eexists|].
  exists hcaT, hcaT_ref, gene_ref. repeat (split; [done|]).
  split; [by apply relative_expression_raise|].
  intros out Hout Hempty.
  destruct (relative_expression_lookup fl gl cq_dict out gene guide file_name
              group Hout Hgene Hlast Hgroup)
    as (h & hr & gr & sem & lin & Hh & Hhr & Hgr & _ & Hlin & Hmean & _
        & Hlin_mean & _).
  assert (h = hcaT ∧ hr = hcaT_ref ∧ gr = gene_ref) as (-> & -> & ->)
    by (repeat split; congruence).
  destruct (fold_change_empty hcaT group hcaT_ref gene_ref) as [E1 E2].
  { destruct Hempty as [?|[?|?]]; auto. }
  rewrite Hmean, Hlin_mean, E1. split; [done|]. congruence.
Qed.

Lemma C3_witness :
  let cq_dict :=
    example_cq [] [Fin (22 * 1); Fin (22 * 1)]
      [Fin (23 * 1); Fin (23 * 1)] [Fin (23 * 1); Fin (23 * 1)] in
  import_data example_files example_genes example_rows_no_reference
  = Ok cq_dict
  ∧ lookup2 cq_dict "hcaT" "gene1_C" = Some []
  ∧ ∃ out,
      relative_expression example_files example_genes cq_dict = Ok out
      ∧ lookup2 (dd_cq_mean_dict out) "gene" "gene1_C" = Some NaN
      ∧ lookup2 (dd_cq_mean_lin_dict out) "gene" "gene1_C" = Some NaN.
Proof.
  intros cq_dict. split; [exact example_import_no_reference|].
  split; [reflexivity|].
  assert ("gene" ≠ "hcaT") as Hgene by (intros H; by injection H).
  assert (Rabs (23 * 1) <= 250 ∧ Rabs (22 * 1) <= 250)%R as [H23 H22]
    by (rewrite !Rabs_right by lra; lra).
  destruct (C3_empty_reference_gives_NaN example_files example_genes
              example_rows_no_reference cq_dict
              "gene" "gene1_C" "20200806_example.csv"
              [Fin (22 * 1); Fin (22 * 1)] example_import_no_reference
              Hgene eq_refl eq_refl)
    as (hcaT & hcaT_ref & gene_ref & HhcaT & _ & _ & _ & HNaN).
  assert (Some hcaT = Some []) as [= ->]
    by (rewrite <- HhcaT; reflexivity).
  destruct (example_returns_tame [] [Fin (22 * 1); Fin (22 * 1)]
              [Fin (23 * 1); Fin (23 * 1)] [Fin (23 * 1); Fin (23 * 1)])
    as [out Hout]; [apply tame_nil|by apply tame_pair..|].
  exists out. split; [exact Hout|]. apply (HNaN out Hout). by left.
Defined.

(** Omitting every row of the reference gene under a guide raises nothing:
    the import and the calculations both return. *)
Lemma C3_counterexample :
  ∃ cq_dict out,
    import_data example_files example_genes example_rows_no_reference
    = Ok cq_dict
    ∧ lookup2 cq_dict "hcaT" "gene1_C" = Some []
    ∧ relative_expression example_files example_genes cq_dict = Ok out
    ∧ lookup2 (dd_cq_mean_lin_dict out) "gene" "gene1_C" = Some NaN.
Proof.
  assert ("gene" ≠ "hcaT") as Hgene by (intros H; by injection H).
  assert (Rabs (23 * 1) <= 250 ∧ Rabs (22 * 1) <= 250)%R as [H23 H22]
    by (rewrite !Rabs_right by lra; lra).
  destruct (example_returns_tame [] [Fin (22 * 1); Fin (22 * 1)]
              [Fin (23 * 1); Fin (23 * 1)] [Fin (23 * 1); Fin (23 * 1)])
    as [out Hout]; [apply tame_nil|by apply tame_pair..|].
  exists (example_cq [] [Fin (22 * 1); Fin (22 * 1)]
            [Fin (23 * 1); Fin (23 * 1)] [Fin (23 * 1); Fin (23 * 1)]), out.
  split; [exact example_import_no_reference|].
  split; [reflexivity|]. split; [exact Hout|].
  destruct (relative_expression_lookup example_files example_genes _ out
              "gene" "gene1_C" "20200806_example.csv"
              [Fin (22 * 1); Fin (22 * 1)] Hout Hgene eq_refl eq_refl)
    as (h & hr & gr & sem & lin & Hh & _ & _ & _ & Hlin & _ & _ & Hlin_mean
        & _).
  clear Hout.
  assert (Some h = Some []) as [= ->] by (rewrite <- Hh; reflexivity).
  destruct (fold_change_empty [] [Fin (22 * 1); Fin (22 * 1)] hr gr)
    as [_ E]; [by left|].
  rewrite Hlin_mean. congruence.
Qed.

(** C4, as the code has it.  Whenever the cell returns, the fold change of
    a gene under its own reference guide is 1.0 when the dCq of the gene
    under that guide is finite: exactly so, hence within every numerical
    tolerance.  It is NaN when that dCq is not finite.  The dCq of two
    plausible groups is finite, and the cell returns when the keys of an
    import are in place and every replicate group is tame. *)
Theorem C4_reference_guide_fold_change_one fl gl
    (cq_dict : gmap string (gmap string (list pyfloat)))
    gene file_name hcaT_ref gene_ref :
  gene ≠ "hcaT" → last_file fl gl gene = Some file_name →
  lookup2 cq_dict "hcaT" ("Rand42_" +:+ substring 0 8 file_name)
    = Some hcaT_ref →
  lookup2 cq_dict gene ("Rand42_" +:+ substring 0 8 file_name)
    = Some gene_ref →
  (well_keyed fl gl cq_dict = true → all_tame cq_dict →
   is_Ok (relative_expression fl gl cq_dict))
  ∧ (plausible hcaT_ref → plausible gene_ref →
     is_fin (dCq_mean hcaT_ref gene_ref) = true)
  ∧ ∀ out,
      relative_expression fl gl cq_dict = Ok out →
      lookup2 (dd_cq_mean_lin_dict out) gene
        ("Rand42_" +:+ substring 0 8 file_name)
      = Some (if is_fin (dCq_mean hcaT_ref gene_ref) then Fin 1 else NaN).
Proof.
  intros Hgene Hlast HhcaT_ref Hgene_ref. split; [|split].
  - intros Hkeys Htame. apply relative_expression_total.
    + by apply well_keyed_keyed.
    + by apply tame_in_range.
  - intros Hh Hg.
    destruct (plausible_Fin _ Hh) as (hrs & -> & _).
    destruct (plausible_Fin _ Hg) as (grs & -> & _).
    destruct (plausible_dCq hrs grs Hh Hg) as (e & -> & _). done.
  - intros out Hout.
    by apply (reference_guide_fold_change fl gl cq_dict).
Qed.

Lemma C4_witness :
  let cq_dict :=
    example_cq [Fin 23; Fin 23] [Fin 22; Fin 22]
               [Fin 23; Fin 23] [Fin 23; Fin 23] in
  plausible [Fin 23; Fin 23]
  ∧ ∃ out,
      relative_expression example_files example_genes cq_dict = Ok out
      ∧ lookup2 (dd_cq_mean_lin_dict out) "gene" "Rand42_20200806"
        = Some (Fin 1).
Proof.
  intros cq_dict.
  assert ("gene" ≠ "hcaT") as Hgene by (intros H; by injection H).
  assert (Rabs 23 <= 250 ∧ Rabs 22 <= 250)%R as [H23 H22]
    by (rewrite !Rabs_right by lra; lra).
  assert (plausible [Fin 23; Fin 23]) as Hplausible
    by by apply (plausible_pair 23 23).
  split; [exact Hplausible|].
  destruct (C4_reference_guide_fold_change_one example_files example_genes
              cq_dict "gene" "20200806_example.csv"
              [Fin 23; Fin 23] [Fin 23; Fin 23]
              Hgene eq_refl eq_refl eq_refl)
    as (Hreturns & Hfinite & Hone).
  destruct Hreturns as [out Hout]; [reflexivity| |].
  { apply example_all_tame; by apply tame_pair. }
  exists out. split; [exact Hout|].
  rewrite (Hfinite Hplausible Hplausible) in Hone. exact (Hone out Hout).
Defined.

(** Four groups of two finite replicates each, two of them of 2^1023: the
    mean overflows, and the fold change under the reference guide is NaN.
    And four groups of two finite replicates on which the cell raises
    OverflowError. *)
Lemma C4_counterexample :
  let big := (2 ^ 1023)%R in
  let cq_dict :=
    example_cq [Fin 23; Fin 23] [Fin 22; Fin 22]
               [Fin 23; Fin 23] [Fin big; Fin big] in
  is_float (Fin big)
  ∧ valid_group [Fin big; Fin big] = true
  ∧ (∃ out,
       relative_expression example_files example_genes cq_dict = Ok out
       ∧ lookup2 (dd_cq_mean_lin_dict out) "gene" "Rand42_20200806"
         = Some NaN)
  ∧ relative_expression example_files example_genes
      (example_cq [Fin 1100; Fin 1100] [Fin 0; Fin 0]
                  [Fin 0; Fin 0] [Fin 0; Fin 0])
    = Raise OverflowError.
Proof.
  intros big cq_dict.
  assert (0 < big < overflow_threshold)%R as Hbig
    by (unfold big, overflow_threshold; lra).
  split; [simpl; rewrite Rabs_right; lra|]. split; [reflexivity|].
  split; [|exact example_overflow].
  assert ("gene" ≠ "hcaT") as Hgene by (intros H; by injection H).
  assert (Rabs 23 <= 250 ∧ Rabs 22 <= 250)%R as [H23 H22]
    by (rewrite !Rabs_right by lra; lra).
  destruct (pair_overflow big Hbig) as [Emean Esem];
    [unfold big, overflow_threshold; lra|].
  pose proof (plausible_pair 23 23 H23 H23) as Hh.
  pose proof (plausible_pair 23 22 H23 H22) as Hg. clear Hg.
  pose proof (plausible_pair 22 22 H22 H22) as Hg.
  destruct (plausible_dCq [23; 23]%R [22; 22]%R Hh Hg)
    as (e & Em & _ & Es & He).
  destruct (plausible_np_mean [23; 23]%R) as [Emh _];
    [simpl; lia|cbn [length INR]; lra
    |apply Forall_cons_2; [done|]; apply Forall_cons_2; [done|];
     apply Forall_nil_2|].
  destruct (plausible_stats_sem [23; 23]%R) as [Esh _];
    [simpl; lia|cbn [length INR]; lra
    |apply Forall_cons_2; [done|]; apply Forall_cons_2; [done|];
     apply Forall_nil_2|].
  change (Fin <$> [23; 23]%R) with [Fin 23; Fin 23] in *.
  change (Fin <$> [22; 22]%R) with [Fin 22; Fin 22] in *.
  assert (dCq_mean [Fin 23; Fin 23] [Fin big; Fin big] = NInf) as Edm.
  { unfold dCq_mean. by rewrite Emh, Emean. }
  assert (dCq_sem [Fin 23; Fin 23] [Fin big; Fin big] = PInf) as Eds.
  { unfold dCq_sem. rewrite Esh, Esem. by apply root_sum_squares_PInf_r. }
  destruct (example_returns [Fin 23; Fin 23] [Fin 22; Fin 22]
              [Fin 23; Fin 23] [Fin big; Fin big]) as [out Hout].
  { unfold ddCq_sem. rewrite Es, Eds. unfold py_root_sum_squares.
    cbn [py_square]. pose proof overflow_threshold_above.
    assert (Rabs e <= 1500)%R as Ha by (rewrite Rabs_right; lra).
    pose proof (square_le _ _ Ha).
    destruct (Rle_dec overflow_threshold (e * e)); [lra|].
    apply is_Ok_Ok. }
  { unfold fold_change, ddCq_mean. rewrite Em, Edm. apply is_Ok_Ok. }
  exists out. split; [exact Hout|].
  pose proof (reference_guide_fold_change example_files example_genes
                cq_dict out "gene" "20200806_example.csv"
                [Fin 23; Fin 23] [Fin big; Fin big] Hout Hgene eq_refl
                eq_refl eq_refl) as Hone.
  clear Hout. rewrite Edm in Hone. exact Hone.
Qed.

(** C5, as the code has it.  For plausible groups, before and after the
    shift: when every replicate of the gene under the tested guide is moved
    k cycles further from the reference (its distance from the reference,
    reference - replicate, grows by k) and every other group stays, then
    whenever the cell returns on both inputs, fold_change is positive and
    is multiplied by 2^k: exactly so where the arithmetic is exact, hence
    within the tolerance of the floats.  The cell returns on both inputs
    when the keys of an import are in place and every replicate group is
    tame. *)
Theorem C5_offset_scales_fold_change fl gl
    (cq_dict : gmap string (gmap string (list pyfloat)))
    gene guide file_name guides (hs xs xs' hrs grs : list R) (k : R) :
  gene ≠ "hcaT" → last_file fl gl gene = Some file_name →
  guide ≠ "Rand42_" +:+ substring 0 8 file_name →
  cq_dict !! gene = Some guides →
  lookup2 cq_dict "hcaT" guide = Some (Fin <$> hs) →
  guides !! guide = Some (Fin <$> xs) →
  lookup2 cq_dict "hcaT" ("Rand42_" +:+ substring 0 8 file_name)
    = Some (Fin <$> hrs) →
  guides !! ("Rand42_" +:+ substring 0 8 file_name) = Some (Fin <$> grs) →
  plausible (Fin <$> hs) → plausible (Fin <$> xs) →
  plausible (Fin <$> xs') →
  plausible (Fin <$> hrs) → plausible (Fin <$> grs) →
  Forall2 (λ x x', Rmean hs - x' = (Rmean hs - x) + k)%R xs xs' →
  let cq_dict' := <[gene := <[guide := Fin <$> xs']> guides]> cq_dict in
  (well_keyed fl gl cq_dict = true → all_tame cq_dict →
   is_Ok (relative_expression fl gl cq_dict)
   ∧ is_Ok (relative_expression fl gl cq_dict'))
  ∧ ∀ out out',
      relative_expression fl gl cq_dict = Ok out →
      relative_expression fl gl cq_dict' = Ok out' →
      ∃ lin,
        (0 < lin)%R
        ∧ lookup2 (dd_cq_mean_lin_dict out) gene guide = Some (Fin lin)
        ∧ lookup2 (dd_cq_mean_lin_dict out') gene guide
          = Some (Fin (lin * Rpower 2 k)).
Proof.
  intros Hgene Hlast Hguide Hguides HhcaT Hgroup HhcaT_ref Hgene_ref
    Hhs Hxs Hxs' Hhrs Hgrs Hshift cq_dict'.
  assert (Forall2 (λ x x', x' = x - k)%R xs xs') as Hshift'.
  { eapply Forall2_impl; [done|]. simpl. intros x x' ?. lra. }
  assert (lookup2 cq_dict gene guide = Some (Fin <$> xs)) as Hgroup'
    by by rewrite (lookup2_Some _ _ _ _ Hguides).
  assert (lookup2 cq_dict' "hcaT" guide = Some (Fin <$> hs)) as HhcaT'.
  { unfold cq_dict'. rewrite (lookup2_insert_group _ _ _ _ _ _ _ Hguides).
    by rewrite decide_False by by intros [? _]. }
  assert (lookup2 cq_dict' gene guide = Some (Fin <$> xs')) as Hgroup''.
  { unfold cq_dict'. rewrite (lookup2_insert_group _ _ _ _ _ _ _ Hguides).
    by rewrite decide_True. }
  assert (lookup2 cq_dict' "hcaT" ("Rand42_" +:+ substring 0 8 file_name)
          = Some (Fin <$> hrs)) as HhcaT_ref'.
  { unfold cq_dict'. rewrite (lookup2_insert_group _ _ _ _ _ _ _ Hguides).
    by rewrite decide_False by by intros [? _]. }
  assert (lookup2 cq_dict' gene ("Rand42_" +:+ substring 0 8 file_name)
          = Some (Fin <$> grs)) as Hgene_ref'.
  { unfold cq_dict'. rewrite (lookup2_insert_group _ _ _ _ _ _ _ Hguides).
    rewrite decide_False by (intros [_ ?]; congruence).
    by rewrite (lookup2_Some _ _ _ _ Hguides). }
  split.
  - intros Hkeys Htame. apply well_keyed_keyed in Hkeys. split.
    + apply relative_expression_total; [done|by apply tame_in_range].
    + apply relative_expression_total.
      * apply keyed_insert_group; [done|by eexists|done].
      * apply tame_in_range. intros g gd l. unfold cq_dict'.
        rewrite (lookup2_insert_group _ _ _ _ _ _ _ Hguides).
        case_decide; [|apply Htame]. intros [= <-]. by apply plausible_tame.
  - intros out out' Hout Hout'.
    destruct (relative_expression_lookup fl gl cq_dict out gene guide
                file_name _ Hout Hgene Hlast Hgroup')
      as (h & hr & gr & sem & lin & Hh & Hhr & Hgr & _ & Hlin & _ & _
          & Hlin_mean & _).
    assert (h = Fin <$> hs ∧ hr = Fin <$> hrs ∧ gr = Fin <$> grs)
      as (-> & -> & ->).
    { rewrite (lookup2_Some _ _ _ _ Hguides) in Hgr.
      repeat split; congruence. }
    destruct (relative_expression_lookup fl gl cq_dict' out' gene guide
                file_name _ Hout' Hgene Hlast Hgroup'')
      as (h & hr & gr & sem' & lin' & Hh' & Hhr' & Hgr' & _ & Hlin' & _ & _
          & Hlin_mean' & _).
    assert (h = Fin <$> hs ∧ hr = Fin <$> hrs ∧ gr = Fin <$> grs)
      as (-> & -> & ->) by (repeat split; congruence).
    destruct (plausible_calculator hs xs hrs grs)
      as (e & _ & _ & _ & _ & E & _); [done..|].
    destruct (plausible_calculator hs xs' hrs grs)
      as (e' & _ & _ & _ & _ & E' & _); [done..|].
    rewrite E in Hlin. rewrite E' in Hlin'.
    injection Hlin as <-. injection Hlin' as <-.
    eexists. split; [apply Rpower_2_pos|]. split; [done|].
    rewrite Hlin_mean'. do 2 f_equal.
    destruct (plausible_fmap _ Hxs) as (Hlen & _ & _).
    rewrite (Rmean_shift k xs xs')
      by (by apply length_2_nonempty || done).
    rewrite <- Rpower_plus. f_equal. lra.
Qed.

Lemma C5_witness :
  let cq_dict :=
    example_cq [Fin 23; Fin 23] [Fin 22; Fin 22]
               [Fin 23; Fin 23] [Fin 23; Fin 23] in
  let cq_dict' :=
    example_cq [Fin 23; Fin 23] [Fin 19; Fin 19]
               [Fin 23; Fin 23] [Fin 23; Fin 23] in
  plausible [Fin 19; Fin 19]
  ∧ ∃ out out' lin,
      relative_expression example_files example_genes cq_dict = Ok out
      ∧ relative_expression example_files example_genes cq_dict' = Ok out'
      ∧ (0 < lin)%R
      ∧ lookup2 (dd_cq_mean_lin_dict out) "gene" "gene1_C" = Some (Fin lin)
      ∧ lookup2 (dd_cq_mean_lin_dict out') "gene" "gene1_C"
        = Some (Fin (lin * Rpower 2 3)).
Proof.
  intros cq_dict cq_dict'.
  assert ("gene" ≠ "hcaT") as Hgene by (intros H; by injection H).
  assert ("gene1_C" ≠ "Rand42_" +:+ substring 0 8 "20200806_example.csv")
    as Hguide by (intros H; by injection H).
  assert (Rabs 23 <= 250 ∧ Rabs 22 <= 250 ∧ Rabs 19 <= 250)%R
    as (H23 & H22 & H19) by (rewrite !Rabs_right by lra; lra).
  pose proof (plausible_pair 23 23 H23 H23) as P23.
  pose proof (plausible_pair 22 22 H22 H22) as P22.
  pose proof (plausible_pair 19 19 H19 H19) as P19.
  split; [exact P19|].
  assert (cq_dict'
          = <["gene" := <["gene1_C" := Fin <$> [19; 19]%R]>
               {[ "gene1_C" := [Fin 22; Fin 22]; "gene3_C" := [];
                  "Rand42_20200806" := [Fin 23; Fin 23] ]}]> cq_dict)
    as E by reflexivity.
  destruct (C5_offset_scales_fold_change example_files example_genes cq_dict
              "gene" "gene1_C" "20200806_example.csv"
              {[ "gene1_C" := [Fin 22; Fin 22]; "gene3_C" := [];
                 "Rand42_20200806" := [Fin 23; Fin 23] ]}
              [23; 23]%R [22; 22]%R [19; 19]%R [23; 23]%R [23; 23]%R 3%R
              Hgene eq_refl Hguide eq_refl eq_refl eq_refl eq_refl eq_refl
              P23 P22 P19 P23 P23)
    as [Hreturns Hscale].
  { rewrite Rmean_pair.
    apply Forall2_cons; [split; [lra|]]. apply Forall2_cons; [split; [lra|]].
    apply Forall2_nil. done. }
  rewrite <- E in Hreturns, Hscale.
  destruct Hreturns as [[out Hout] [out' Hout']]; [reflexivity| |].
  { apply example_all_tame; by apply tame_pair. }
  destruct (Hscale out out' Hout Hout') as (lin & Hpos & Hlin & Hlin').
  exists out, out', lin. split; [exact Hout|]. split; [exact Hout'|].
  split; [exact Hpos|]. split; [exact Hlin|exact Hlin'].
Defined.

(** The gene's replicates moved 1100 cycles further from the reference:
    the cell returned before, and raises OverflowError now. *)
Lemma C5_counterexample :
  let cq_dict :=
    example_cq [Fin 23; Fin 23] [Fin 22; Fin 22]
               [Fin 23; Fin 23] [Fin 23; Fin 23] in
  let cq_dict' :=
    example_cq [Fin 23; Fin 23] [Fin (-1078); Fin (-1078)]
               [Fin 23; Fin 23] [Fin 23; Fin 23] in
  Forall2 (λ x x', Rmean [23; 23] - x' = (Rmean [23; 23] - x) + 1100)%R
    [22; 22]%R [-1078; -1078]%R
  ∧ is_Ok (relative_expression example_files example_genes cq_dict)
  ∧ relative_expression example_files example_genes cq_dict'
    = Raise OverflowError.
Proof.
  intros cq_dict cq_dict'.
  assert (Rabs 23 <= 250 ∧ Rabs 22 <= 250)%R as [H23 H22]
    by (rewrite !Rabs_right by lra; lra).
  split; [|split].
  - rewrite Rmean_pair.
    apply Forall2_cons; [split; [lra|]]. apply Forall2_cons; [split; [lra|]].
    apply Forall2_nil. done.
  - apply example_returns_tame; by apply tame_pair.
  - pose proof (pow_R1_Rle 2 1000 ltac:(lra)).
    apply (example_raises _ _ _ _ 1101); [|lra].
    rewrite ddCq_mean_pairs; [f_equal; lra|..];
      try (rewrite Rabs_right by lra; lra).
    + rewrite Rabs_left by lra. lra.
    + rewrite Rabs_left by lra. lra.
Qed.

(** C6, as the code has it.  For four plausible replicate groups (at least
    two and at most a million replicates each, finite and of magnitude at
    most 250), whenever the cell returns, the outputs fold_change and
    fold_change_sem are finite and within the range of a float, fold_change
    is strictly positive and fold_change_sem is not negative.  The cell
    returns when the keys of an import are in place and every replicate
    group is tame. *)
Theorem C6_outputs_finite_positive fl gl
    (cq_dict : gmap string (gmap string (list pyfloat)))
    gene guide file_name hcaT group hcaT_ref gene_ref :
  gene ≠ "hcaT" → last_file fl gl gene = Some file_name →
  lookup2 cq_dict "hcaT" guide = Some hcaT →
  lookup2 cq_dict gene guide = Some group →
  lookup2 cq_dict "hcaT" ("Rand42_" +:+ substring 0 8 file_name)
    = Some hcaT_ref →
  lookup2 cq_dict gene ("Rand42_" +:+ substring 0 8 file_name)
    = Some gene_ref →
  plausible hcaT → plausible group →
  plausible hcaT_ref → plausible gene_ref →
  (well_keyed fl gl cq_dict = true → all_tame cq_dict →
   is_Ok (relative_expression fl gl cq_dict))
  ∧ ∀ out,
      relative_expression fl gl cq_dict = Ok out →
      ∃ lin lin_sem,
        lookup2 (dd_cq_mean_lin_dict out) gene guide = Some (Fin lin)
        ∧ lookup2 (dd_cq_sem_lin_dict out) gene guide = Some (Fin lin_sem)
        ∧ (0 < lin < overflow_threshold)%R
        ∧ (0 <= lin_sem < overflow_threshold)%R.
Proof.
  intros Hgene Hlast HhcaT Hgroup HhcaT_ref Hgene_ref Hph Hpg Hphr Hpgr.
  split.
  - intros Hkeys Htame. apply relative_expression_total.
    + by apply well_keyed_keyed.
    + by apply tame_in_range.
  - intros out Hout.
    destruct (relative_expression_lookup fl gl cq_dict out gene guide
                file_name group Hout Hgene Hlast Hgroup)
      as (h & hr & gr & sem & lin & Hh & Hhr & Hgr & Hsem & Hlin & _ & _
          & Hlin_mean & Hlin_sem).
    assert (h = hcaT ∧ hr = hcaT_ref ∧ gr = gene_ref) as (-> & -> & ->)
      by (repeat split; congruence).
    destruct (plausible_Fin _ Hph) as (hs & -> & _).
    destruct (plausible_Fin _ Hpg) as (gs & -> & _).
    destruct (plausible_Fin _ Hphr) as (hrs & -> & _).
    destruct (plausible_Fin _ Hpgr) as (grs & -> & _).
    destruct (plausible_calculator hs gs hrs grs)
      as (e & Hdd & He & _ & Esem & Elin & Emul); [done..|].
    rewrite Esem in Hsem. rewrite Elin in Hlin.
    injection Hsem as <-. injection Hlin as <-.
    rewrite Emul in Hlin_sem.
    set (dd := ((Rmean hs - Rmean gs) - (Rmean hrs - Rmean grs))%R) in *.
    pose proof (Rpower_2_pos dd) as Hp0.
    pose proof (Rpower_2_le dd) as Hp.
    apply Rabs_le_iff in Hdd. specialize (Hp ltac:(lra)).
    pose proof ln_2_bounds as Hln.
    pose proof overflow_threshold_above as HT.
    eexists _, _. split; [done|]. split; [done|].
    split; [lra|].
    assert (0 <= ln 2 * e <= 3000)%R as [Hle0 Hle].
    { split; [apply Rmult_le_pos; lra|].
      assert (0 <= (1 - ln 2) * e)%R by (apply Rmult_le_pos; lra). lra. }
    assert (0 <= ln 2 * e * Rpower 2 dd <= 3000 * 2 ^ 1000)%R as [? ?].
    { split; [apply Rmult_le_pos; lra|]. apply Rmult_le_compat; lra. }
    lra.
Qed.

Lemma C6_witness :
  let cq_dict :=
    example_cq [Fin 23; Fin 24] [Fin 22; Fin 21]
               [Fin 23; Fin 23] [Fin 20; Fin 23] in
  plausible [Fin 23; Fin 24]
  ∧ ∃ out lin lin_sem,
      relative_expression example_files example_genes cq_dict = Ok out
      ∧ lookup2 (dd_cq_mean_lin_dict out) "gene" "gene1_C" = Some (Fin lin)
      ∧ lookup2 (dd_cq_sem_lin_dict out) "gene" "gene1_C"
        = Some (Fin lin_sem)
      ∧ (0 < lin < overflow_threshold)%R
      ∧ (0 <= lin_sem < overflow_threshold)%R.
Proof.
  intros cq_dict.
  assert ("gene" ≠ "hcaT") as Hgene by (intros H; by injection H).
  assert (Rabs 20 <= 250 ∧ Rabs 21 <= 250 ∧ Rabs 22 <= 250
          ∧ Rabs 23 <= 250 ∧ Rabs 24 <= 250)%R
    as (H20 & H21 & H22 & H23 & H24) by (rewrite !Rabs_right by lra; lra).
  pose proof (plausible_pair 23 24 H23 H24) as Ph.
  pose proof (plausible_pair 22 21 H22 H21) as Pg.
  pose proof (plausible_pair 23 23 H23 H23) as Phr.
  pose proof (plausible_pair 20 23 H20 H23) as Pgr.
  split; [exact Ph|].
  destruct (C6_outputs_finite_positive example_files example_genes cq_dict
              "gene" "gene1_C" "20200806_example.csv"
              [Fin 23; Fin 24] [Fin 22; Fin 21]
              [Fin 23; Fin 23] [Fin 20; Fin 23]
              Hgene eq_refl eq_refl eq_refl eq_refl eq_refl Ph Pg Phr Pgr)
    as [Hreturns Hfinite].
  destruct Hreturns as [out Hout]; [reflexivity| |].
  { apply example_all_tame; by apply tame_pair. }
  destruct (Hfinite out Hout) as (lin & lin_sem & H).
  exists out, lin, lin_sem. exact (conj Hout H).
Defined.

(** Four groups of two finite replicates each: with the Cq values 1100
    for hcaT under the guide and 0 elsewhere, the cell raises
    OverflowError and there is no output; with 1100 for the gene under the
    guide and 0 elsewhere, the cell returns and the fold change is 0.0. *)
Lemma C6_counterexample :
  valid_group [Fin 1100; Fin 1100] = true
  ∧ valid_group [Fin 0; Fin 0] = true
  ∧ relative_expression example_files example_genes
      (example_cq [Fin 1100; Fin 1100] [Fin 0; Fin 0]
                  [Fin 0; Fin 0] [Fin 0; Fin 0])
    = Raise OverflowError
  ∧ ∃ out,
      relative_expression example_files example_genes
        (example_cq [Fin 0; Fin 0] [Fin 1100; Fin 1100]
                    [Fin 0; Fin 0] [Fin 0; Fin 0]) = Ok out
      ∧ lookup2 (dd_cq_mean_lin_dict out) "gene" "gene1_C" = Some (Fin 0).
Proof.
  split; [reflexivity|]. split; [reflexivity|].
  split; [exact example_overflow|exact example_underflow].
Qed.

(** C7, as the code has it.  There is no MalformedRowError, and a row that
    cannot be read as (gene, guide, numeric Cq) does not always fail.  With
    the file's gene list and the tables of its genes in place, a row makes
    the import fail in two cases only: it is too short (fewer than three
    fields, or a gene and fewer than six fields), which raises IndexError;
    or its gene and Cq fields are not empty, its gene is listed, its guide
    is a key of the gene's table and float() rejects the Cq field, which
    raises ValueError.  Every other row is read or skipped without error. *)
Theorem C7_row_failures gl file_date line
    (cq_dict : gmap string (gmap string (list pyfloat))) genes :
  gl !! file_date = Some genes →
  (∀ gene, gene ∈ genes → is_Some (cq_dict !! gene)) →
  (process_line gl file_date line cq_dict = Raise IndexError
   ↔ too_short line)
  ∧ (process_line gl file_date line cq_dict = Raise ValueError
     ↔ bad_cq gl file_date cq_dict line)
  ∧ (is_Ok (process_line gl file_date line cq_dict)
     ↔ ¬ too_short line ∧ ¬ bad_cq gl file_date cq_dict line).
Proof.
  intros Hgl Hdom.
  assert (too_short line → bad_cq gl file_date cq_dict line → False) as Hex.
  { unfold too_short, bad_cq. naive_solver. }
  destruct (process_line_cases gl file_date line cq_dict genes Hgl Hdom)
    as [[Hrun Hshort]|[[Hrun Hbad]|[[cq' Hrun] [Hshort Hbad]]]];
    rewrite Hrun; unfold is_Ok; naive_solver.
Qed.

Lemma C7_witness :
  let cq_dict := example_cq [] [] [] [] in
  let line := "A01,SYBR,gene,Unkn,gene1_C,abc" +:+ newline in
  example_genes !! "20200806" = Some ["hcaT"; "gene"]
  ∧ parses_as_triple line = false
  ∧ process_line example_genes "20200806" line cq_dict = Raise ValueError.
Proof.
  intros cq_dict line. split; [reflexivity|]. split; [reflexivity|].
  apply (C7_row_failures example_genes "20200806" line cq_dict
           ["hcaT"; "gene"]); [reflexivity| |].
  - intros gene Hgene.
    apply elem_of_cons in Hgene as [->|Hgene]; [by eexists|].
    apply list_elem_of_singleton in Hgene as ->. by eexists.
  - exists "gene", "gene1_C", ("abc" +:+ newline), ["hcaT"; "gene"].
    eexists _, []. repeat split; try reflexivity; try done.
    right. by left.
Defined.

(** A row of a no-template control: it cannot be read as (gene, guide,
    numeric Cq), and the import goes on without an error and without a
    change. *)
Lemma C7_counterexample :
  let cq_dict := example_cq [] [] [] [] in
  let line := "H12,SYBR,gene,NTC,NTC,N/A" +:+ newline in
  init_keys example_files example_genes = Ok cq_dict
  ∧ parses_as_triple line = false
  ∧ process_line example_genes "20200806" line cq_dict = Ok cq_dict.
Proof. repeat split; reflexivity. Qed.




(** C9.  The first line of every file is taken as a header before the rows
    are read: whatever it holds, the import gives the same result, and the
    rows read are the lines after it.  A well-formed data row whose gene is
    not in the file's gene list, or whose guide is not a key of the gene's
    table, changes nothing and raises nothing. *)
Theorem C9_header_and_unknown_rows fl gl fs fs' file_date header rows line
    (cq_dict : gmap string (gmap string (list pyfloat)))
    gene guide cq value genes :
  ((∀ path, tail <$> fs !! path = tail <$> fs' !! path) →
   import_data fl gl fs = import_data fl gl fs')
  ∧ read_lines gl file_date (header :: rows) cq_dict
    = for_each rows (process_line gl file_date) cq_dict
  ∧ (fields line !! 2 = Some gene → fields line !! 4 = Some guide →
     fields line !! 5 = Some cq → py_float cq = Some value →
     gl !! file_date = Some genes →
     gene ∉ genes
     ∨ (∃ guides, cq_dict !! gene = Some guides ∧ guides !! guide = None) →
     process_line gl file_date line cq_dict = Ok cq_dict).
Proof.
  split; [|split; [done|]].
  - intros Hsame. unfold import_data.
    destruct (init_keys fl gl) as [cq0|]; simpl; [|done].
    unfold read_files. apply for_each_ext. intros file_name s _.
    specialize (Hsame (input_path +:+ file_name)). unfold open.
    destruct (fs !! (input_path +:+ file_name)) as [lines|],
      (fs' !! (input_path +:+ file_name)) as [lines'|];
      simpl in *; try done.
    unfold read_lines. by injection Hsame as ->.
  - unfold process_line, index, fields.
    intros -> -> -> Hvalue Hgl Hunknown. simpl.
    case_decide; [done|]. case_decide; [done|].
    unfold getitem. rewrite Hgl. simpl.
    destruct Hunknown as [Hgene|(guides & Hguides & Hguide)].
    + by rewrite decide_False.
    + case_decide; [|done]. rewrite Hguides. simpl. by rewrite Hguide.
Qed.

Lemma C9_witness :
  let cq_dict := example_cq [] [] [] [] in
  let line := "B07,SYBR,lacZ,Unkn,lacZ1_C,25.1" +:+ newline in
  let fs' :=
    <["inputs/20200806_example.csv" :=
        [ "A00,SYBR,gene,Unkn,gene1_C,30" +:+ newline;
          "A01,SYBR,gene,Unkn,gene1_C,22" +:+ newline;
          "A02,SYBR,gene,Unkn,gene1_C,22" +:+ newline;
          "A03,SYBR,gene,Unkn,Rand42_20200806,23" +:+ newline;
          "A04,SYBR,gene,Unkn,Rand42_20200806,23" +:+ newline;
          "A05,SYBR,hcaT,Unkn,Rand42_20200806,23" +:+ newline;
          "A06,SYBR,hcaT,Unkn,Rand42_20200806,23" +:+ newline ]]>
      example_rows_no_reference in
  import_data example_files example_genes example_rows_no_reference
  = import_data example_files example_genes fs'
  ∧ py_float ("25.1" +:+ newline) = Some (Fin (251 * / (10 * 1)))
  ∧ process_line example_genes "20200806" line cq_dict = Ok cq_dict.
Proof.
  intros cq_dict line fs'.
  pose proof (C9_header_and_unknown_rows example_files example_genes
                example_rows_no_reference fs' "20200806" "" [] line cq_dict
                "lacZ" "lacZ1_C" ("25.1" +:+ newline)
                (Fin (251 * / (10 * 1))) ["hcaT"; "gene"])
    as (Hheader & _ & Hrow).
  assert (py_float ("25.1" +:+ newline) = Some (Fin (251 * / (10 * 1))))
    as Hvalue by (rewrite <- numeral_25_1; reflexivity).
  split; [|split; [exact Hvalue|]].
  - apply Hheader. intros path.
    destruct (decide (path = "inputs/20200806_example.csv")) as [->|Hne].
    + reflexivity.
    + unfold fs'. by rewrite lookup_insert_ne.
  - apply Hrow; try reflexivity; [exact Hvalue|]. left.
    rewrite !elem_of_cons, elem_of_nil. by intros [?|[?|?]].
Defined.

(** C10.  After the key initialisation, every guide key of the table of a
    gene other than hcaT is a key of hcaT's table.  Reading the files keeps
    it so, and the first two passes of the calculations then return: the
    mean of hcaT under the same guide is there for every dCq the second
    pass computes. *)
Theorem C10_hcaT_has_every_guide fl gl
    (cq_dict : gmap string (gmap string (list pyfloat))) :
  init_keys fl gl = Ok cq_dict →
  (∀ gene guide, gene ≠ "hcaT" →
     is_Some (lookup2 cq_dict gene guide) →
     is_Some (lookup2 cq_dict "hcaT" guide))
  ∧ ∀ fs cq_dict',
      read_files fl gl fs cq_dict = Ok cq_dict' →
      ∃ cq_mean cq_sem d_mean d_sem,
        replicate_stats fl gl cq_dict' = Ok (cq_mean, cq_sem)
        ∧ normalize_hcaT fl gl cq_mean cq_sem = Ok (d_mean, d_sem)
        ∧ ∀ gene guide, gene ≠ "hcaT" →
            is_Some (lookup2 cq_mean gene guide) →
            is_Some (lookup2 cq_mean "hcaT" guide).
Proof.
  intros Hinit. split; [by apply (init_keys_hcaT_covers fl gl)|].
  intros fs cq_dict' Hread.
  assert (keyed fl gl cq_dict') as Hkeyed.
  { apply (read_files_keyed gl fl fl fs cq_dict); [done|].
    by apply init_keys_keyed. }
  destruct (first_passes_total fl gl cq_dict' Hkeyed)
    as (cq_mean & cq_sem & d_mean & d_sem & Hstats & Hd).
  exists cq_mean, cq_sem, d_mean, d_sem. split; [done|]. split; [done|].
  intros gene guide Hgene Hguide.
  pose proof (replicate_stats_lookup fl gl _ _ _ gene Hstats) as Hg.
  pose proof (replicate_stats_lookup fl gl _ _ _ "hcaT" Hstats) as Hh.
  destruct (last_file fl gl gene) as [file_name|] eqn:Hlast.
  2:{ destruct Hg as [Hg _]. rewrite (lookup2_None _ _ _ Hg) in Hguide.
      by destruct Hguide. }
  destruct Hg as (_ & _ & Hg). destruct (Hg guide) as [Hgm _].
  rewrite Hgm, fmap_is_Some in Hguide.
  apply last_file_lists in Hlast as [Hin (genes & Hgl & Hlisted)].
  destruct (Hkeyed file_name Hin) as (genes' & Hgl' & Hgenes).
  assert (genes' = genes) as -> by congruence.
  destruct (Hgenes gene Hlisted) as [_ (_ & [f Hf] & Hcov)]; [done|].
  rewrite Hf in Hh. destruct Hh as (_ & _ & Hh). destruct (Hh guide) as [-> _].
  apply fmap_is_Some. by apply Hcov.
Qed.

Lemma C10_witness :
  init_keys file_list gene_list = Ok notebook_keys
  ∧ keys <$> notebook_keys !! "topA"
    = Some ["Rand42_20200806"; "topA3_C"; "topA1_C"]
  ∧ ∀ gene guide, gene ≠ "hcaT" →
      is_Some (lookup2 notebook_keys gene guide) →
      is_Some (lookup2 notebook_keys "hcaT" guide).
Proof.
  split; [exact notebook_init_keys|]. split; [reflexivity|].
  apply (C10_hcaT_has_every_guide file_list gene_list notebook_keys).
  exact notebook_init_keys.
Defined.

(** * Further properties of the code *)

(** ** Splitting a line *)

Lemma split_on_cons (sep : ascii) (s : string) :
  ∃ field rest, split_on sep s = field :: rest.
Proof.
  induction s as [|c s (field & rest & IH)]; simpl; [by eexists _, _|].
  destruct (Ascii.eqb c sep); [by eexists _, _|].
  rewrite IH. by eexists _, _.
Qed.

Lemma join_with_cons (sep : ascii) (field : string) (l : list string) :
  l ≠ [] →
  join_with sep (field :: l) = field +:+ String sep (join_with sep l).
Proof. by destruct l. Qed.

(** X1.  [line.split(',')] loses nothing: joining the fields with the
    separator gives the line back; no field holds the separator; and there
    is one field more than there are separators in the line, so a line
    always has a field 0. *)
Theorem X1_split_join (sep : ascii) (s : string) :
  join_with sep (split_on sep s) = s
  ∧ Forall (λ field, occurrences sep field = 0) (split_on sep s)
  ∧ length (split_on sep s) = S (occurrences sep s).
Proof.
  induction s as [|c s (IHjoin & IHsep & IHlen)]; simpl.
  - repeat split. by repeat constructor.
  - destruct (split_on_cons sep s) as (field & rest & Hs).
    destruct (Ascii.eqb c sep) eqn:Hc.
    + apply Ascii.eqb_eq in Hc as ->.
      rewrite join_with_cons by by rewrite Hs.
      rewrite IHjoin. split; [done|]. split; [by constructor|].
      simpl. by rewrite IHlen.
    + rewrite Hs in *. split; [|split].
      * destruct rest as [|f rest].
        -- simpl in *. by rewrite IHjoin.
        -- rewrite join_with_cons by done.
           rewrite join_with_cons in IHjoin by done.
           by rewrite <- IHjoin.
      * apply Forall_cons in IHsep as [Hfield Hrest].
        constructor; [|done]. simpl. by rewrite Hc.
      * done.
Qed.

(** ** Reading a number *)

Lemma lstrip_app_nonspace cs cs' :
  lstrip cs ≠ [] → lstrip (cs ++ cs')%list = (lstrip cs ++ cs')%list.
Proof.
  induction cs as [|c cs IH]; simpl; [done|].
  destruct (is_space c); [apply IH|done].
Qed.

Lemma lstrip_all_space cs c :
  lstrip cs = [] → is_space c = true → lstrip (cs ++ [c])%list = [].
Proof.
  induction cs as [|a cs IH]; simpl.
  - by intros _ ->.
  - destruct (is_space a); [apply IH|done].
Qed.

Lemma strip_snoc_space cs c :
  is_space c = true → strip (cs ++ [c])%list = strip cs.
Proof.
  intros Hc. unfold strip.
  destruct (lstrip cs) as [|a cs'] eqn:Hcs.
  - by rewrite (lstrip_all_space cs c Hcs Hc).
  - rewrite lstrip_app_nonspace by by rewrite Hcs.
    rewrite Hcs, rev_app_distr. simpl. by rewrite Hc.
Qed.

Lemma list_ascii_of_string_app s t :
  list_ascii_of_string (s +:+ t)
  = (list_ascii_of_string s ++ list_ascii_of_string t)%list.
Proof. induction s as [|c s IH]; simpl; [done|by rewrite IH]. Qed.

(** X2.  [float] does not see white space around a number: a space, tab or
    line end before or after the text changes neither whether it is read
    nor the value.  The Cq value of a row is read the same when it is the
    last field of its line and carries the newline. *)
Theorem X2_float_ignores_surrounding_space (c : ascii) (s : string) :
  is_space c = true →
  py_float (String c s) = py_float s
  ∧ py_float (s +:+ String c EmptyString) = py_float s.
Proof.
  intros Hc. unfold py_float. split.
  - simpl. unfold strip at 1. simpl. by rewrite Hc.
  - rewrite list_ascii_of_string_app. simpl.
    by rewrite strip_snoc_space.
Qed.

Lemma X2_witness :
  is_space "010"%char = true
  ∧ py_float ("23.5" +:+ newline) = py_float "23.5"
  ∧ py_float "23.5" = Some (Fin (235 * / (10 * 1))).
Proof.
  split; [reflexivity|]. split; [|exact py_float_23_5].
  apply (X2_float_ignores_surrounding_space "010"%char "23.5").
  reflexivity.
Defined.

(** ** Exceptions of loops *)

(** An exception of a loop is an exception of one pass of its body. *)
Lemma for_each_raise {A S} (xs : list A) (body : A → S → result S) (s : S)
    (e : exn) :
  for_each xs body s = Raise e → ∃ x s1, x ∈ xs ∧ body x s1 = Raise e.
Proof.
  revert s. induction xs as [|x xs IH]; intros s; simpl; [done|].
  destruct (body x s) as [s1|e1] eqn:Hx; simpl.
  - intros Hrun. destruct (IH s1 Hrun) as (y & t & Hy & Ht).
    exists y, t. split; [by right|done].
  - intros [= ->]. exists x, s. split; [by left|done].
Qed.

Lemma for_genes_raise {S} fl gl (body : string → string → S → result S)
    (s : S) (e : exn) :
  for_genes fl gl body s = Raise e →
  e = KeyError ∨ ∃ file_date gene s1, body file_date gene s1 = Raise e.
Proof.
  intros Hrun. apply for_each_raise in Hrun as (file_name & s1 & _ & Hrun).
  unfold getitem in Hrun.
  destruct (gl !! substring 0 8 file_name) as [genes|]; simpl in Hrun.
  - apply for_each_raise in Hrun as (gene & s2 & _ & Hrun). right. eauto.
  - left. by injection Hrun.
Qed.

Lemma getitem_raise {V} (d : gmap string V) (k : string) (e : exn) :
  getitem d k = Raise e → e = KeyError.
Proof. unfold getitem. destruct (d !! k); [done|by intros [= <-]]. Qed.

Lemma getitem2_raise {V} (d : gmap string (gmap string V)) k1 k2 (e : exn) :
  getitem2 d k1 k2 = Raise e → e = KeyError.
Proof.
  unfold getitem2. destruct (getitem d k1) as [t|e1] eqn:H1; simpl.
  - apply getitem_raise.
  - intros [= <-]. by apply getitem_raise in H1.
Qed.

Lemma setitem2_raise {V} (d : gmap string (gmap string V)) k1 k2 (v : V)
    (e : exn) :
  setitem2 d k1 k2 v = Raise e → e = KeyError.
Proof.
  unfold setitem2. destruct (getitem d k1) as [t|e1] eqn:H1; simpl; [done|].
  intros [= <-]. by apply getitem_raise in H1.
Qed.

(** Running through, with an invariant, over the genes of all files. *)
Lemma for_genes_total_invariant {S} (P : S → Prop) fl gl
    (body : string → string → S → result S) (s : S) :
  P s →
  (∀ file_name,
     file_name ∈ fl → is_Some (gl !! substring 0 8 file_name)) →
  (∀ file_name genes gene s,
     file_name ∈ fl → gl !! substring 0 8 file_name = Some genes →
     gene ∈ genes → P s →
     ∃ s', body (substring 0 8 file_name) gene s = Ok s' ∧ P s') →
  ∃ s', for_genes fl gl body s = Ok s' ∧ P s'.
Proof.
  intros Hs Hdates Hbody. apply for_each_total; [done|].
  intros file_name t Hin Ht. destruct (Hdates file_name Hin) as [genes Hgl].
  unfold getitem. rewrite Hgl. simpl. apply for_each_total; [done|].
  intros gene u Hgene Hu. by eapply Hbody.
Qed.

(** ** Key initialisation, precisely *)

Lemma setitem2_total {V} (d : gmap string (gmap string V)) k1 k2 (v : V) :
  is_Some (d !! k1) → ∃ d', setitem2 d k1 k2 v = Ok d'.
Proof.
  intros [t Ht]. unfold setitem2, getitem. rewrite Ht. simpl. by eexists.
Qed.

Lemma init_guides_step_total
    (cq_dict : gmap string (gmap string (list pyfloat))) file_date gene :
  is_Some (cq_dict !! gene) → is_Some (cq_dict !! "hcaT") →
  ∃ cq_dict',
    (if decide (gene ≠ "hcaT") then
       cq1 ← setitem2 cq_dict gene (gene +:+ "1_C") [];
       cq2 ← setitem2 cq1 gene (gene +:+ "3_C") [];
       cq3 ← setitem2 cq2 gene ("Rand42_" +:+ file_date) [];
       cq4 ← setitem2 cq3 "hcaT" (gene +:+ "1_C") [];
       cq5 ← setitem2 cq4 "hcaT" (gene +:+ "3_C") [];
       setitem2 cq5 "hcaT" ("Rand42_" +:+ file_date) []
     else Ok cq_dict) = Ok cq_dict'.
Proof.
  intros Hgene HhcaT. case_decide; [|by eexists].
  repeat match goal with
         | |- ∃ _, mbind _ (setitem2 ?d ?k1 ?k2 ?v) = _ =>
             let d' := fresh "cq" in
             let Hd := fresh "Hcq" in
             destruct (setitem2_total d k1 k2 v) as [d' Hd]; [done|];
             rewrite Hd; simpl;
             pose proof (proj2 (setitem2_dom _ _ _ _ _ gene Hd) Hgene);
             pose proof (proj2 (setitem2_dom _ _ _ _ _ "hcaT" Hd) HhcaT);
             clear Hgene HhcaT;
             match goal with
             | Hg : is_Some (d' !! gene), Hh : is_Some (d' !! "hcaT") |- _ =>
                 rename Hg into Hgene; rename Hh into HhcaT
             end
         end.
  by apply setitem2_total.
Qed.

Lemma init_genes_total fl gl :
  (∀ file_name,
     file_name ∈ fl → is_Some (gl !! substring 0 8 file_name)) →
  is_Ok (init_genes fl gl).
Proof.
  intros Hdates.
  destruct (for_genes_total_invariant (λ _, True) fl gl
              (λ _ gene (cq_dict : gmap string (gmap string (list pyfloat))),
                 Ok (<[gene := ∅]> cq_dict)) ∅)
    as (cq & Hcq & _); [done|done| |by exists cq].
  intros. by eexists.
Qed.

Lemma init_keys_raise fl gl (e : exn) :
  init_keys fl gl = Raise e → e = KeyError.
Proof.
  intros Hinit. unfold init_keys in Hinit.
  destruct (init_genes fl gl) as [cq0|e0] eqn:Hgenes; simpl in Hinit.
  - apply for_genes_raise in Hinit as [->|(d & g & s & Hstep)]; [done|].
    case_decide; [|done].
    repeat match type of Hstep with
           | mbind _ ?r = Raise _ =>
               let E := fresh "E" in
               destruct r eqn:E; simpl in Hstep;
               [|injection Hstep as <-; by eapply setitem2_raise]
           end.
    by eapply setitem2_raise.
  - injection Hinit as <-.
    apply for_genes_raise in Hgenes as [->|(d & g & s & Hstep)]; done.
Qed.

(** X3.  The key initialisation returns exactly when every file's date is a
    key of the gene lists and, if any gene other than hcaT is listed, hcaT
    is listed too.  When it does not return, the exception is KeyError. *)
Theorem X3_init_keys_returns_iff fl gl :
  (is_Ok (init_keys fl gl)
   ↔ (∀ file_name, file_name ∈ fl →
        is_Some (gl !! substring 0 8 file_name))
     ∧ ((∃ file_name gene, file_name ∈ fl ∧ lists gl gene file_name
                           ∧ gene ≠ "hcaT") →
        ∃ file_name, file_name ∈ fl ∧ lists gl "hcaT" file_name))
  ∧ ∀ e, init_keys fl gl = Raise e → e = KeyError.
Proof.
  split; [split|].
  - intros [cq_dict Hinit].
    pose proof (init_keys_keyed fl gl cq_dict Hinit) as Hkeyed.
    apply bind_Ok_inv in Hinit as (cq0 & Hgenes & Hguides). split.
    + intros file_name Hin. by eapply for_genes_listed.
    + intros (file_name & gene & Hin & (genes & Hgl & Hgene) & Hne).
      destruct (Hkeyed file_name Hin) as (genes' & Hgl' & Hg).
      assert (genes' = genes) as -> by congruence.
      destruct (Hg gene Hgene) as [_ (_ & [f Hf] & _)]; [done|].
      exists f. by apply last_file_lists in Hf.
  - intros [Hdates HhcaT]. unfold init_keys.
    destruct (init_genes_total fl gl Hdates) as [cq0 Hgenes].
    rewrite Hgenes. simpl.
    destruct (for_genes_total_invariant
                (λ s : gmap string (gmap string (list pyfloat)),
                   ∀ g, is_Some (s !! g) ↔ is_Some (cq0 !! g))
                fl gl
                (λ file_date gene cq_dict,
                   if decide (gene ≠ "hcaT") then
                     cq_dict ← setitem2 cq_dict gene (gene +:+ "1_C") [];
                     cq_dict ← setitem2 cq_dict gene (gene +:+ "3_C") [];
                     cq_dict ←
                       setitem2 cq_dict gene ("Rand42_" +:+ file_date) [];
                     cq_dict ← setitem2 cq_dict "hcaT" (gene +:+ "1_C") [];
                     cq_dict ← setitem2 cq_dict "hcaT" (gene +:+ "3_C") [];
                     setitem2 cq_dict "hcaT" ("Rand42_" +:+ file_date) []
                   else Ok cq_dict) cq0)
      as (cq & Hcq & _); [done|done| |by exists cq].
    intros file_name genes gene s Hin Hgl Hgene Hs.
    destruct (decide (gene = "hcaT")) as [->|Hne].
    + rewrite decide_False by (by intros []). by eexists.
    + destruct (init_guides_step_total s (substring 0 8 file_name) gene)
        as [s' Hs'].
      * apply Hs. by eapply init_genes_listed.
      * apply Hs. destruct HhcaT as (f & Hf & (gs & Hgs & Hh)).
        { exists file_name, gene. split; [done|]. split; [|done].
          by exists genes. }
        by eapply init_genes_listed.
      * exists s'. split; [done|]. intros g.
        apply init_guides_step in Hs' as (_ & Hdom & _).
        by rewrite Hdom.
  - apply init_keys_raise.
Qed.

Lemma X3_witness :
  is_Ok (init_keys file_list gene_list)
  ∧ init_keys ["20200806_x.csv"] {["20200806" := ["topA"]]} = Raise KeyError
  ∧ init_keys ["20200101_x.csv"] gene_list = Raise KeyError.
Proof.
  split; [|split; [|reflexivity]].
  - exists notebook_keys. exact notebook_init_keys.
  - destruct (X3_init_keys_returns_iff ["20200806_x.csv"]
                {["20200806" := ["topA"]]}) as [_ Hraise].
    destruct (init_keys ["20200806_x.csv"] {["20200806" := ["topA"]]})
      as [cq|e] eqn:E; [by vm_compute in E|].
    by rewrite (Hraise e).
Defined.

Lemma init_guides_step_groups
    (cq_dict cq_dict' : gmap string (gmap string (list pyfloat)))
    file_date gene g k l :
  (if decide (gene ≠ "hcaT") then
     cq1 ← setitem2 cq_dict gene (gene +:+ "1_C") [];
     cq2 ← setitem2 cq1 gene (gene +:+ "3_C") [];
     cq3 ← setitem2 cq2 gene ("Rand42_" +:+ file_date) [];
     cq4 ← setitem2 cq3 "hcaT" (gene +:+ "1_C") [];
     cq5 ← setitem2 cq4 "hcaT" (gene +:+ "3_C") [];
     setitem2 cq5 "hcaT" ("Rand42_" +:+ file_date) []
   else Ok cq_dict) = Ok cq_dict' →
  lookup2 cq_dict' g k = Some l → l = [] ∨ lookup2 cq_dict g k = Some l.
Proof.
  case_decide; [|intros [= <-]; by right].
  intros Hrun.
  apply bind_Ok_inv in Hrun as (cq1 & H1 & Hrun).
  apply bind_Ok_inv in Hrun as (cq2 & H2 & Hrun).
  apply bind_Ok_inv in Hrun as (cq3 & H3 & Hrun).
  apply bind_Ok_inv in Hrun as (cq4 & H4 & Hrun).
  apply bind_Ok_inv in Hrun as (cq5 & H5 & H6).
  rewrite (setitem2_lookup2 _ _ _ _ _ g k H6),
    (setitem2_lookup2 _ _ _ _ _ g k H5), (setitem2_lookup2 _ _ _ _ _ g k H4),
    (setitem2_lookup2 _ _ _ _ _ g k H3), (setitem2_lookup2 _ _ _ _ _ g k H2),
    (setitem2_lookup2 _ _ _ _ _ g k H1).
  repeat case_decide; intros Hl; (by right) || (left; congruence).
Qed.

Lemma import_data_same_keys fl gl fs
    (cq_dict cq_dict' : gmap string (gmap string (list pyfloat)))
    gene guide :
  init_keys fl gl = Ok cq_dict → import_data fl gl fs = Ok cq_dict' →
  is_Some (lookup2 cq_dict' gene guide)
  ↔ is_Some (lookup2 cq_dict gene guide).
Proof.
  intros Hinit Himport. unfold import_data in Himport.
  rewrite Hinit in Himport. simpl in Himport. revert Himport.
  apply (for_each_invariant
           (λ s : gmap string (gmap string (list pyfloat)),
              is_Some (lookup2 s gene guide)
              ↔ is_Some (lookup2 cq_dict gene guide))); [done|].
  intros file_name s s' _ Hs Hfile.
  apply bind_Ok_inv in Hfile as (lines & _ & Hlines). revert Hlines.
  apply (for_each_invariant
           (λ s : gmap string (gmap string (list pyfloat)),
              is_Some (lookup2 s gene guide)
              ↔ is_Some (lookup2 cq_dict gene guide))); [done|].
  intros line t t' _ Ht Hline.
  apply process_line_keys in Hline as [_ Hline]. by rewrite <- Hline.
Qed.

Lemma init_keys_expected fl gl cq_dict gene guide :
  init_keys fl gl = Ok cq_dict →
  is_Some (lookup2 cq_dict gene guide) ↔ expected_key fl gl gene guide.
Proof.
  intros Hinit.
  apply bind_Ok_inv in Hinit as (cq0 & Hgenes & Hguides). split.
  - revert Hguides.
    apply (for_genes_invariant
             (λ s : gmap string (gmap string (list pyfloat)),
                is_Some (lookup2 s gene guide)
                → expected_key fl gl gene guide)).
    { rewrite (init_genes_empty fl gl cq0 gene guide Hgenes).
      by intros []. }
    intros file_name genes g s s' Hin Hgl Hg IH Hstep.
    apply init_guides_step in Hstep as (_ & _ & Hstep).
    rewrite Hstep. intros [Hold|(Hne & Hgene & Hguide)]; [by apply IH|].
    by exists file_name, genes, g.
  - intros (file_name & genes & g & Hin & Hgl & Hg & Hne & Hgene & Hguide).
    revert Hguides.
    apply (for_genes_establish
             (λ s : gmap string (gmap string (list pyfloat)),
                is_Some (lookup2 s gene guide))
             _ _ _ _ _ file_name genes g); [done..| |].
    + intros s s' Hstep.
      apply init_guides_step in Hstep as (_ & _ & Hstep).
      apply Hstep. by right.
    + intros f gs g' s s' _ _ _ IH Hstep.
      apply init_guides_step in Hstep as (_ & _ & Hstep).
      apply Hstep. by left.
Qed.

(** X4.  The groups the key initialisation creates: a gene has a guide key
    exactly when some pass of the second loop gave it one (its own three
    guides for a gene other than hcaT, the guides of every other gene for
    hcaT), and every group starts empty.  Reading the files keeps this set
    of keys: no row ever creates a group. *)
Theorem X4_groups_created fl gl fs cq_dict :
  init_keys fl gl = Ok cq_dict →
  (∀ gene guide,
     (is_Some (lookup2 cq_dict gene guide) ↔ expected_key fl gl gene guide)
     ∧ ∀ group, lookup2 cq_dict gene guide = Some group → group = [])
  ∧ ∀ cq_dict', import_data fl gl fs = Ok cq_dict' →
      ∀ gene guide,
        is_Some (lookup2 cq_dict' gene guide) ↔ expected_key fl gl gene guide.
Proof.
  intros Hinit.
  assert (∀ gene guide,
            is_Some (lookup2 cq_dict gene guide)
            ↔ expected_key fl gl gene guide) as Hkeys
    by (intros gene guide; by apply init_keys_expected).
  split.
  - intros gene guide. split; [done|].
    apply bind_Ok_inv in Hinit as (cq0 & Hgenes & Hguides). revert Hguides.
    apply (for_genes_invariant
             (λ s : gmap string (gmap string (list pyfloat)),
                ∀ group, lookup2 s gene guide = Some group → group = [])).
    { intros group.
      by rewrite (init_genes_empty fl gl cq0 gene guide Hgenes). }
    intros f gs g s s' _ _ _ IH Hstep group Hgroup.
    destruct (init_guides_step_groups _ _ _ _ _ _ _ Hstep Hgroup);
      [done|by apply IH].
  - intros cq_dict' Himport gene guide. rewrite <- Hkeys.
    by apply (import_data_same_keys fl gl fs).
Qed.

Lemma X4_witness :
  init_keys file_list gene_list = Ok notebook_keys
  ∧ (is_Some (lookup2 notebook_keys "hcaT" "ribB3_C")
     ↔ expected_key file_list gene_list "hcaT" "ribB3_C")
  ∧ lookup2 notebook_keys "hcaT" "ribB3_C" = Some [].
Proof.
  split; [exact notebook_init_keys|].
  destruct (X4_groups_created file_list gene_list ∅ notebook_keys
              notebook_init_keys) as [Hkeys _].
  destruct (Hkeys "hcaT" "ribB3_C") as [Hiff Hempty].
  split; [exact Hiff|]. reflexivity.
Defined.

(** ** The import, row by row *)

Lemma process_line_group gl file_date line
    (cq_dict cq_dict' : gmap string (gmap string (list pyfloat)))
    genes gene guide :
  gl !! file_date = Some genes →
  process_line gl file_date line cq_dict = Ok cq_dict' →
  lookup2 cq_dict' gene guide
  = if decide (gene ∈ genes)
    then (λ group, group ++ option_list (reads_into gene guide line))%list
           <$> lookup2 cq_dict gene guide
    else lookup2 cq_dict gene guide.
Proof.
  intros Hgl.
  assert (∀ o : option (list pyfloat), (λ group, group ++ [])%list <$> o = o)
    as Hid.
  { intros [group|]; simpl; [by rewrite app_nil_r|done]. }
  assert (∀ cq_dict' : gmap string (gmap string (list pyfloat)),
            reads_into gene guide line = None →
            lookup2 cq_dict' gene guide = lookup2 cq_dict gene guide →
            lookup2 cq_dict' gene guide
            = if decide (gene ∈ genes)
              then (λ group,
                      group ++ option_list (reads_into gene guide line))%list
                     <$> lookup2 cq_dict gene guide
              else lookup2 cq_dict gene guide) as Hskip.
  { intros cq' -> ->. simpl. rewrite Hid.
    by destruct (decide (gene ∈ genes)). }
  unfold process_line, index. fold (fields line).
  destruct (fields line !! 2) as [sp2|] eqn:H2; simpl; [|done].
  destruct (decide (sp2 = "")) as [Hsp2|Hsp2].
  { intros [= <-]. apply Hskip; [|done]. unfold reads_into. rewrite H2.
    destruct (fields line !! 4), (fields line !! 5); try done.
    apply decide_False. naive_solver. }
  destruct (fields line !! 5) as [sp5|] eqn:H5; simpl; [|done].
  destruct (lookup_5_4_2 _ _ H5) as [_ [sp4 H4]]. rewrite H4.
  assert (reads_into gene guide line
          = if decide (sp2 = gene ∧ sp4 = guide ∧ sp2 ≠ "" ∧ sp5 ≠ "")
            then py_float sp5 else None) as Hreads.
  { unfold reads_into. by rewrite H2, H4, H5. }
  destruct (decide (sp5 = "")) as [Hsp5|Hsp5].
  { intros [= <-]. apply Hskip; [|done]. rewrite Hreads.
    apply decide_False. naive_solver. }
  unfold getitem. rewrite Hgl. simpl.
  destruct (decide (sp2 ∈ genes)) as [Hgene|Hgene]; simpl.
  2:{ intros [= <-]. destruct (decide (gene = sp2)) as [->|Hne].
      - by rewrite decide_False.
      - apply Hskip; [|done]. rewrite Hreads. apply decide_False.
        naive_solver. }
  destruct (cq_dict !! sp2) as [guides|] eqn:Hguides; simpl; [|done].
  destruct (guides !! sp4) as [replicates|] eqn:Hrep.
  - unfold float_of. destruct (py_float sp5) as [cq|] eqn:Hcq; simpl; [|done].
    intros [= <-]. rewrite (lookup2_insert_group _ _ _ _ _ _ _ Hguides).
    destruct (decide (gene = sp2 ∧ guide = sp4)) as [[-> ->]|Hne].
    + rewrite Hreads, !decide_True by done.
      unfold lookup2. rewrite Hguides. simpl. by rewrite Hrep.
    + apply Hskip; [|done]. rewrite Hreads. apply decide_False. naive_solver.
  - intros [= <-]. destruct (decide (gene ∈ genes)); [|done].
    destruct (lookup2 cq_dict gene guide) as [group|] eqn:Hgroup; [|done].
    simpl. rewrite Hreads. rewrite decide_False; [by rewrite app_nil_r|].
    intros (-> & -> & _). unfold lookup2 in Hgroup.
    rewrite Hguides in Hgroup. simpl in Hgroup. congruence.
Qed.

Lemma process_lines_group gl file_date lines
    (cq_dict cq_dict' : gmap string (gmap string (list pyfloat)))
    genes gene guide :
  gl !! file_date = Some genes →
  for_each lines (process_line gl file_date) cq_dict = Ok cq_dict' →
  lookup2 cq_dict' gene guide
  = if decide (gene ∈ genes)
    then (λ group, group ++ omap (reads_into gene guide) lines)%list
           <$> lookup2 cq_dict gene guide
    else lookup2 cq_dict gene guide.
Proof.
  intros Hgl. revert cq_dict.
  induction lines as [|line lines IH]; intros cq_dict; simpl.
  - intros [= <-]. destruct (decide (gene ∈ genes)); [|done].
    destruct (lookup2 cq_dict gene guide); simpl; [by rewrite app_nil_r|done].
  - intros Hrun. apply bind_Ok_inv in Hrun as (cq1 & Hline & Hrun).
    rewrite (IH _ Hrun),
      (process_line_group _ _ _ _ _ _ gene guide Hgl Hline).
    destruct (decide (gene ∈ genes)); [|done].
    destruct (lookup2 cq_dict gene guide) as [group|]; simpl; [|done].
    destruct (reads_into gene guide line); simpl;
      by rewrite <- app_assoc.
Qed.

Lemma read_files_group fl gl fs
    (cq_dict cq_dict' : gmap string (gmap string (list pyfloat)))
    gene guide :
  (∀ file_name,
     file_name ∈ fl → is_Some (gl !! substring 0 8 file_name)) →
  read_files fl gl fs cq_dict = Ok cq_dict' →
  lookup2 cq_dict' gene guide
  = (λ group, group ++ rows_read fl gl fs gene guide)%list
      <$> lookup2 cq_dict gene guide.
Proof.
  unfold read_files, rows_read. revert cq_dict.
  induction fl as [|file_name fl IH]; intros cq_dict Hdates; simpl.
  - intros [= <-].
    destruct (lookup2 cq_dict gene guide); simpl; [by rewrite app_nil_r|done].
  - intros Hrun. apply bind_Ok_inv in Hrun as (cq1 & Hfile & Hrun).
    rewrite (IH cq1) by (try done; intros f Hf; apply Hdates; by right).
    apply bind_Ok_inv in Hfile as (lines & Hopen & Hlines).
    unfold open in Hopen.
    destruct (fs !! (input_path +:+ file_name)) as [lines'|] eqn:Hfs;
      [|done].
    injection Hopen as ->. simpl.
    destruct (Hdates file_name) as [genes Hgl]; [by left|].
    rewrite (process_lines_group _ _ _ _ _ _ gene guide Hgl Hlines).
    destruct (decide (gene ∈ genes)) as [Hgene|Hgene].
    + rewrite decide_True by (by exists genes).
      destruct (lookup2 cq_dict gene guide); simpl; [|done].
      by rewrite <- app_assoc.
    + rewrite decide_False; [done|].
      intros (genes' & Hgl' & Hin). congruence.
Qed.

(** X5.  What the import puts into a group: the Cq values of the rows that
    name the gene in field 2 and the guide in field 4, with both the gene
    and the Cq field non-empty, of the files whose gene list has the gene;
    in the order of the files and, in a file, of the rows after the
    header. *)
Theorem X5_import_reads_rows_in_order fl gl fs cq_dict gene guide group :
  import_data fl gl fs = Ok cq_dict →
  lookup2 cq_dict gene guide = Some group →
  group = rows_read fl gl fs gene guide.
Proof.
  intros Himport Hgroup.
  apply bind_Ok_inv in Himport as (cq0 & Hinit & Hread).
  assert (∀ file_name, file_name ∈ fl
                       → is_Some (gl !! substring 0 8 file_name)) as Hdates.
  { apply bind_Ok_inv in Hinit as (cq & Hgenes & _).
    intros file_name Hin. by eapply for_genes_listed. }
  rewrite (read_files_group _ _ _ _ _ gene guide Hdates Hread) in Hgroup.
  destruct (lookup2 cq0 gene guide) as [group0|] eqn:Hgroup0; [|done].
  injection Hgroup as <-.
  assert (group0 = []) as ->; [|done].
  apply bind_Ok_inv in Hinit as (cq & Hgenes & Hguides).
  revert Hguides group0 Hgroup0.
  apply (for_genes_invariant
           (λ s : gmap string (gmap string (list pyfloat)),
              ∀ group, lookup2 s gene guide = Some group → group = [])).
  { intros l. by rewrite (init_genes_empty fl gl cq gene guide Hgenes). }
  intros f gs g s s' _ _ _ IH Hstep l Hl.
  destruct (init_guides_step_groups _ _ _ _ _ _ _ Hstep Hl);
    [done|by apply IH].
Qed.

Lemma X5_witness :
  import_data example_files example_genes example_rows_no_reference
  = Ok (example_cq [] [Fin (22 * 1); Fin (22 * 1)]
          [Fin (23 * 1); Fin (23 * 1)] [Fin (23 * 1); Fin (23 * 1)])
  ∧ [Fin (22 * 1); Fin (22 * 1)]
    = rows_read example_files example_genes example_rows_no_reference
        "gene" "gene1_C".
Proof.
  split; [exact example_import_no_reference|].
  apply (X5_import_reads_rows_in_order example_files example_genes
           example_rows_no_reference
           (example_cq [] [Fin (22 * 1); Fin (22 * 1)]
              [Fin (23 * 1); Fin (23 * 1)] [Fin (23 * 1); Fin (23 * 1)]));
    [exact example_import_no_reference|reflexivity].
Defined.

(** ** Where the exceptions of the import come from *)

Lemma for_each_raise_invariant {A S} (P : S → Prop) (xs : list A)
    (body : A → S → result S) (s : S) (e : exn) :
  P s →
  (∀ x s s', x ∈ xs → P s → body x s = Ok s' → P s') →
  for_each xs body s = Raise e →
  ∃ x s1, x ∈ xs ∧ P s1 ∧ body x s1 = Raise e.
Proof.
  revert s. induction xs as [|x xs IH]; intros s Hs Hkeep; simpl; [done|].
  destruct (body x s) as [s1|e1] eqn:Hx; simpl.
  - intros Hrun. destruct (IH s1) as (y & t & Hy & Ht & Hraise); [| |done|].
    + eapply Hkeep; [by left|done..].
    + intros z u u' Hz. apply Hkeep. by right.
    + exists y, t. split; [by right|done].
  - intros [= ->]. exists x, s. split; [by left|done].
Qed.

Lemma process_line_raise fl gl file_name line
    (cq_dict : gmap string (gmap string (list pyfloat))) (e : exn) :
  keyed fl gl cq_dict → file_name ∈ fl →
  process_line gl (substring 0 8 file_name) line cq_dict = Raise e →
  (e = IndexError ∧ too_short line)
  ∨ (e = ValueError
     ∧ ∃ cq,
         fields line !! 5 = Some cq ∧ cq ≠ "" ∧ py_float cq = None).
Proof.
  intros Hkeyed Hin Hraise.
  destruct (Hkeyed file_name Hin) as (genes & Hgl & Hgenes).
  destruct (process_line_cases gl (substring 0 8 file_name) line cq_dict
              genes Hgl) as [[Hrun Hshort]|[[Hrun Hbad]|[[cq' Hrun] _]]].
  - intros gene Hgene. by apply Hgenes.
  - left. split; [congruence|done].
  - right. split; [congruence|].
    destruct Hbad as (gene & guide & cq & gs & guides & replicates & Hbad).
    exists cq. naive_solver.
  - congruence.
Qed.

(** X6.  An exception of the import tells its cause.  KeyError comes from
    the key initialisation alone (a date missing from the gene lists, or
    hcaT never listed); IOError from a file of the list that cannot be
    opened; IndexError from a row after the header that ends before a field
    the loop reads; ValueError from a row whose non-empty Cq field is
    rejected by [float].  The import raises no OverflowError: [float] reads
    a numeral out of range as an infinity or as zero. *)
Theorem X6_import_exceptions fl gl fs (e : exn) :
  import_data fl gl fs = Raise e →
  match e with
  | KeyError => init_keys fl gl = Raise KeyError
  | IOError =>
      ∃ file_name,
        file_name ∈ fl ∧ fs !! (input_path +:+ file_name) = None
  | IndexError =>
      ∃ file_name lines line,
        file_name ∈ fl ∧ fs !! (input_path +:+ file_name) = Some lines
        ∧ line ∈ tail lines ∧ too_short line
  | ValueError =>
      ∃ file_name lines line cq,
        file_name ∈ fl ∧ fs !! (input_path +:+ file_name) = Some lines
        ∧ line ∈ tail lines ∧ fields line !! 5 = Some cq ∧ cq ≠ ""
        ∧ py_float cq = None
  | OverflowError => False
  end.
Proof.
  unfold import_data.
  destruct (init_keys fl gl) as [cq0|e0] eqn:Hinit; simpl.
  2:{ intros [= <-]. by rewrite (init_keys_raise _ _ _ Hinit). }
  intros Hread.
  apply (for_each_raise_invariant (keyed fl gl)) in Hread
    as (file_name & cq1 & Hin & Hkeyed & Hfile).
  - unfold open in Hfile.
    destruct (fs !! (input_path +:+ file_name)) as [lines|] eqn:Hfs;
      simpl in Hfile.
    + apply (for_each_raise_invariant (keyed fl gl)) in Hfile
        as (line & cq2 & Hline & Hkeyed2 & Hraise); [|done|].
      * apply (process_line_raise fl gl) in Hraise
          as [[-> Hshort]|[-> (cq & H5 & Hcq & Hfloat)]]; [| |done..].
        -- by exists file_name, lines, line.
        -- by exists file_name, lines, line, cq.
      * intros l t t' _ Ht Hl. apply process_line_keys in Hl as [Hdom Hk].
        by apply (keyed_same_keys fl gl t t').
    + injection Hfile as <-. by exists file_name.
  - by apply init_keys_keyed.
  - intros f t t' _ Ht Hf.
    apply bind_Ok_inv in Hf as (lines & _ & Hlines). revert Hlines.
    apply (for_each_invariant (keyed fl gl)); [done|].
    intros line u u' _ Hu Hline.
    apply process_line_keys in Hline as [Hdom Hk].
    by apply (keyed_same_keys fl gl u u').
Qed.

Lemma X6_witness :
  import_data example_files example_genes ∅ = Raise IOError
  ∧ ∃ file_name,
      file_name ∈ example_files
      ∧ (∅ : gmap string (list string)) !! (input_path +:+ file_name)
        = None.
Proof.
  split; [reflexivity|].
  apply (X6_import_exceptions example_files example_genes ∅ IOError).
  reflexivity.
Defined.

(** ** Well correction *)

(** X7.  The well correction needs nothing but a table for hcaT: without
    one it raises KeyError; with one it returns, the group of hcaT under
    Rand42_20200806 is the two values written in the cell whatever the files
    held (and whether the group was there or not), every other group is
    untouched, and no gene is added or lost. *)
Theorem X7_well_correction_overrides_one_group
    (cq_dict : gmap string (gmap string (list pyfloat))) :
  match cq_dict !! "hcaT" with
  | None => well_correction cq_dict = Raise KeyError
  | Some _ =>
      ∃ cq_dict',
        well_correction cq_dict = Ok cq_dict'
        ∧ (∀ gene, is_Some (cq_dict' !! gene) ↔ is_Some (cq_dict !! gene))
        ∧ ∀ gene guide,
            lookup2 cq_dict' gene guide
            = if decide (gene = "hcaT" ∧ guide = "Rand42_20200806")
              then Some [Fin 23.48359183; Fin 23.68555433]
              else lookup2 cq_dict gene guide
  end.
Proof.
  destruct (cq_dict !! "hcaT") as [guides|] eqn:HhcaT.
  - destruct (setitem2_total cq_dict "hcaT" "Rand42_20200806"
                [Fin 23.48359183; Fin 23.68555433]) as [cq_dict' Hset];
      [by eexists|].
    exists cq_dict'. split; [done|]. split.
    + intros gene. by apply (setitem2_dom _ _ _ _ _ gene Hset).
    + intros gene guide. by apply (setitem2_lookup2 _ _ _ _ _ gene guide Hset).
  - unfold well_correction, setitem2, getitem. by rewrite HhcaT.
Qed.

(** ** Exceptions of the calculations *)

Lemma keys_loop_raise {V} (P : exn → Prop) (guides : list string)
    (body : string → gmap string V * gmap string V →
            result (gmap string V * gmap string V))
    (s : gmap string V * gmap string V) (e : exn) :
  (∀ guide s e, body guide s = Raise e → P e) →
  for_each guides body s = Raise e → P e.
Proof.
  intros Hbody Hrun.
  apply for_each_raise in Hrun as (guide & s1 & _ & Hrun). by eapply Hbody.
Qed.

(** Goes through the steps of a body that has raised: a lookup raises
    KeyError, a square or a power of two OverflowError, and [math.sqrt] of
    a sum of two squares raises nothing. *)
Ltac raise_steps H :=
  repeat match type of H with
         | mbind _ (getitem2 ?d ?k1 ?k2) = Raise _ =>
             let E := fresh "E" in
             destruct (getitem2 d k1 k2) eqn:E; simpl in H;
             [|injection H as <-;
               first [by eapply getitem2_raise
                     |left; by eapply getitem2_raise]]
         | mbind _ (getitem ?d ?k) = Raise _ =>
             let E := fresh "E" in
             destruct (getitem d k) eqn:E; simpl in H;
             [|injection H as <-;
               first [by eapply getitem_raise
                     |left; by eapply getitem_raise]]
         | mbind _ (py_square ?x) = Raise _ =>
             let E := fresh "E" in
             destruct (py_square x) eqn:E; simpl in H;
             [|injection H as <-; right; by eapply py_square_raise]
         | mbind _ (math_pow2 ?x) = Raise _ =>
             let E := fresh "E" in
             destruct (math_pow2 x) eqn:E; simpl in H;
             [|injection H as <-; right; by eapply math_pow2_raise]
         | mbind _ (math_sqrt _) = Raise _ =>
             first
               [rewrite math_sqrt_root_sum_squares in H
               |rewrite math_sqrt_not_negative in H
                  by (apply fadd_not_negative;
                      by eapply py_square_not_negative)];
             simpl in H
         end.

Lemma gene_stats_raise cq_dict gene (e : exn) :
  gene_stats cq_dict gene = Raise e → e = KeyError.
Proof.
  unfold gene_stats. intros Hrun. raise_steps Hrun. revert Hrun.
  apply (keys_loop_raise (λ e, e = KeyError)).
  intros guide [means sems] e' Hbody. by raise_steps Hbody.
Qed.

Lemma gene_d_cq_raise cq_mean cq_sem gene (e : exn) :
  gene_d_cq cq_mean cq_sem gene = Raise e → e = KeyError.
Proof.
  unfold gene_d_cq. intros Hrun. raise_steps Hrun. revert Hrun.
  apply (keys_loop_raise (λ e, e = KeyError)).
  intros guide [means sems] e' Hbody. by raise_steps Hbody.
Qed.

Lemma gene_dd_cq_raise d_mean d_sem file_date gene (e : exn) :
  gene_dd_cq d_mean d_sem file_date gene = Raise e →
  e = KeyError ∨ e = OverflowError.
Proof.
  unfold gene_dd_cq. intros Hrun. raise_steps Hrun. revert Hrun.
  apply (keys_loop_raise (λ e, e = KeyError ∨ e = OverflowError)).
  intros guide [means sems] e' Hbody. by raise_steps Hbody.
Qed.

Lemma gene_lin_raise dd_mean dd_sem gene (e : exn) :
  gene_lin dd_mean dd_sem gene = Raise e →
  e = KeyError ∨ e = OverflowError.
Proof.
  unfold gene_lin. intros Hrun. raise_steps Hrun. revert Hrun.
  apply (keys_loop_raise (λ e, e = KeyError ∨ e = OverflowError)).
  intros guide [means sems] e' Hbody. by raise_steps Hbody.
Qed.

Lemma pass_raise {V} (P : exn → Prop) fl gl
    (body : string → string →
            gmap string (gmap string V) * gmap string (gmap string V) →
            result (gmap string (gmap string V) * gmap string (gmap string V)))
    s (e : exn) :
  P KeyError →
  (∀ file_date gene s e, body file_date gene s = Raise e → P e) →
  for_genes fl gl body s = Raise e → P e.
Proof.
  intros HKeyError Hbody Hrun.
  apply for_genes_raise in Hrun as [->|(d & g & s1 & Hrun)]; [done|].
  by eapply Hbody.
Qed.

(** The cell raises KeyError or OverflowError, and nothing else. *)
Lemma relative_expression_raise_any fl gl
    (cq_dict : gmap string (gmap string (list pyfloat))) (e : exn) :
  relative_expression fl gl cq_dict = Raise e →
  e = KeyError ∨ e = OverflowError.
Proof.
  unfold relative_expression. intros Hrun.
  destruct (replicate_stats fl gl cq_dict) as [[cq_mean cq_sem]|e1] eqn:H1;
    simpl in Hrun.
  2:{ injection Hrun as <-. left. revert H1.
      apply (pass_raise (λ e, e = KeyError)); [done|].
      intros d g [ms ss] e' Hbody.
      destruct (gene_stats cq_dict g) as [[? ?]|] eqn:Hg; [done|].
      injection Hbody as <-. by eapply gene_stats_raise. }
  destruct (normalize_hcaT fl gl cq_mean cq_sem) as [[d_mean d_sem]|e2]
    eqn:H2; simpl in Hrun.
  2:{ injection Hrun as <-. left. revert H2.
      apply (pass_raise (λ e, e = KeyError)); [done|].
      intros d g [ms ss] e' Hbody. case_decide; [|done].
      destruct (gene_d_cq cq_mean cq_sem g) as [[? ?]|] eqn:Hg; [done|].
      injection Hbody as <-. by eapply gene_d_cq_raise. }
  destruct (normalize_Rand42 fl gl d_mean d_sem) as [[dd_mean dd_sem]|e3]
    eqn:H3; simpl in Hrun.
  2:{ injection Hrun as <-. revert H3.
      apply (pass_raise (λ e, e = KeyError ∨ e = OverflowError));
        [by left|].
      intros d g [ms ss] e' Hbody. case_decide; [|done].
      destruct (gene_dd_cq d_mean d_sem d g) as [[? ?]|] eqn:Hg; [done|].
      injection Hbody as <-. by eapply gene_dd_cq_raise. }
  destruct (linearize fl gl dd_mean dd_sem) as [[lin_mean lin_sem]|e4]
    eqn:H4; simpl in Hrun; [done|].
  injection Hrun as <-. revert H4.
  apply (pass_raise (λ e, e = KeyError ∨ e = OverflowError)); [by left|].
  intros d g [ms ss] e' Hbody. case_decide; [|done].
  destruct (gene_lin dd_mean dd_sem g) as [[? ?]|] eqn:Hg; [done|].
  injection Hbody as <-. by eapply gene_lin_raise.
Qed.

(** X8.  The calculations raise KeyError, for a key the import did not
    create, or OverflowError, for the square of a Python float or a power
    of two out of the range of a float, and nothing else.  In particular
    [math.sqrt] never raises ValueError here (its argument is a sum of two
    squares), and nothing divides by zero with an exception: the
    statistics of a short group are NaN values.  With the keys of an import
    in place no lookup fails, and OverflowError is all that is raised. *)
Theorem X8_calculations_raise_KeyError_or_OverflowError fl gl cq_dict
    (e : exn) :
  relative_expression fl gl cq_dict = Raise e →
  (e = KeyError ∨ e = OverflowError)
  ∧ (keyed fl gl cq_dict → e = OverflowError).
Proof.
  intros Hrun. split.
  - by apply (relative_expression_raise_any fl gl cq_dict).
  - intros Hkeyed. by apply (relative_expression_raise fl gl cq_dict).
Qed.

Lemma X8_witness :
  relative_expression example_files example_genes ∅ = Raise KeyError
  ∧ relative_expression example_files example_genes
      (example_cq [Fin 1100; Fin 1100] [Fin 0; Fin 0]
                  [Fin 0; Fin 0] [Fin 0; Fin 0])
    = Raise OverflowError
  ∧ (KeyError = KeyError ∨ KeyError = OverflowError)
  ∧ (OverflowError = KeyError ∨ OverflowError = OverflowError).
Proof.
  assert (relative_expression example_files example_genes ∅
          = Raise KeyError) as HKeyError by (vm_compute; reflexivity).
  split; [exact HKeyError|]. split; [exact example_overflow|].
  split.
  - exact (proj1 (X8_calculations_raise_KeyError_or_OverflowError
                    example_files example_genes ∅ KeyError HKeyError)).
  - exact (proj1 (X8_calculations_raise_KeyError_or_OverflowError
                    example_files example_genes _ OverflowError
                    example_overflow)).
Defined.

(** ** The entries of the result dictionaries *)

Lemma listed_last_file_iff fl gl gene :
  listed fl gl gene ↔ is_Some (last_file fl gl gene).
Proof.
  split.
  - intros (file_name & Hin & Hlists). by eapply last_file_is_Some.
  - intros [file_name Hlast]. exists file_name. by apply last_file_lists.
Qed.

Lemma pass_not_hcaT_absent {V W}
    (F : string → string → result (gmap string V * gmap string W))
    fl gl (means_dict : gmap string (gmap string V))
    (sems_dict : gmap string (gmap string W)) gene :
  for_genes fl gl (λ file_date gene '(means_dict, sems_dict),
    if decide (gene ≠ "hcaT") then
      '(means, sems) ← F file_date gene;
      Ok (<[gene := means]> means_dict, <[gene := sems]> sems_dict)
    else Ok (means_dict, sems_dict)) (∅, ∅)
  = Ok (means_dict, sems_dict) →
  ¬ (gene ≠ "hcaT" ∧ listed fl gl gene) →
  means_dict !! gene = None ∧ sems_dict !! gene = None.
Proof.
  intros Hrun Hnot. apply (pass_not_hcaT_lookup F _ _ _ _ gene) in Hrun.
  destruct (last_file fl gl gene) as [file_name|] eqn:Hlast; [|done].
  case_decide as Hgene; [|done]. destruct Hnot. split; [done|].
  apply listed_last_file_iff. by eexists.
Qed.

Lemma replicate_entries fl gl cq_dict out gene guide :
  relative_expression fl gl cq_dict = Ok out →
  (is_Some (lookup2 (cq_mean_dict out) gene guide)
   ↔ listed fl gl gene ∧ is_Some (lookup2 cq_dict gene guide))
  ∧ (is_Some (lookup2 (cq_sem_dict out) gene guide)
     ↔ listed fl gl gene ∧ is_Some (lookup2 cq_dict gene guide)).
Proof.
  intros Hrun. unfold relative_expression in Hrun.
  apply bind_Ok_inv in Hrun as ([cq_mean cq_sem] & Hstats & Hrun).
  apply bind_Ok_inv in Hrun as ([d_mean d_sem] & _ & Hrun).
  apply bind_Ok_inv in Hrun as ([dd_mean dd_sem] & _ & Hrun).
  apply bind_Ok_inv in Hrun as ([lin_mean lin_sem] & _ & [= <-]).
  simpl. rewrite listed_last_file_iff.
  pose proof (replicate_stats_lookup fl gl _ _ _ gene Hstats) as Hs.
  destruct (last_file fl gl gene) as [file_name|] eqn:Hlast.
  - destruct Hs as (_ & _ & Hs). destruct (Hs guide) as [-> ->].
    rewrite !fmap_is_Some. split; split; try tauto;
      (split; [by eexists|done]).
  - destruct Hs as [Hm Hs].
    rewrite (lookup2_None _ _ _ Hm), (lookup2_None _ _ _ Hs).
    split; split; (by intros []) || (by intros [[] _]).
Qed.

Lemma normalised_entries fl gl cq_dict out gene guide :
  relative_expression fl gl cq_dict = Ok out →
  let group :=
    gene ≠ "hcaT" ∧ listed fl gl gene
    ∧ is_Some (lookup2 cq_dict gene guide) in
  (is_Some (lookup2 (d_cq_mean_dict out) gene guide) ↔ group)
  ∧ (is_Some (lookup2 (d_cq_sem_dict out) gene guide) ↔ group)
  ∧ (is_Some (lookup2 (dd_cq_mean_dict out) gene guide) ↔ group)
  ∧ (is_Some (lookup2 (dd_cq_sem_dict out) gene guide) ↔ group)
  ∧ (is_Some (lookup2 (dd_cq_mean_lin_dict out) gene guide) ↔ group)
  ∧ (is_Some (lookup2 (dd_cq_sem_lin_dict out) gene guide) ↔ group).
Proof.
  intros Hrun group. subst group.
  destruct (replicate_entries fl gl cq_dict out gene guide Hrun)
    as [Hmean _].
  unfold relative_expression in Hrun.
  apply bind_Ok_inv in Hrun as ([cq_mean cq_sem] & Hstats & Hrun).
  apply bind_Ok_inv in Hrun as ([d_mean d_sem] & Hd & Hrun).
  apply bind_Ok_inv in Hrun as ([dd_mean dd_sem] & Hdd & Hrun).
  apply bind_Ok_inv in Hrun as ([lin_mean lin_sem] & Hlin & [= <-]).
  simpl in *. rewrite listed_last_file_iff in *.
  destruct (decide (gene ≠ "hcaT" ∧ is_Some (last_file fl gl gene)))
    as [[Hgene Hlisted]|Hnot].
  - destruct Hlisted as [file_name Hlast].
    assert (is_Some (last_file fl gl gene)) as Hsome by by eexists.
    destruct (normalize_hcaT_lookup fl gl _ _ _ _ gene guide Hd Hgene Hsome)
      as [_ Hd'].
    destruct (normalize_Rand42_lookup fl gl _ _ _ _ gene guide file_name
                Hdd Hgene Hlast) as [_ Hdd'].
    pose proof (linearize_lookup fl gl _ _ _ _ gene guide Hlin Hgene Hsome)
      as Hlin'.
    destruct (lookup2 cq_mean gene guide) as [m|] eqn:Hm.
    + assert (is_Some (lookup2 cq_dict gene guide)) as Hgroup
        by (apply Hmean; by eexists).
      destruct Hd' as (? & ? & ? & _ & _ & _ & Hdm & Hds).
      rewrite Hdm in Hdd'.
      destruct Hdd' as (? & ? & ? & ? & _ & _ & _ & _ & Hddm & Hdds).
      rewrite Hddm in Hlin'. destruct Hlin' as (? & ? & _ & _ & Hlm & Hls).
      rewrite Hdm, Hds, Hddm, Hdds, Hlm, Hls.
      split_and!; (split; [done|by eexists]).
    + assert (¬ is_Some (lookup2 cq_dict gene guide)) as Hgroup.
      { intros Hg. destruct Hmean as [_ Hmean].
        destruct Hmean as [? ?]; [done|done]. }
      destruct Hd' as [Hdm Hds]. rewrite Hdm in Hdd'.
      destruct Hdd' as [Hddm Hdds]. rewrite Hddm in Hlin'.
      destruct Hlin' as [Hlm Hls].
      rewrite Hdm, Hds, Hddm, Hdds, Hlm, Hls.
      split_and!; (split; [by intros []|by intros (_ & _ & ?)]).
  - rewrite <- listed_last_file_iff in Hnot.
    destruct (pass_not_hcaT_absent (λ _, gene_d_cq cq_mean cq_sem)
                _ _ _ _ gene Hd Hnot) as [Hdm Hds].
    destruct (pass_not_hcaT_absent (gene_dd_cq d_mean d_sem)
                _ _ _ _ gene Hdd Hnot) as [Hddm Hdds].
    destruct (pass_not_hcaT_absent (λ _, gene_lin dd_mean dd_sem)
                _ _ _ _ gene Hlin Hnot) as [Hlm Hls].
    rewrite (lookup2_None _ _ _ Hdm), (lookup2_None _ _ _ Hds),
      (lookup2_None _ _ _ Hddm), (lookup2_None _ _ _ Hdds),
      (lookup2_None _ _ _ Hlm), (lookup2_None _ _ _ Hls).
    rewrite <- listed_last_file_iff.
    split_and!; (split; [by intros []|intros (? & ? & _); by destruct Hnot]).
Qed.

(** X9.  Which entries the eight dictionaries of the calculations have.
    The mean and the SEM of the replicates have an entry for every group of
    every listed gene.  The six normalised dictionaries (dCq, ddCq and the
    linear scale, mean and SEM) have an entry for every group of every
    listed gene but hcaT: the reference gene is never normalised to itself,
    and the groups of a gene that no file lists are never looked at. *)
Theorem X9_result_entries fl gl cq_dict out gene guide :
  relative_expression fl gl cq_dict = Ok out →
  let group := listed fl gl gene ∧ is_Some (lookup2 cq_dict gene guide) in
  (is_Some (lookup2 (cq_mean_dict out) gene guide) ↔ group)
  ∧ (is_Some (lookup2 (cq_sem_dict out) gene guide) ↔ group)
  ∧ (is_Some (lookup2 (d_cq_mean_dict out) gene guide)
     ↔ gene ≠ "hcaT" ∧ group)
  ∧ (is_Some (lookup2 (d_cq_sem_dict out) gene guide)
     ↔ gene ≠ "hcaT" ∧ group)
  ∧ (is_Some (lookup2 (dd_cq_mean_dict out) gene guide)
     ↔ gene ≠ "hcaT" ∧ group)
  ∧ (is_Some (lookup2 (dd_cq_sem_dict out) gene guide)
     ↔ gene ≠ "hcaT" ∧ group)
  ∧ (is_Some (lookup2 (dd_cq_mean_lin_dict out) gene guide)
     ↔ gene ≠ "hcaT" ∧ group)
  ∧ (is_Some (lookup2 (dd_cq_sem_lin_dict out) gene guide)
     ↔ gene ≠ "hcaT" ∧ group).
Proof.
  intros Hrun group. subst group.
  destruct (replicate_entries fl gl cq_dict out gene guide Hrun)
    as [Hmean Hsem].
  destruct (normalised_entries fl gl cq_dict out gene guide Hrun)
    as (Hd_mean & Hd_sem & Hdd_mean & Hdd_sem & Hlin_mean & Hlin_sem).
  split; [exact Hmean|]. split; [exact Hsem|].
  split; [exact Hd_mean|]. split; [exact Hd_sem|].
  split; [exact Hdd_mean|]. split; [exact Hdd_sem|].
  split; [exact Hlin_mean|exact Hlin_sem].
Qed.

Lemma X9_witness :
  let cq_dict :=
    example_cq [Fin 23; Fin 23] [Fin 22; Fin 22]
               [Fin 23; Fin 23] [Fin 23; Fin 23] in
  ∃ out,
    relative_expression example_files example_genes cq_dict = Ok out
    ∧ (is_Some (lookup2 (cq_mean_dict out) "hcaT" "gene1_C")
       ↔ listed example_files example_genes "hcaT"
         ∧ is_Some (lookup2 cq_dict "hcaT" "gene1_C"))
    ∧ (is_Some (lookup2 (dd_cq_mean_lin_dict out) "hcaT" "gene1_C")
       ↔ "hcaT" ≠ "hcaT"
         ∧ listed example_files example_genes "hcaT"
         ∧ is_Some (lookup2 cq_dict "hcaT" "gene1_C")).
Proof.
  intros cq_dict.
  assert (Rabs 23 <= 250 ∧ Rabs 22 <= 250)%R as [H23 H22]
    by (rewrite !Rabs_right by lra; lra).
  destruct (example_returns_tame [Fin 23; Fin 23] [Fin 22; Fin 22]
              [Fin 23; Fin 23] [Fin 23; Fin 23]) as [out Hout];
    [by apply tame_pair..|].
  exists out. split; [exact Hout|].
  destruct (X9_result_entries example_files example_genes cq_dict out
              "hcaT" "gene1_C" Hout) as (Hmean & _ & _ & _ & _ & _ & Hlin & _).
  exact (conj Hmean Hlin).
Defined.

(** X10.  The intermediate dictionaries.  For a group of a listed gene,
    cq_mean_dict and cq_sem_dict hold numpy's mean and scipy's SEM of the
    group; for a gene other than hcaT, d_cq_mean_dict holds the mean of
    hcaT's group under the same guide minus the mean of the gene's group,
    and d_cq_sem_dict the root of the sum of the squares of the two SEMs. *)
Theorem X10_intermediate_dictionaries fl gl cq_dict out gene guide group :
  relative_expression fl gl cq_dict = Ok out →
  listed fl gl gene →
  lookup2 cq_dict gene guide = Some group →
  lookup2 (cq_mean_dict out) gene guide = Some (np_mean group)
  ∧ lookup2 (cq_sem_dict out) gene guide = Some (stats_sem group)
  ∧ (gene ≠ "hcaT" →
     ∃ hcaT,
       lookup2 cq_dict "hcaT" guide = Some hcaT
       ∧ lookup2 (d_cq_mean_dict out) gene guide
         = Some (fsub (np_mean hcaT) (np_mean group))
       ∧ lookup2 (d_cq_sem_dict out) gene guide
         = Some (np_sqrt (fadd (fsquare (stats_sem hcaT))
                               (fsquare (stats_sem group))))).
Proof.
  intros Hrun Hlisted Hgroup. unfold relative_expression in Hrun.
  apply bind_Ok_inv in Hrun as ([cq_mean cq_sem] & Hstats & Hrun).
  apply bind_Ok_inv in Hrun as ([d_mean d_sem] & Hd & Hrun).
  apply bind_Ok_inv in Hrun as ([dd_mean dd_sem] & Hdd & Hrun).
  apply bind_Ok_inv in Hrun as ([lin_mean lin_sem] & Hlin & [= <-]).
  simpl. apply listed_last_file_iff in Hlisted.
  pose proof (replicate_stats_lookup fl gl _ _ _ gene Hstats) as Hs.
  destruct Hlisted as [file_name Hlast]. rewrite Hlast in Hs.
  destruct Hs as (_ & _ & Hs). destruct (Hs guide) as [-> ->].
  rewrite Hgroup. split; [done|]. split; [done|]. intros Hgene.
  pose proof (d_cq_lookup fl gl cq_dict _ _ _ _ gene guide Hstats Hd Hgene)
    as Hd'.
  rewrite Hgroup in Hd'. destruct Hd' as (hcaT & HhcaT & Hm & Hsem);
    [by eexists|].
  by exists hcaT.
Qed.

Lemma X10_witness :
  let cq_dict :=
    example_cq [Fin 23; Fin 23] [Fin 22; Fin 22]
               [Fin 23; Fin 23] [Fin 23; Fin 23] in
  ∃ out,
    relative_expression example_files example_genes cq_dict = Ok out
    ∧ lookup2 (cq_mean_dict out) "hcaT" "gene1_C"
      = Some (np_mean [Fin 23; Fin 23])
    ∧ lookup2 (cq_sem_dict out) "hcaT" "gene1_C"
      = Some (stats_sem [Fin 23; Fin 23]).
Proof.
  intros cq_dict.
  assert (Rabs 23 <= 250 ∧ Rabs 22 <= 250)%R as [H23 H22]
    by (rewrite !Rabs_right by lra; lra).
  destruct (example_returns_tame [Fin 23; Fin 23] [Fin 22; Fin 22]
              [Fin 23; Fin 23] [Fin 23; Fin 23]) as [out Hout];
    [by apply tame_pair..|].
  exists out. split; [exact Hout|].
  destruct (X10_intermediate_dictionaries example_files example_genes
              cq_dict out "hcaT" "gene1_C" [Fin 23; Fin 23] Hout)
    as (Hmean & Hsem & _).
  - exists "20200806_example.csv". split; [by left|].
    exists ["hcaT"; "gene"]. split; [reflexivity|by left].
  - reflexivity.
  - exact (conj Hmean Hsem).
Defined.

(** ** A replicate that is not a number *)



(** ** The bars of the figure *)

Lemma for_genes_flat {S} fl gl (F : string → S → result S) (s : S) :
  (∀ file_name,
     file_name ∈ fl → is_Some (gl !! substring 0 8 file_name)) →
  for_genes fl gl (λ _ gene s,
    if decide (gene = "hcaT") then Ok s else F gene s) s
  = for_each (target_genes fl gl) F s.
Proof.
  unfold for_genes, target_genes. revert s.
  induction fl as [|file_name fl IH]; intros s Hdates; [done|].
  rewrite bind_cons, for_each_app. simpl.
  destruct (Hdates file_name) as [genes Hgl]; [by left|].
  unfold getitem. rewrite Hgl. simpl.
  assert (∀ t, for_each genes (λ gene s,
                 if decide (gene = "hcaT") then Ok s else F gene s) t
               = for_each (filter (λ gene, gene ≠ "hcaT") genes) F t)
    as ->.
  { clear. induction genes as [|gene genes IH]; intros t; [done|].
    rewrite filter_cons. simpl. destruct (decide (gene = "hcaT")) as [->|Hne].
    - rewrite decide_False by (by intros []). apply IH.
    - rewrite decide_True by done. simpl.
      destruct (F gene t); simpl; [apply IH|done]. }
  destruct (for_each _ F s); simpl; [|done].
  apply IH. intros f Hf. apply Hdates. by right.
Qed.

Lemma gene_bars_loop out gene guides qPCR_mean qPCR_sem labels
    qPCR_mean' qPCR_sem' labels' :
  for_each guides (λ guide '(qPCR_mean, qPCR_sem, labels),
    if String.prefix "Rand42" guide then Ok (qPCR_mean, qPCR_sem, labels)
    else
      mean ← getitem2 (dd_cq_mean_lin_dict out) gene guide;
      sem ← getitem2 (dd_cq_sem_lin_dict out) gene guide;
      Ok ((qPCR_mean ++ [mean])%list, (qPCR_sem ++ [sem])%list,
          (labels ++ [guide])%list)) (qPCR_mean, qPCR_sem, labels)
  = Ok (qPCR_mean', qPCR_sem', labels') →
  let plotted :=
    filter (λ guide, String.prefix "Rand42" guide = false) guides in
  ∃ means sems,
    qPCR_mean' = (qPCR_mean ++ means)%list
    ∧ qPCR_sem' = (qPCR_sem ++ sems)%list
    ∧ labels' = (labels ++ plotted)%list
    ∧ Forall2 (λ guide mean,
                 lookup2 (dd_cq_mean_lin_dict out) gene guide = Some mean)
        plotted means
    ∧ Forall2 (λ guide sem,
                 lookup2 (dd_cq_sem_lin_dict out) gene guide = Some sem)
        plotted sems.
Proof.
  revert qPCR_mean qPCR_sem labels.
  induction guides as [|guide guides IH]; intros ms ss ls; simpl.
  - intros [= <- <- <-]. exists [], []. by rewrite !app_nil_r.
  - rewrite filter_cons.
    destruct (String.prefix "Rand42" guide) eqn:Hprefix; simpl.
    + apply IH.
    + destruct (getitem2 (dd_cq_mean_lin_dict out) gene guide) as [mean|]
        eqn:Hmean; simpl; [|done].
      destruct (getitem2 (dd_cq_sem_lin_dict out) gene guide) as [sem|]
        eqn:Hsem; simpl; [|done].
      intros Hrun. destruct (IH _ _ _ Hrun) as (means & sems & IHrun).
      destruct IHrun as (-> & -> & -> & Hmeans & Hsems).
      exists (mean :: means), (sem :: sems).
      rewrite <- !app_assoc. apply getitem2_lookup2 in Hmean, Hsem.
      split; [done|]. split; [done|]. split; [done|].
      split; by constructor.
Qed.

Lemma gene_bars_loop_total out gene guides
    (bars : list pyfloat * list pyfloat * list string) :
  (∀ guide, guide ∈ guides →
     is_Some (lookup2 (dd_cq_mean_lin_dict out) gene guide)
     ∧ is_Some (lookup2 (dd_cq_sem_lin_dict out) gene guide)) →
  is_Ok (for_each guides (λ guide '(qPCR_mean, qPCR_sem, labels),
    if String.prefix "Rand42" guide then Ok (qPCR_mean, qPCR_sem, labels)
    else
      mean ← getitem2 (dd_cq_mean_lin_dict out) gene guide;
      sem ← getitem2 (dd_cq_sem_lin_dict out) gene guide;
      Ok ((qPCR_mean ++ [mean])%list, (qPCR_sem ++ [sem])%list,
          (labels ++ [guide])%list)) bars).
Proof.
  intros Hkeys.
  destruct (for_each_total (λ _, True) guides
              (λ guide '(qPCR_mean, qPCR_sem, labels),
                 if String.prefix "Rand42" guide
                 then Ok (qPCR_mean, qPCR_sem, labels)
                 else
                   mean ← getitem2 (dd_cq_mean_lin_dict out) gene guide;
                   sem ← getitem2 (dd_cq_sem_lin_dict out) gene guide;
                   Ok ((qPCR_mean ++ [mean])%list, (qPCR_sem ++ [sem])%list,
                       (labels ++ [guide])%list)) bars)
    as (bars' & H & _); [done| |by exists bars'].
  intros guide [[ms ss] ls] Hin _. simpl.
  destruct (String.prefix "Rand42" guide); [by eexists|].
  destruct (Hkeys guide Hin) as [[mean Hmean] [sem Hsem]].
  apply getitem2_lookup2 in Hmean, Hsem. rewrite Hmean, Hsem. by eexists.
Qed.

Lemma figure_bars_loop out genes qPCR_mean qPCR_sem labels
    qPCR_mean' qPCR_sem' labels' :
  for_each genes (gene_bars out) (qPCR_mean, qPCR_sem, labels)
  = Ok (qPCR_mean', qPCR_sem', labels') →
  ∃ means sems,
    qPCR_mean' = (qPCR_mean ++ means)%list
    ∧ qPCR_sem' = (qPCR_sem ++ sems)%list
    ∧ labels' = (labels ++ (bar_keys genes out).*2)%list
    ∧ Forall2 (λ '(gene, guide) mean,
                 lookup2 (dd_cq_mean_lin_dict out) gene guide = Some mean)
        (bar_keys genes out) means
    ∧ Forall2 (λ '(gene, guide) sem,
                 lookup2 (dd_cq_sem_lin_dict out) gene guide = Some sem)
        (bar_keys genes out) sems.
Proof.
  revert qPCR_mean qPCR_sem labels.
  induction genes as [|gene genes IH]; intros ms ss ls.
  - intros [= <- <- <-]. exists [], []. by rewrite !app_nil_r.
  - cbn [for_each]. intros Hrun.
    apply bind_Ok_inv in Hrun as ([[ms1 ss1] ls1] & Hgene & Hrun).
    unfold gene_bars in Hgene.
    apply bind_Ok_inv in Hgene as (guides & Hguides & Hgene).
    apply getitem_Ok in Hguides.
    apply gene_bars_loop in Hgene
      as (means1 & sems1 & -> & -> & -> & Hmeans1 & Hsems1).
    destruct (IH _ _ _ Hrun) as (means & sems & -> & -> & -> & Hmeans & Hsems).
    exists (means1 ++ means)%list, (sems1 ++ sems)%list.
    unfold bar_keys. rewrite bind_cons, Hguides. simpl.
    fold (bar_keys genes out).
    rewrite fmap_app, <- list_fmap_compose, <- !app_assoc.
    split; [done|]. split; [done|]. split.
    { do 2 f_equal. by rewrite list_fmap_id. }
    split; (apply Forall2_app; [by apply Forall2_fmap_l|done]).
Qed.

Lemma elem_of_target_genes fl gl gene :
  gene ∈ target_genes fl gl ↔ gene ≠ "hcaT" ∧ listed fl gl gene.
Proof.
  unfold target_genes, listed, lists. rewrite list_elem_of_bind. split.
  - intros (file_name & Hgene & Hin).
    apply list_elem_of_filter in Hgene as [Hne Hgene]. split; [done|].
    exists file_name. split; [done|].
    destruct (gl !! substring 0 8 file_name) as [genes|];
      [by exists genes|by apply elem_of_nil in Hgene].
  - intros (Hne & file_name & Hin & genes & Hgl & Hgene).
    exists file_name. split; [|done]. apply list_elem_of_filter.
    by rewrite Hgl.
Qed.

Lemma relative_expression_dates fl gl cq_dict out file_name :
  relative_expression fl gl cq_dict = Ok out → file_name ∈ fl →
  is_Some (gl !! substring 0 8 file_name).
Proof.
  intros Hrun Hin. unfold relative_expression in Hrun.
  apply bind_Ok_inv in Hrun as ([cq_mean cq_sem] & Hstats & _).
  by eapply for_genes_listed.
Qed.

Lemma gene_bars_total fl gl cq_dict out gene bars :
  relative_expression fl gl cq_dict = Ok out →
  gene ∈ target_genes fl gl → is_Ok (gene_bars out gene bars).
Proof.
  intros Hrun Hgene. apply elem_of_target_genes in Hgene as [Hne Hlisted].
  pose proof (normalised_entries fl gl cq_dict out gene) as Hentries.
  unfold gene_bars, getitem.
  apply listed_last_file_iff in Hlisted as Hlast.
  destruct Hlast as [file_name Hlast].
  assert (is_Some (dd_cq_mean_dict out !! gene)) as [guides Hguides].
  { unfold relative_expression in Hrun.
    apply bind_Ok_inv in Hrun as ([cq_mean cq_sem] & _ & Hrun).
    apply bind_Ok_inv in Hrun as ([d_mean d_sem] & _ & Hrun).
    apply bind_Ok_inv in Hrun as ([dd_mean dd_sem] & Hdd & Hrun).
    apply bind_Ok_inv in Hrun as ([lin_mean lin_sem] & _ & [= <-]).
    simpl.
    by destruct (normalize_Rand42_lookup fl gl _ _ _ _ gene "" file_name
                   Hdd Hne Hlast). }
  rewrite Hguides. simpl. apply gene_bars_loop_total.
  intros guide Hguide. apply elem_of_keys in Hguide.
  rewrite <- (lookup2_Some _ _ _ _ Hguides) in Hguide.
  destruct (Hentries guide Hrun) as (_ & _ & Hdd & _ & Hlm & Hls).
  split; [apply Hlm|apply Hls]; by apply Hdd.
Qed.

Lemma figure_bars_returns fl gl cq_dict out :
  relative_expression fl gl cq_dict = Ok out →
  ∃ qPCR_mean qPCR_sem labels,
    figure_bars fl gl out = Ok (qPCR_mean, qPCR_sem, labels)
    ∧ labels = (bar_keys (target_genes fl gl) out).*2
    ∧ Forall2 (λ '(gene, guide) mean,
                 lookup2 (dd_cq_mean_lin_dict out) gene guide = Some mean)
        (bar_keys (target_genes fl gl) out) qPCR_mean
    ∧ Forall2 (λ '(gene, guide) sem,
                 lookup2 (dd_cq_sem_lin_dict out) gene guide = Some sem)
        (bar_keys (target_genes fl gl) out) qPCR_sem.
Proof.
  intros Hrun. unfold figure_bars.
  rewrite (for_genes_flat fl gl (gene_bars out))
    by (intros f Hf; by eapply relative_expression_dates).
  destruct (for_each_total (λ _, True) (target_genes fl gl) (gene_bars out)
              ([], [], [])) as ([[ms ss] ls] & Hbars & _); [done| |].
  { intros gene bars Hgene _.
    destruct (gene_bars_total fl gl cq_dict out gene bars Hrun Hgene)
      as [bars' Hbars'].
    by exists bars'. }
  exists ms, ss, ls. split; [done|].
  apply figure_bars_loop in Hbars as (means & sems & -> & -> & -> & H).
  by rewrite !app_nil_l.
Qed.

(** X14.  The figure.  After the calculations the plotting loop raises
    nothing.  It makes one bar for every guide, other than the Rand42
    ones, of every gene other than hcaT, gene after gene in the order of
    the files and their gene lists: the label is the guide, the height the
    gene's fold change under the guide and the error bar its SEM.  So the
    three lists have the same length and no label starts with Rand42. *)
Theorem X14_figure_bars fl gl cq_dict out :
  relative_expression fl gl cq_dict = Ok out →
  ∃ qPCR_mean qPCR_sem labels,
    figure_bars fl gl out = Ok (qPCR_mean, qPCR_sem, labels)
    ∧ labels = (bar_keys (target_genes fl gl) out).*2
    ∧ Forall2 (λ '(gene, guide) mean,
                 lookup2 (dd_cq_mean_lin_dict out) gene guide = Some mean)
        (bar_keys (target_genes fl gl) out) qPCR_mean
    ∧ Forall2 (λ '(gene, guide) sem,
                 lookup2 (dd_cq_sem_lin_dict out) gene guide = Some sem)
        (bar_keys (target_genes fl gl) out) qPCR_sem
    ∧ length qPCR_mean = length labels
    ∧ length qPCR_sem = length labels
    ∧ Forall (λ label, String.prefix "Rand42" label = false) labels.
Proof.
  intros Hrun.
  destruct (figure_bars_returns fl gl cq_dict out Hrun)
    as (ms & ss & ls & Hbars & -> & Hmeans & Hsems).
  exists ms, ss, ((bar_keys (target_genes fl gl) out).*2).
  split; [done|]. split; [done|]. split; [done|]. split; [done|].
  rewrite length_fmap.
  split; [symmetry; by eapply Forall2_length|].
  split; [symmetry; by eapply Forall2_length|].
  apply Forall_forall. intros label Hlabel.
  apply list_elem_of_fmap in Hlabel as ([gene guide] & -> & Hbar).
  unfold bar_keys in Hbar.
  apply list_elem_of_bind in Hbar as (g & Hbar & _).
  apply list_elem_of_fmap in Hbar as (k & [= -> ->] & Hk).
  by apply list_elem_of_filter in Hk as [Hk _].
Qed.

Lemma X14_witness :
  let cq_dict :=
    example_cq [Fin 23; Fin 23] [Fin 22; Fin 22]
               [Fin 23; Fin 23] [Fin 23; Fin 23] in
  ∃ out qPCR_mean qPCR_sem labels,
    relative_expression example_files example_genes cq_dict = Ok out
    ∧ figure_bars example_files example_genes out
      = Ok (qPCR_mean, qPCR_sem, labels)
    ∧ length qPCR_mean = length labels
    ∧ length qPCR_sem = length labels
    ∧ Forall (λ label, String.prefix "Rand42" label = false) labels.
Proof.
  intros cq_dict.
  assert (Rabs 23 <= 250 ∧ Rabs 22 <= 250)%R as [H23 H22]
    by (rewrite !Rabs_right by lra; lra).
  destruct (example_returns_tame [Fin 23; Fin 23] [Fin 22; Fin 22]
              [Fin 23; Fin 23] [Fin 23; Fin 23]) as [out Hout];
    [by apply tame_pair..|].
  destruct (X14_figure_bars example_files example_genes cq_dict out Hout)
    as (ms & ss & ls & Hbars & _ & _ & _ & Hlm & Hls & Hlabels).
  exists out, ms, ss, ls.
  exact (conj Hout (conj Hbars (conj Hlm (conj Hls Hlabels)))).
Defined.

(** ** The figure of the notebook *)

Lemma keys_same_Permutation {V W} (t : gmap string V) (u : gmap string W) :
  (∀ k, is_Some (t !! k) ↔ is_Some (u !! k)) → keys t ≡ₚ keys u.
Proof.
  intros Hsame. apply NoDup_Permutation.
  - apply NoDup_fst_map_to_list.
  - apply NoDup_fst_map_to_list.
  - intros k. by rewrite !elem_of_keys.
Qed.

Lemma bar_keys_cons_labels gene genes out :
  (bar_keys (gene :: genes) out).*2
  = (filter (λ guide, String.prefix "Rand42" guide = false)
       (keys (default ∅ (dd_cq_mean_dict out !! gene)))
     ++ (bar_keys genes out).*2)%list.
Proof.
  unfold bar_keys. rewrite bind_cons, fmap_app, <- list_fmap_compose.
  f_equal. apply list_fmap_id.
Qed.

Lemma notebook_bar_labels fs cq_dict cq_dict' out gene :
  import_data file_list gene_list fs = Ok cq_dict →
  well_correction cq_dict = Ok cq_dict' →
  relative_expression file_list gene_list cq_dict' = Ok out →
  gene ∈ target_genes file_list gene_list →
  filter (λ guide, String.prefix "Rand42" guide = false)
    (keys (default ∅ (dd_cq_mean_dict out !! gene)))
  ≡ₚ filter (λ guide, String.prefix "Rand42" guide = false)
       (keys (default ∅ (notebook_keys !! gene))).
Proof.
  intros Himport Hcorr Hrun Hgene.
  pose proof Hgene as [Hne Hlisted]%elem_of_target_genes.
  apply filter_Permutation, keys_same_Permutation. intros guide.
  assert (∀ {V} (d : gmap string (gmap string V)),
            default ∅ (d !! gene) !! guide = lookup2 d gene guide) as Hdef.
  { intros V d. unfold lookup2. destruct (d !! gene); [done|].
    simpl. apply lookup_empty. }
  rewrite !Hdef.
  destruct (normalised_entries file_list gene_list cq_dict' out gene guide
              Hrun) as (_ & _ & -> & _).
  rewrite (setitem2_lookup2 _ _ _ _ _ gene guide Hcorr).
  rewrite decide_False by (intros [Hg _]; exact (Hne Hg)).
  rewrite (import_data_same_keys file_list gene_list fs notebook_keys
             cq_dict gene guide notebook_init_keys Himport).
  tauto.
Qed.

(** The keys the notebook initialises hold empty groups. *)
Lemma notebook_keys_empty gene guide group :
  lookup2 notebook_keys gene guide = Some group → group = [].
Proof.
  assert (map_Forall (λ _ t,
            map_Forall (λ _ (l : list pyfloat), length l = 0%nat) t)
            notebook_keys) as Hall.
  { apply (bool_decide_unpack _). vm_compute. exact I. }
  unfold lookup2. intros Hgroup.
  destruct (notebook_keys !! gene) as [t|] eqn:Ht; [|done].
  simpl in Hgroup. apply length_zero_iff_nil.
  exact (Hall gene t Ht guide group Hgroup).
Qed.

(** On files that hold their header and nothing else, cells 3 to 6
    return: every group is empty but the one the well correction
    writes. *)
Lemma header_only_returns : is_Ok (notebook header_only_files).
Proof.
  assert (import_data file_list gene_list header_only_files
          = Ok notebook_keys) as Himport by reflexivity.
  destruct (notebook_corrected _ _ Himport)
    as (corrected & Hcorr & Hkeyed & ->).
  apply relative_expression_total; [exact Hkeyed|].
  apply tame_in_range. intros gene guide group.
  rewrite (setitem2_lookup2 _ _ _ _ _ gene guide Hcorr).
  case_decide as Hkey.
  - intros [= <-]. apply tame_pair; rewrite Rabs_right; lra.
  - intros ->%notebook_keys_empty. apply tame_nil.
Qed.

(** X15.  The bars of the notebook's figure.  Whenever cells 3 to 6
    return, the loop of cell 7 that collects the bars returns, and the bars
    come gene by gene in the order topA, ribB, ispA, mukF, tadA, two for
    each gene: its guides 1_C and 3_C (in the order the gene's dictionary
    gives them).  So there are ten bars, as many as the colours of [col],
    whose colours are equal in pairs: every gene gets one colour.  The
    drawing of the figure, after the loop, is not part of the model. *)
Theorem X15_notebook_figure fs out :
  notebook fs = Ok out →
  ∃ qPCR_mean qPCR_sem topA ribB ispA mukF tadA,
    notebook_figure fs
    = Ok (qPCR_mean, qPCR_sem,
          (topA ++ ribB ++ ispA ++ mukF ++ tadA)%list)
    ∧ topA ≡ₚ ["topA1_C"; "topA3_C"]
    ∧ ribB ≡ₚ ["ribB1_C"; "ribB3_C"]
    ∧ ispA ≡ₚ ["ispA1_C"; "ispA3_C"]
    ∧ mukF ≡ₚ ["mukF1_C"; "mukF3_C"]
    ∧ tadA ≡ₚ ["tadA1_C"; "tadA3_C"]
    ∧ length qPCR_mean = length col
    ∧ length qPCR_sem = length col.
Proof.
  intros Hout.
  assert (notebook_figure fs = figure_bars file_list gene_list out) as ->
    by (unfold notebook_figure; by rewrite Hout).
  unfold notebook in Hout.
  apply bind_Ok_inv in Hout as (cq_dict & Himport & Hout).
  apply bind_Ok_inv in Hout as (cq_dict' & Hcorr & Hrun).
  destruct (figure_bars_returns file_list gene_list cq_dict' out Hrun)
    as (ms & ss & ls & Hbars & Hls & Hmeans & Hsems).
  apply Forall2_length in Hmeans, Hsems.
  rewrite <- (length_fmap snd), <- Hls in Hmeans, Hsems.
  assert (target_genes file_list gene_list
          = ["topA"; "ribB"; "ispA"; "mukF"; "tadA"]) as Hgenes
    by (vm_compute; reflexivity).
  pose proof (notebook_bar_labels fs cq_dict cq_dict' out) as Hgene.
  rewrite Hgenes in Hls, Hgene.
  rewrite !bar_keys_cons_labels in Hls.
  change ((bar_keys [] out).*2) with (@nil string) in Hls.
  rewrite app_nil_r in Hls.
  pose proof (Hgene "topA" Himport Hcorr Hrun) as HtopA.
  pose proof (Hgene "ribB" Himport Hcorr Hrun) as HribB.
  pose proof (Hgene "ispA" Himport Hcorr Hrun) as HispA.
  pose proof (Hgene "mukF" Himport Hcorr Hrun) as HmukF.
  pose proof (Hgene "tadA" Himport Hcorr Hrun) as HtadA.
  clear Hgene.
  set (plotted := λ gene : string,
         filter (λ guide, String.prefix "Rand42" guide = false)
           (keys (default ∅ (dd_cq_mean_dict out !! gene)))) in *.
  assert (∀ gene guide1 guide3,
            gene ∈ ["topA"; "ribB"; "ispA"; "mukF"; "tadA"] →
            (gene ∈ ["topA"; "ribB"; "ispA"; "mukF"; "tadA"] →
             plotted gene
             ≡ₚ filter (λ guide, String.prefix "Rand42" guide = false)
                  (keys (default ∅ (notebook_keys !! gene)))) →
            filter (λ guide, String.prefix "Rand42" guide = false)
              (keys (default ∅ (notebook_keys !! gene)))
            ≡ₚ [guide1; guide3] →
            plotted gene ≡ₚ [guide1; guide3]) as Hperm.
  { intros gene g1 g3 Hin Hp Hk. rewrite (Hp Hin). exact Hk. }
  assert (∀ x y : string, [x; y] ≡ₚ [y; x]) as Hswap
    by (intros x y; apply (Permutation_swap y x [])).
  assert (∀ gene, gene ∈ ["topA"; "ribB"; "ispA"; "mukF"; "tadA"]
                  ↔ gene = "topA" ∨ gene = "ribB" ∨ gene = "ispA"
                    ∨ gene = "mukF" ∨ gene = "tadA") as Hin.
  { intros gene. rewrite !elem_of_cons, elem_of_nil. tauto. }
  assert (plotted "topA" ≡ₚ ["topA1_C"; "topA3_C"]) as PtopA.
  { apply Hperm; [apply Hin; auto 10|exact HtopA|].
    vm_compute. first [reflexivity|apply Hswap]. }
  assert (plotted "ribB" ≡ₚ ["ribB1_C"; "ribB3_C"]) as PribB.
  { apply Hperm; [apply Hin; auto 10|exact HribB|].
    vm_compute. first [reflexivity|apply Hswap]. }
  assert (plotted "ispA" ≡ₚ ["ispA1_C"; "ispA3_C"]) as PispA.
  { apply Hperm; [apply Hin; auto 10|exact HispA|].
    vm_compute. first [reflexivity|apply Hswap]. }
  assert (plotted "mukF" ≡ₚ ["mukF1_C"; "mukF3_C"]) as PmukF.
  { apply Hperm; [apply Hin; auto 10|exact HmukF|].
    vm_compute. first [reflexivity|apply Hswap]. }
  assert (plotted "tadA" ≡ₚ ["tadA1_C"; "tadA3_C"]) as PtadA.
  { apply Hperm; [apply Hin; auto 10|exact HtadA|].
    vm_compute. first [reflexivity|apply Hswap]. }
  assert (length ls = length col) as Hlen.
  { unfold plotted in *.
    rewrite Hls, !length_app, (Permutation_length PtopA),
      (Permutation_length PribB), (Permutation_length PispA),
      (Permutation_length PmukF), (Permutation_length PtadA).
    reflexivity. }
  exists ms, ss, (plotted "topA"), (plotted "ribB"), (plotted "ispA"),
    (plotted "mukF"), (plotted "tadA").
  split; [rewrite Hbars, Hls; reflexivity|].
  rewrite <- Hmeans, <- Hsems.
  exact (conj PtopA (conj PribB (conj PispA (conj PmukF
           (conj PtadA (conj Hlen Hlen)))))).
Qed.

Lemma X15_witness :
  import_data file_list gene_list header_only_files = Ok notebook_keys
  ∧ ∃ qPCR_mean qPCR_sem topA ribB ispA mukF tadA,
      notebook_figure header_only_files
      = Ok (qPCR_mean, qPCR_sem,
            (topA ++ ribB ++ ispA ++ mukF ++ tadA)%list)
      ∧ topA ≡ₚ ["topA1_C"; "topA3_C"]
      ∧ ribB ≡ₚ ["ribB1_C"; "ribB3_C"]
      ∧ ispA ≡ₚ ["ispA1_C"; "ispA3_C"]
      ∧ mukF ≡ₚ ["mukF1_C"; "mukF3_C"]
      ∧ tadA ≡ₚ ["tadA1_C"; "tadA3_C"]
      ∧ length qPCR_mean = length col
      ∧ length qPCR_sem = length col.
Proof.
  assert (import_data file_list gene_list header_only_files
          = Ok notebook_keys) as Himport by reflexivity.
  split; [exact Himport|].
  destruct header_only_returns as [out Hout].
  exact (X15_notebook_figure header_only_files out Hout).
Defined.

(** ** The notebook, cell after cell *)

(** X16.  In the notebook, the reference-gene group under the reference
    guide of the first file is never the one read from the file: whenever
    cells 3 to 6 return, the fold change of a guide of topA or ribB and its
    SEM are those the calculator gives for the group of hcaT under the
    guide and the two groups of the gene as the import read them, and for
    the two values the well correction wrote. *)
Theorem X16_notebook_uses_corrected_reference fs cq_dict out gene guide
    group :
  import_data file_list gene_list fs = Ok cq_dict →
  notebook fs = Ok out →
  gene = "topA" ∨ gene = "ribB" →
  guide ≠ "Rand42_20200806" →
  lookup2 cq_dict gene guide = Some group →
  ∃ hcaT gene_ref lin lin_sem,
    lookup2 cq_dict "hcaT" guide = Some hcaT
    ∧ lookup2 cq_dict gene "Rand42_20200806" = Some gene_ref
    ∧ fold_change hcaT group
        [Fin 23.48359183; Fin 23.68555433] gene_ref = Ok lin
    ∧ fold_change_sem hcaT group
        [Fin 23.48359183; Fin 23.68555433] gene_ref = Ok lin_sem
    ∧ lookup2 (dd_cq_mean_lin_dict out) gene guide = Some lin
    ∧ lookup2 (dd_cq_sem_lin_dict out) gene guide = Some lin_sem.
Proof.
  intros Himport Hrun Hgene Hguide Hgroup. unfold notebook in Hrun.
  apply bind_Ok_inv in Hrun as (cq0 & Himport' & Hrun).
  assert (cq0 = cq_dict) as -> by congruence.
  clear Himport'.
  apply bind_Ok_inv in Hrun as (cq_dict' & Hcorr & Hrun).
  pose proof (λ g k, setitem2_lookup2 _ _ _ _ _ g k Hcorr) as Hcq'.
  assert (gene ≠ "hcaT") as Hne
    by (destruct Hgene as [-> | ->]; discriminate).
  assert (last_file file_list gene_list gene
          = Some "20200806_luna_rtqpcr_quant.csv") as Hlast
    by (destruct Hgene as [-> | ->]; vm_compute; reflexivity).
  assert (lookup2 cq_dict' gene guide = Some group) as Hgroup'.
  { rewrite Hcq'. rewrite decide_False; [exact Hgroup|].
    intros [Hg _]. exact (Hne Hg). }
  destruct (relative_expression_lookup file_list gene_list cq_dict' out
              gene guide "20200806_luna_rtqpcr_quant.csv" group Hrun Hne
              Hlast Hgroup') as (hcaT & hcaT_ref & gene_ref & sem & lin
                                 & HhcaT & HhcaT_ref & Hgene_ref & Hsem
                                 & Hlin & _ & _ & Hlin_mean & Hlin_sem).
  change ("Rand42_" +:+ substring 0 8 "20200806_luna_rtqpcr_quant.csv")
    with "Rand42_20200806" in HhcaT_ref, Hgene_ref.
  rewrite Hcq' in HhcaT, HhcaT_ref, Hgene_ref.
  rewrite decide_False in HhcaT by (intros [_ Hk]; exact (Hguide Hk)).
  rewrite decide_True in HhcaT_ref by (split; reflexivity).
  rewrite decide_False in Hgene_ref by (intros [Hg _]; exact (Hne Hg)).
  injection HhcaT_ref as <-.
  exists hcaT, gene_ref, lin, (fmul (fmul np_log2 sem) lin).
  split; [exact HhcaT|]. split; [exact Hgene_ref|]. split; [exact Hlin|].
  split; [|exact (conj Hlin_mean Hlin_sem)].
  unfold fold_change_sem. rewrite Hsem, Hlin. reflexivity.
Qed.

Lemma X16_witness :
  import_data file_list gene_list header_only_files = Ok notebook_keys
  ∧ ∃ out hcaT gene_ref lin lin_sem,
      notebook header_only_files = Ok out
      ∧ lookup2 notebook_keys "hcaT" "topA1_C" = Some hcaT
      ∧ lookup2 notebook_keys "topA" "Rand42_20200806" = Some gene_ref
      ∧ fold_change hcaT []
          [Fin 23.48359183; Fin 23.68555433] gene_ref = Ok lin
      ∧ fold_change_sem hcaT []
          [Fin 23.48359183; Fin 23.68555433] gene_ref = Ok lin_sem
      ∧ lookup2 (dd_cq_mean_lin_dict out) "topA" "topA1_C" = Some lin
      ∧ lookup2 (dd_cq_sem_lin_dict out) "topA" "topA1_C" = Some lin_sem.
Proof.
  assert (import_data file_list gene_list header_only_files
          = Ok notebook_keys) as Himport by reflexivity.
  split; [exact Himport|].
  destruct header_only_returns as [out Hout].
  assert ("topA1_C" ≠ "Rand42_20200806") as Hguide
    by (intros H; by injection H).
  destruct (X16_notebook_uses_corrected_reference header_only_files
              notebook_keys out "topA" "topA1_C" [] Himport Hout
              (or_introl eq_refl) Hguide eq_refl)
    as (hcaT & gene_ref & lin & lin_sem & H).
  exists out, hcaT, gene_ref, lin, lin_sem. exact (conj Hout H).
Defined.

(** ** A blank Cq field *)

Lemma lstrip_blank (cs : list ascii) :
  Forall (λ c, is_space c = true) cs → lstrip cs = [].
Proof. induction 1 as [|c cs Hc _ IH]; [done|]. simpl. by rewrite Hc. Qed.

Lemma strip_blank (cs : list ascii) :
  Forall (λ c, is_space c = true) cs → strip cs = [].
Proof. intros Hcs. unfold strip. by rewrite (lstrip_blank cs). Qed.

Lemma py_float_blank (s : string) :
  Forall (λ c, is_space c = true) (list_ascii_of_string s) →
  py_float s = None.
Proof. intros Hs. unfold py_float. by rewrite strip_blank. Qed.

(** X17.  A Cq field that is blank but not empty is not skipped.  When
    the Cq column is the last one of a row and has no value, field 5 is the
    newline alone: it passes the test against the empty string, and for a
    listed gene and a guide that is a key, [float] raises ValueError. *)
Theorem X17_blank_Cq_raises gl file_date line cq_dict
    gene guide cq genes :
  fields line !! 2 = Some gene → gene ≠ "" →
  fields line !! 4 = Some guide →
  fields line !! 5 = Some cq → cq ≠ "" →
  Forall (λ c, is_space c = true) (list_ascii_of_string cq) →
  gl !! file_date = Some genes → gene ∈ genes →
  is_Some (lookup2 cq_dict gene guide) →
  process_line gl file_date line cq_dict = Raise ValueError.
Proof.
  intros H2 Hgene H4 H5 Hcq Hblank Hgl Hlisted [group Hgroup].
  unfold process_line, index. fold (fields line).
  rewrite H2. simpl. rewrite decide_False by done.
  rewrite H5. simpl. rewrite decide_False by done.
  unfold getitem. rewrite Hgl. simpl. rewrite decide_True by done.
  rewrite H4. simpl. unfold lookup2 in Hgroup.
  destruct (cq_dict !! gene) as [guides|]; [|done].
  simpl in *. rewrite Hgroup. unfold float_of.
  by rewrite py_float_blank.
Qed.

Lemma X17_witness :
  process_line example_genes "20200806"
    ("A03,SYBR,gene,Unkn,gene1_C," +:+ newline) (example_cq [] [] [] [])
  = Raise ValueError.
Proof.
  apply (X17_blank_Cq_raises example_genes "20200806" _ _
           "gene" "gene1_C" newline ["hcaT"; "gene"]);
    try reflexivity; try done.
  - repeat constructor.
  - right. by left.
Defined.

(** ** When the import returns *)

(** A loop that returns ran every pass of its body to its end. *)
Lemma for_each_Ok_each {A S} (P : S → Prop) (xs : list A)
    (body : A → S → result S) (s s' : S) (x : A) :
  P s →
  (∀ y s s', y ∈ xs → P s → body y s = Ok s' → P s') →
  for_each xs body s = Ok s' → x ∈ xs →
  ∃ s1 s2, P s1 ∧ body x s1 = Ok s2.
Proof.
  revert s. induction xs as [|y xs IH]; intros s Hs Hkeep Hrun Hin.
  - by apply elem_of_nil in Hin.
  - simpl in Hrun. apply bind_Ok_inv in Hrun as (s1 & Hy & Hrun).
    apply elem_of_cons in Hin as [->|Hin]; [by exists s, s1|].
    apply (IH s1); [|intros z t t' Hz; apply Hkeep; by right|done..].
    eapply Hkeep; [by left|done..].
Qed.

Section import_returns.
Variables (fl : list string) (gl : gmap string (list string)).
Implicit Types cq_dict : gmap string (gmap string (list pyfloat)).

Lemma import_invariant_init cq_dict :
  init_keys fl gl = Ok cq_dict → import_invariant fl gl cq_dict.
Proof.
  intros Hinit. split; [by apply init_keys_keyed|].
  intros gene guide. by apply init_keys_expected.
Qed.

Lemma import_invariant_line file_date line cq_dict cq_dict' :
  import_invariant fl gl cq_dict →
  process_line gl file_date line cq_dict = Ok cq_dict' →
  import_invariant fl gl cq_dict'.
Proof.
  intros [Hkeyed Hkeys] Hline.
  apply process_line_keys in Hline as [Hdom Hsame]. split.
  - by apply (keyed_same_keys fl gl cq_dict cq_dict').
  - intros gene guide. by rewrite <- Hsame.
Qed.

Lemma import_invariant_lines file_date lines cq_dict cq_dict' :
  import_invariant fl gl cq_dict →
  for_each lines (process_line gl file_date) cq_dict = Ok cq_dict' →
  import_invariant fl gl cq_dict'.
Proof.
  intros Hinv. apply (for_each_invariant (import_invariant fl gl)); [done|].
  intros line s s' _ Hs. by apply import_invariant_line.
Qed.

Lemma bad_cq_bad_row file_name line cq_dict :
  import_invariant fl gl cq_dict → file_name ∈ fl →
  bad_cq gl (substring 0 8 file_name) cq_dict line
  ↔ bad_row fl gl file_name line.
Proof.
  intros [Hkeyed Hkeys] Hin. unfold bad_cq, bad_row, lists. split.
  - intros (gene & guide & cq & genes & guides & replicates & H2 & Hgene
            & H4 & H5 & Hcq & Hgl & Hlisted & Hguides & Hrep & Hfloat).
    exists gene, guide, cq. split_and!; try done; [by exists genes|].
    apply Hkeys. rewrite (lookup2_Some _ _ _ _ Hguides). by eexists.
  - intros (gene & guide & cq & H2 & Hgene & H4 & H5 & Hcq
            & (genes & Hgl & Hlisted) & Hkey & Hfloat).
    apply Hkeys in Hkey as [replicates Hrep].
    destruct (cq_dict !! gene) as [guides|] eqn:Hguides;
      [|by rewrite (lookup2_None _ _ _ Hguides) in Hrep].
    rewrite (lookup2_Some _ _ _ _ Hguides) in Hrep.
    by exists gene, guide, cq, genes, guides, replicates.
Qed.

Lemma process_line_returns_iff file_name line cq_dict :
  import_invariant fl gl cq_dict → file_name ∈ fl →
  is_Ok (process_line gl (substring 0 8 file_name) line cq_dict)
  ↔ ¬ too_short line ∧ ¬ bad_row fl gl file_name line.
Proof.
  intros Hinv Hin. rewrite <- (bad_cq_bad_row _ _ cq_dict Hinv Hin).
  destruct Hinv as [Hkeyed _].
  destruct (Hkeyed file_name Hin) as (genes & Hgl & Hgenes).
  destruct (process_line_cases gl (substring 0 8 file_name) line cq_dict
              genes Hgl) as [[Hrun Hshort]|[[Hrun Hbad]|[Hrun Hok]]].
  - intros gene Hgene. by apply Hgenes.
  - rewrite Hrun. split; [by intros [? ?]|by intros [? _]].
  - rewrite Hrun. split; [by intros [? ?]|by intros [_ ?]].
  - done.
Qed.
End import_returns.

(** X18.  The import returns exactly when the key initialisation returns,
    every file of the list can be opened, and no row after a header is too
    short (fewer than three fields, or a gene and fewer than six) or has,
    for a gene of the file and one of its guides, a Cq field that [float]
    rejects.  Nothing else in a file can stop it. *)
Theorem X18_import_returns_iff fl gl fs :
  is_Ok (import_data fl gl fs)
  ↔ is_Ok (init_keys fl gl)
    ∧ ∀ file_name, file_name ∈ fl →
        ∃ lines,
          fs !! (input_path +:+ file_name) = Some lines
          ∧ ∀ line, line ∈ tail lines →
              ¬ too_short line ∧ ¬ bad_row fl gl file_name line.
Proof.
  unfold import_data. split.
  - intros [cq_dict Himport].
    apply bind_Ok_inv in Himport as (cq0 & Hinit & Hread).
    split; [by exists cq0|]. intros file_name Hin.
    unfold read_files in Hread.
    edestruct (for_each_Ok_each (import_invariant fl gl) fl)
      as (s1 & s2 & Hs1 & Hfile); [| |exact Hread|exact Hin|].
    { by apply import_invariant_init. }
    { intros f s s' _ Hs Hf.
      apply bind_Ok_inv in Hf as (lines & _ & Hlines).
      by apply (import_invariant_lines fl gl _ _ _ _ Hs Hlines). }
    apply bind_Ok_inv in Hfile as (lines & Hopen & Hlines).
    exists lines. unfold open in Hopen.
    destruct (fs !! (input_path +:+ file_name)) as [lines'|]; [|done].
    injection Hopen as ->. split; [done|]. intros line Hline.
    unfold read_lines in Hlines.
    edestruct (for_each_Ok_each (import_invariant fl gl) (tail lines))
      as (t1 & t2 & Ht1 & Hrow); [| |exact Hlines|exact Hline|].
    { exact Hs1. }
    { intros l s s' _ Hs Hl.
      by apply (import_invariant_line fl gl _ _ _ _ Hs Hl). }
    apply (process_line_returns_iff fl gl file_name line t1 Ht1 Hin).
    by exists t2.
  - intros [[cq0 Hinit] Hfiles]. rewrite Hinit. simpl.
    destruct (for_each_total (import_invariant fl gl) fl
                (λ file_name cq_dict,
                   lines ← open fs (input_path +:+ file_name);
                   read_lines gl (substring 0 8 file_name) lines cq_dict)
                cq0) as (cq_dict & Hread & _);
      [by apply import_invariant_init| |by exists cq_dict].
    intros file_name s Hin Hs.
    destruct (Hfiles file_name Hin) as (lines & Hfs & Hrows).
    unfold open. rewrite Hfs. simpl. unfold read_lines.
    apply for_each_total; [done|]. intros line t Hline Ht.
    destruct (proj2 (process_line_returns_iff fl gl file_name line t Ht Hin)
                (Hrows line Hline)) as [t' Hrow].
    exists t'. split; [done|]. by eapply import_invariant_line.
Qed.
